(** * A shallow embedding of [main.py], the composite-image generator

    The program paints a gradient, two flowers, a logo, four placeholder
    images and a table onto one canvas and saves it.  This file embeds its
    functions and proves (or refutes) statements of its specification.

    Conventions of the embedding.
    - Python [int] is [Z]; [//] is [Z.div] (floor division).
    - Python [str] is [string]; only ASCII text is modelled.
    - Python [float] is an interface [PyFloat], whose instance is IEEE-754
      binary64 from [SpecFloat], bit for bit what CPython computes.  The
      conversion of an [int] raises [OverflowError] beyond the range of a
      float, a division by zero raises [ZeroDivisionError].  The values of
      [math.cos] and [math.sin] are those of the C library: they are a
      parameter [Libm] of the instance.
    - The drawing context, the standard output and raised exceptions are
      explicit: a computation is a function from a [state] to an
      [outcome] and the state it leaves behind.
    - A drawing call is recorded on the canvas, with its arguments, when
      Pillow accepts them.  As in Pillow 9.5, the last release line that
      has [Image.ANTIALIAS], [draw.rectangle] and [draw.ellipse] raise
      [ValueError] for a box whose second corner lies left of or above
      the first, and [draw.text] raises [TypeError] for a text that is not
      a string.  Integers handed to Pillow are taken to be in the range
      of its C layer; rasterisation and clipping are outside the model. *)

From Stdlib Require Import ZArith QArith Qround Lia Lqa List String Ascii Bool.
From Stdlib Require Import SpecFloat.
From Stdlib Require Import Reals Lra.
Import ListNotations.

Set Warnings "-register-all".

Local Open Scope string_scope.
Local Open Scope Z_scope.

(** ** Exceptions and outcomes *)

Inductive exn : Type :=
| KeyError (key : string)
| IndexError
| TypeError
| ValueError
| OverflowError
| ZeroDivisionError
| FileNotFoundError
| JSONDecodeError
| OSError.

Inductive outcome (A : Type) : Type :=
| Ret (a : A)
| Raise (e : exn).

Arguments Ret {A} a.
Arguments Raise {A} e.

Definition obind {A B : Type} (m : outcome A) (k : A -> outcome B) : outcome B :=
  match m with
  | Ret a => k a
  | Raise e => Raise e
  end.

Declare Scope outcome_scope.
Delimit Scope outcome_scope with outcome.
Notation "x <- m ;; k" := (obind m (fun x => k))
  (at level 61, m at next level, right associativity) : outcome_scope.

(** ** Strings: the pieces of [str] and [int(_, 16)] that [hex_to_rgb] uses *)

(** [s.lstrip(c)] for a one-character argument. *)
Fixpoint lstrip (c : ascii) (s : string) : string :=
  match s with
  | String a s' => if Ascii.eqb a c then lstrip c s' else s
  | EmptyString => EmptyString
  end.

(** [s[i:i+2]]: a slice never raises, it is cut at the end of the string. *)
Definition slice2 (s : string) (i : nat) : string := substring i 2 s.

(** C-level white space, what [int] skips around an ASCII literal. *)
Definition is_space (c : ascii) : bool :=
  let n := nat_of_ascii c in
  ((9 <=? n)%nat && (n <=? 13)%nat) || (n =? 32)%nat.

Fixpoint lstrip_space (s : string) : string :=
  match s with
  | String a s' => if is_space a then lstrip_space s' else s
  | EmptyString => EmptyString
  end.

Fixpoint all_space (s : string) : bool :=
  match s with
  | String a s' => is_space a && all_space s'
  | EmptyString => true
  end.

Definition hex_digit (c : ascii) : option Z :=
  let n := Z.of_nat (nat_of_ascii c) in
  if (48 <=? n) && (n <=? 57) then Some (n - 48)
  else if (97 <=? n) && (n <=? 102) then Some (n - 87)
  else if (65 <=? n) && (n <=? 70) then Some (n - 55)
  else None.

(** The digit scan of [int]: digits, single underscores between them. It
    stops at the first other character and gives back what is left. *)
Fixpoint scan16 (s : string) (acc : Z) (prev_underscore : bool) : option (Z * string) :=
  match s with
  | String c s' =>
      if Ascii.eqb c "_" then
        if prev_underscore then None else scan16 s' acc true
      else
        match hex_digit c with
        | Some d => scan16 s' (16 * acc + d) false
        | None => if prev_underscore then None else Some (acc, s)
        end
  | EmptyString => if prev_underscore then None else Some (acc, s)
  end.

Definition strip_sign (s : string) : bool * string :=
  match s with
  | String "+" r => (false, r)
  | String "-" r => (true, r)
  | _ => (false, s)
  end.

Definition strip_0x (s : string) : string :=
  match s with
  | String "0" (String x r) =>
      if Ascii.eqb x "x" || Ascii.eqb x "X" then
        match r with
        | String "_" r' => r'
        | _ => r
        end
      else s
  | _ => s
  end.

(** [int(s, 16)]: white space, a sign, an optional [0x], digits, white
    space; anything else is a [ValueError]. *)
Definition int16 (s : string) : outcome Z :=
  let '(neg, s2) := strip_sign (lstrip_space s) in
  let s3 := strip_0x s2 in
  match s3 with
  | String "_" _ => Raise ValueError
  | _ =>
      match scan16 s3 0 false with
      | Some (v, rest) =>
          if (String.length rest =? String.length s3)%nat then Raise ValueError
          else if all_space rest then Ret (if neg then - v else v)
          else Raise ValueError
      | None => Raise ValueError
      end
  end.

(** ** [hex_to_rgb] *)

Definition hex_to_rgb (hex_color : string) : outcome (Z * Z * Z) :=
  let hex_color := lstrip "#" hex_color in
  (r <- int16 (slice2 hex_color 0) ;;
   g <- int16 (slice2 hex_color 2) ;;
   b <- int16 (slice2 hex_color 4) ;;
   Ret (r, g, b))%outcome.

Definition is_hex_digit (c : ascii) : bool :=
  match hex_digit c with Some _ => true | None => false end.

(** A string of exactly six hexadecimal digits. *)
Definition is_hex6 (s : string) : bool :=
  (String.length s =? 6)%nat && forallb is_hex_digit (list_ascii_of_string s).

(** ** Floating-point numbers

    The operations the program, and Pillow's [thumbnail] on its behalf,
    perform on [float].  [of_int] is [float(n)] and the coercion Python
    applies to an [int] operand of a mixed operation; [fdiv] is [/];
    [fltb] and [fleb] are [<] and [<=]; [to_int] is [int(x)], truncation
    toward zero; [ffloor] and [fceil] are [math.floor] and [math.ceil];
    [radians], [fcos] and [fsin] are the functions of [math];
    [to_coordinate] is the number a float stands for. *)

Inductive coordinate : Type :=
| Finite (r : R)
| Infinite (negative : bool)
| NotANumber.

Class PyFloat (F : Type) : Type := {
  of_int : Z -> outcome F;
  fadd : F -> F -> F;
  fsub : F -> F -> F;
  fmul : F -> F -> F;
  fdiv : F -> F -> outcome F;
  fabs : F -> F;
  fltb : F -> F -> bool;
  fleb : F -> F -> bool;
  to_int : F -> outcome Z;
  ffloor : F -> outcome Z;
  fceil : F -> outcome Z;
  radians : F -> F;
  fcos : F -> outcome F;
  fsin : F -> outcome F;
  to_coordinate : F -> coordinate
}.

(** [math.cos] and [math.sin] on finite arguments, as the C library of
    the machine computes them. *)
Class Libm : Type := {
  libm_cos : spec_float -> spec_float;
  libm_sin : spec_float -> spec_float
}.

(** IEEE-754 binary64, round to nearest even: CPython's [float]. *)
Module Binary64.
Definition prec : Z := 53.
Definition emax : Z := 1024.

(** [float(n)]: the nearest float, [OverflowError] when it would be an
    infinity. *)
Definition of_Z (n : Z) : outcome spec_float :=
  match binary_normalize prec emax n 0 false with
  | S754_infinity _ => Raise OverflowError
  | x => Ret x
  end.

(** [x / y]. *)
Definition div (x y : spec_float) : outcome spec_float :=
  match y with
  | S754_zero _ => Raise ZeroDivisionError
  | _ => Ret (SFdiv prec emax x y)
  end.

(** [int(x)]. *)
Definition truncate (x : spec_float) : outcome Z :=
  match x with
  | S754_zero _ => Ret 0
  | S754_finite s m e =>
      let a := match e with
               | Z0 => Zpos m
               | Zpos p => Zpos m * 2 ^ Zpos p
               | Zneg p => Zpos m / 2 ^ Zpos p
               end in
      Ret (if s then - a else a)
  | S754_infinity _ => Raise OverflowError
  | S754_nan => Raise ValueError
  end.

(** Whether [m * 2^e] is an integer. *)
Definition integral (m : positive) (e : Z) : bool :=
  match e with
  | Zneg p => Zpos m mod 2 ^ Zpos p =? 0
  | _ => true
  end.

(** [math.floor(x)] and [math.ceil(x)]. *)
Definition floor (x : spec_float) : outcome Z :=
  match x with
  | S754_finite true m e =>
      (a <- truncate x ;; Ret (if integral m e then a else a - 1))%outcome
  | _ => truncate x
  end.

Definition ceil (x : spec_float) : outcome Z :=
  match x with
  | S754_finite false m e =>
      (a <- truncate x ;; Ret (if integral m e then a else a + 1))%outcome
  | _ => truncate x
  end.

(** [math.pi], and the constant [pi / 180] by which [math.radians]
    multiplies. *)
Definition pi : spec_float := S754_finite false 7074237752028440 (-51).
Definition deg_to_rad : spec_float := S754_finite false 5030569068109113 (-58).

Definition to_radians (x : spec_float) : spec_float := SFmul prec emax x deg_to_rad.

(** [math.cos(x)] and [math.sin(x)]: a [ValueError] on an infinity. *)
Definition cos {lm : Libm} (x : spec_float) : outcome spec_float :=
  match x with
  | S754_infinity _ => Raise ValueError
  | _ => Ret (libm_cos x)
  end.

Definition sin {lm : Libm} (x : spec_float) : outcome spec_float :=
  match x with
  | S754_infinity _ => Raise ValueError
  | _ => Ret (libm_sin x)
  end.

(** What a float stands for, as a coordinate handed to Pillow, and, when
    it is finite, as a rational number. *)
Definition to_coordinate (x : spec_float) : coordinate :=
  match x with
  | S754_zero _ => Finite 0
  | S754_finite s m e => Finite (IZR (if s then Zneg m else Zpos m) * powerRZ 2 e)
  | S754_infinity s => Infinite s
  | S754_nan => NotANumber
  end.

Definition to_Q (x : spec_float) : option Q :=
  match x with
  | S754_zero _ => Some 0%Q
  | S754_finite s m e => Some (inject_Z (if s then Zneg m else Zpos m) * 2 ^ e)%Q
  | _ => None
  end.

(** The float of an integer that has one, as the literals of the program
    do. *)
Definition lit (n : Z) : spec_float := binary_normalize prec emax n 0 false.
End Binary64.

#[export] Instance PyFloat_binary64 {lm : Libm} : PyFloat spec_float := {|
  of_int := Binary64.of_Z;
  fadd := SFadd Binary64.prec Binary64.emax;
  fsub := SFsub Binary64.prec Binary64.emax;
  fmul := SFmul Binary64.prec Binary64.emax;
  fdiv := Binary64.div;
  fabs := SFabs;
  fltb := SFltb;
  fleb := SFleb;
  to_int := Binary64.truncate;
  ffloor := Binary64.floor;
  fceil := Binary64.ceil;
  radians := Binary64.to_radians;
  fcos := Binary64.cos;
  fsin := Binary64.sin;
  to_coordinate := Binary64.to_coordinate
|}.

(** The five angles [math.radians(k * 72.0)] of a flower, with the
    cosine and the sine that glibc returns for each on x86-64. *)
Definition petal_table : list (spec_float * (spec_float * spec_float)) :=
  [ (S754_zero false,
     (S754_finite false 4503599627370496 (-52), S754_zero false));
    (S754_finite false 5659390201622752 (-52),
     (S754_finite false 5566755282872656 (-54), S754_finite false 8566355544790271 (-53)));
    (S754_finite false 5659390201622752 (-51),
     (S754_finite true 7286977268806823 (-53), S754_finite false 5294298886396511 (-53)));
    (S754_finite false 8489085302434128 (-51),
     (S754_finite true 7286977268806825 (-53), S754_finite true 5294298886396509 (-53)));
    (S754_finite false 5659390201622752 (-50),
     (S754_finite false 5566755282872652 (-54), S754_finite true 8566355544790272 (-53))) ].

Definition petal_lookup (x : spec_float) : option (spec_float * spec_float) :=
  option_map snd (find (fun row => SFeqb x (fst row)) petal_table).

(** A C library known at those five angles only, to evaluate the program
    with; elsewhere it answers with a NaN. *)
#[export] Instance sample_libm : Libm := {|
  libm_cos := fun x =>
    match petal_lookup x with Some cs => fst cs | None => S754_nan end;
  libm_sin := fun x =>
    match petal_lookup x with Some cs => snd cs | None => S754_nan end
|}.

(** ** The canvas, the standard output and the computation monad *)

Inductive color : Type :=
| RGB (r g b : Z)
| Named (name : string).

(** JSON values as [json.load] builds them.  A number keeps its literal:
    the program never computes with one. *)
Inductive json : Type :=
| JNull
| JBool (b : bool)
| JNum (literal : string)
| JStr (s : string)
| JList (items : list json)
| JDict (entries : list (string * json)).

Record image : Type := mkImage {
  img_path : string;
  img_width : Z;
  img_height : Z
}.

Record font : Type := mkFont {
  font_file : string;
  font_size : Z
}.

(** One call on the canvas or its drawing context, with its arguments. *)
Inductive draw_op : Type :=
| Line (x0 y0 x1 y1 : Z) (fill : color) (width : Z)
| Ellipse (x0 y0 x1 y1 : coordinate) (fill : color)
| Rectangle (x0 y0 x1 y1 : Z) (fill outline : color)
| Text (x y : Z) (text : json) (f : font) (fill : color)
| Paste (im : image) (x y : Z) (mask : option image)
| Save (path : string).

Record state : Type := mkState {
  canvas : list draw_op;
  stdout : list string
}.

Definition initial_state : state := mkState [] [].

Definition Py (A : Type) : Type := state -> outcome A * state.

Definition ret {A : Type} (a : A) : Py A := fun st => (Ret a, st).
Definition raise {A : Type} (e : exn) : Py A := fun st => (Raise e, st).

Definition bind {A B : Type} (m : Py A) (k : A -> Py B) : Py B :=
  fun st =>
    match m st with
    | (Ret a, st') => k a st'
    | (Raise e, st') => (Raise e, st')
    end.

Definition lift {A : Type} (o : outcome A) : Py A := fun st => (o, st).

Definition emit (op : draw_op) : Py unit :=
  fun st => (Ret tt, mkState (canvas st ++ [op]) (stdout st)).

Definition print (line : string) : Py unit :=
  fun st => (Ret tt, mkState (canvas st) (stdout st ++ [line])).

Declare Scope py_scope.
Delimit Scope py_scope with py.
Notation "x <- m ;; k" := (bind m (fun x => k))
  (at level 61, m at next level, right associativity) : py_scope.
Notation "m ;;; k" := (bind m (fun _ => k))
  (at level 61, right associativity) : py_scope.

(** [for x in xs: body x]; an exception in the body ends the loop. *)
Fixpoint for_each {A : Type} (xs : list A) (body : A -> Py unit) : Py unit :=
  match xs with
  | [] => ret tt
  | x :: xs' => (body x ;;; for_each xs' body)%py
  end.

(** [range(n)] and [enumerate(xs)]. *)
Definition range (n : Z) : list Z := map Z.of_nat (seq 0 (Z.to_nat n)).

Definition enumerate {A : Type} (xs : list A) : list (nat * A) :=
  combine (seq 0 (List.length xs)) xs.

(** ** The calls on the drawing context

    [draw.line] is recorded as it is.  [draw.rectangle] and
    [draw.ellipse] first compare the corners of their box, [draw.text]
    first looks at the type of its text. *)

Definition draw_line (x0 y0 x1 y1 : Z) (fill : color) (width : Z) : Py unit :=
  emit (Line x0 y0 x1 y1 fill width).

Definition draw_rectangle (x0 y0 x1 y1 : Z) (fill outline : color) : Py unit :=
  if (x1 <? x0) || (y1 <? y0) then raise ValueError
  else emit (Rectangle x0 y0 x1 y1 fill outline).

Definition draw_text (x y : Z) (text : json) (f : font) (fill : color) : Py unit :=
  match text with
  | JStr _ => emit (Text x y text f fill)
  | _ => raise TypeError
  end.

Definition draw_ellipse {F : Type} {PF : PyFloat F} (x0 y0 x1 y1 : F) (fill : color)
  : Py unit :=
  if fltb x1 x0 || fltb y1 y0 then raise ValueError
  else emit (Ellipse (to_coordinate x0) (to_coordinate y0) (to_coordinate x1)
                     (to_coordinate y1) fill).

(** ** [draw_gradient] *)

Section Gradient.
Context {F : Type} {PF : PyFloat F}.

(** Line 33: the blend factor of row [i]. *)
Definition gradient_blend (i height : Z) : outcome F :=
  (fi <- of_int i ;;
   fh <- of_int height ;;
   ratio <- fdiv fi fh ;;
   two <- of_int 2 ;;
   Ret (if i <=? height / 2
        then fmul ratio two
        else fsub two (fmul ratio two)))%outcome.

(** Line 35: one channel of the interpolated colour. *)
Definition gradient_channel (top bottom : Z) (blend : F) : outcome Z :=
  (ft <- of_int top ;;
   one <- of_int 1 ;;
   fb <- of_int bottom ;;
   to_int (fadd (fmul ft (fsub one blend)) (fmul fb blend)))%outcome.

Definition gradient_color (top_color bottom_color : Z * Z * Z) (blend : F)
  : outcome color :=
  let '(t0, t1, t2) := top_color in
  let '(b0, b1, b2) := bottom_color in
  (c0 <- gradient_channel t0 b0 blend ;;
   c1 <- gradient_channel t1 b1 blend ;;
   c2 <- gradient_channel t2 b2 blend ;;
   Ret (RGB c0 c1 c2))%outcome.

(** Lines 33 and 35 together: the colour of row [i]. *)
Definition row_color (top_color bottom_color : Z * Z * Z) (i height : Z)
  : outcome color :=
  (blend <- gradient_blend i height ;;
   gradient_color top_color bottom_color blend)%outcome.

Definition draw_gradient (width height : Z) (top_color bottom_color : Z * Z * Z)
  : Py unit :=
  for_each (range height) (fun i =>
    (color <- lift (row_color top_color bottom_color i height) ;;
     draw_line 0 i width i color 1)%py).
End Gradient.

(** ** [draw_flower] *)

Section Flower.
Context {F : Type} {PF : PyFloat F}.

(** [n * x] for an [int] [n] and a [float] [x]. *)
Definition int_times (n : Z) (x : F) : outcome F :=
  (fn <- of_int n ;; Ret (fmul fn x))%outcome.

(** [n / d] for two [int]s, as a [float]. *)
Definition int_div (n d : Z) : outcome F :=
  (fn <- of_int n ;; fd <- of_int d ;; fdiv fn fd)%outcome.

(** Line 55: the angle of petal [i]. *)
Definition petal_angle (i petals : Z) : outcome F :=
  (step <- int_div 360 petals ;;
   degrees <- int_times i step ;;
   Ret (radians degrees))%outcome.

Definition draw_flower (x y : Z) (scale : F) : Py unit :=
  let petals := 5 in
  (inner_radius <- lift (int_times 10 scale) ;;
   outer_radius <- lift (int_times 30 scale) ;;
   let petal_color := Named "pink" in
   let center_color := Named "yellow" in
   for_each (range petals) (fun i =>
     angle <- lift (petal_angle i petals) ;;
     c <- lift (fcos angle) ;;
     let dx := fmul inner_radius c in
     s <- lift (fsin angle) ;;
     let dy := fmul inner_radius s in
     fx <- lift (of_int x) ;;
     fy <- lift (of_int y) ;;
     draw_ellipse (fadd (fsub fx outer_radius) dx) (fadd (fsub fy outer_radius) dy)
                  (fadd (fadd fx outer_radius) dx) (fadd (fadd fy outer_radius) dy)
                  petal_color) ;;;
   fx <- lift (of_int x) ;;
   fy <- lift (of_int y) ;;
   draw_ellipse (fsub fx inner_radius) (fsub fy inner_radius)
                (fadd fx inner_radius) (fadd fy inner_radius) center_color)%py.
End Flower.

(** ** The environment: files, fonts, images, the JSON decoder

    [read_text] is [open(path, 'r', encoding='utf-8')] followed by reading
    the file, [json_loads] the decoder applied to the text; both say which
    exception they raise.  [image_files] gives the size of the image a
    path holds, [font_files] and [writable] say whether a font can be
    loaded from a path and whether a file can be written there. *)

Record env : Type := mkEnv {
  read_text : string -> outcome string;
  json_loads : string -> outcome json;
  image_files : string -> outcome (Z * Z);
  font_files : string -> bool;
  writable : string -> bool
}.

(** ** [draw_table] *)

(** [v[key]] for a string key. *)
Definition subscript (v : json) (key : string) : outcome json :=
  match v with
  | JDict entries =>
      match find (fun kv => String.eqb (fst kv) key) entries with
      | Some kv => Ret (snd kv)
      | None => Raise (KeyError key)
      end
  | _ => Raise TypeError
  end.

(** The items a [for] loop over [v] visits. *)
Definition iterate (v : json) : outcome (list json) :=
  match v with
  | JList items => Ret items
  | JStr s => Ret (map (fun c => JStr (String c EmptyString)) (list_ascii_of_string s))
  | JDict entries => Ret (map (fun kv => JStr (fst kv)) entries)
  | _ => Raise TypeError
  end.

(** [xs[i]] for a list and an index that is not negative. *)
Definition index (xs : list Z) (i : nat) : outcome Z :=
  match nth_error xs i with
  | Some x => Ret x
  | None => Raise IndexError
  end.

(** [sum(xs)] and [xs[:i]]. *)
Definition sum (xs : list Z) : Z := fold_left Z.add xs 0.
Definition prefix (xs : list Z) (i : nat) : list Z := firstn i xs.

(** [ImageFont.truetype(font_path, size)]. *)
Definition truetype (w : env) (font_path : string) (size : Z) : Py font :=
  if font_files w font_path then ret (mkFont font_path size) else raise OSError.

Definition header_fill (col_idx : nat) : color := Named "#FFD700".

Definition data_fill (col_idx : nat) : color :=
  if (Z.of_nat col_idx mod 2 =? 0) then Named "#E6E6FA" else Named "#98FB98".

(** The body shared by the loop over the header (lines 81-84) and the loop
    over the cells of a data row (lines 89-92); they differ in the fill. *)
Definition draw_cells (top_left_x y_offset : Z) (cells : list json)
    (col_widths : list Z) (row_height : Z) (f : font) (fill : nat -> color)
  : Py unit :=
  for_each (enumerate cells) (fun '(col_idx, cell) =>
    let x_offset := top_left_x + sum (prefix col_widths col_idx) in
    (w <- lift (index col_widths col_idx) ;;
     draw_rectangle x_offset y_offset (x_offset + w) (y_offset + row_height)
                    (fill col_idx) (Named "black") ;;;
     draw_text (x_offset + 10) (y_offset + 10) cell f (Named "black"))%py).

(** Lines 88-93; the result is [y_offset] after the last row. *)
Fixpoint draw_rows (top_left_x y_offset : Z) (rows : list json)
    (col_widths : list Z) (row_height : Z) (f : font) : Py Z :=
  match rows with
  | [] => ret y_offset
  | row :: rows' =>
      (cells <- lift (iterate row) ;;
       draw_cells top_left_x y_offset cells col_widths row_height f data_fill ;;;
       draw_rows top_left_x (y_offset + row_height) rows' col_widths row_height f)%py
  end.

Definition draw_table (w : env) (top_left_x top_left_y : Z) (table_data : json)
    (col_widths : list Z) (row_height : Z) (font_path : string) : Py unit :=
  (f <- truetype w font_path 16 ;;
   let y_offset := top_left_y in
   columns <- lift (subscript table_data "columns") ;;
   cols <- lift (iterate columns) ;;
   draw_cells top_left_x y_offset cols col_widths row_height f header_fill ;;;
   let y_offset := y_offset + row_height in
   data <- lift (subscript table_data "data") ;;
   rows <- lift (iterate data) ;;
   _ <- draw_rows top_left_x y_offset rows col_widths row_height f ;;
   ret tt)%py.

(** ** [load_json_file] *)

Definition load_json_file (w : env) (filepath : string) : Py json :=
  let attempt := (text <- read_text w filepath ;; json_loads w text)%outcome in
  match attempt with
  | Ret data => ret data
  | Raise FileNotFoundError =>
      (print "The file was not found." ;;; ret (JDict []))%py
  | Raise JSONDecodeError =>
      (print "The file is not a valid JSON file." ;;; ret (JDict []))%py
  | Raise e => raise e
  end.

(** The record set the specification says a failed load yields. *)
Definition empty_record_set : json :=
  JDict [("columns", JList []); ("data", JList [])].

(** ** Images: opening, [thumbnail], [resize] *)

(** [Image.open(path).convert("RGBA")]. *)
Definition open_rgba (w : env) (path : string) : Py image :=
  match image_files w path with
  | Ret (iw, ih) => ret (mkImage path iw ih)
  | Raise e => raise e
  end.

(** [Image.thumbnail(size)] as Pillow 7 to 9 compute it, in floating
    point: an image that fits is left alone; a larger one is scaled so
    that one side is the bound and the other keeps the aspect ratio, of
    the two integers around the exact value the one whose ratio is nearer
    to the aspect ratio, and at least 1.  The sides of an image are far
    below [2^53], so that the quotient of their conversions is Python's
    [int / int]. *)
Section Thumbnail.
Context {F : Type} {PF : PyFloat F}.

(** [max(min(floor(number), ceil(number), key=key), 1)]. *)
Definition round_aspect (number : F) (key : Z -> outcome F) : outcome Z :=
  (lo <- ffloor number ;;
   hi <- fceil number ;;
   key_lo <- key lo ;;
   key_hi <- key hi ;;
   Ret (Z.max (if fltb key_hi key_lo then hi else lo) 1))%outcome.

Definition thumbnail_size (size : Z * Z) (iw ih : Z) : outcome (Z * Z) :=
  let '(x, y) := size in
  if (iw <=? x) && (ih <=? y) then Ret (iw, ih)
  else
    (aspect <- int_div iw ih ;;
     bound <- int_div x y ;;
     if fleb aspect bound
     then
       number <- int_times y aspect ;;
       x' <- round_aspect number (fun n =>
               ratio <- int_div n y ;; Ret (fabs (fsub aspect ratio))) ;;
       Ret (x', y)
     else
       fx <- of_int x ;;
       number <- fdiv fx aspect ;;
       y' <- round_aspect number (fun n =>
               if n =? 0 then of_int 0
               else ratio <- int_div x n ;; Ret (fabs (fsub aspect ratio))) ;;
       Ret (x, y'))%outcome.

Definition thumbnail (im : image) (size : Z * Z) : outcome image :=
  (wh <- thumbnail_size size (img_width im) (img_height im) ;;
   Ret (mkImage (img_path im) (fst wh) (snd wh)))%outcome.
End Thumbnail.

Definition resize (im : image) (size : Z * Z) : image :=
  mkImage (img_path im) (fst size) (snd size).

(** [max] of a sequence; an empty one is a [ValueError]. *)
Definition py_max (xs : list Z) : outcome Z :=
  match xs with
  | [] => Raise ValueError
  | x :: xs' => Ret (fold_left Z.max xs' x)
  end.

(** ** [create_composite_image_with_gradient] *)

Definition width : Z := 692.
Definition height : Z := 982.
Definition margin : Z := 35.
Definition logo_size : Z := 180.
Definition placeholder_size : Z * Z := (300, 168).
Definition col_widths : list Z := [200; 350].
Definition row_height : Z := 40.

(** Line 153. *)
Definition logo_position (outer_radius : Z) : Z * Z :=
  (width / 2 - logo_size / 2, margin + outer_radius - logo_size / 2).

(** Lines 159-164. *)
Definition element_positions (top_space : Z) : list (Z * Z) :=
  [ (margin, top_space);
    (margin, top_space + snd placeholder_size + margin);
    (width - margin - fst placeholder_size, top_space);
    (width - margin - fst placeholder_size, top_space + snd placeholder_size + margin) ].

(** Line 176. *)
Definition table_top_left_x : Z := (width - sum col_widths) / 2.

(** Line 177. *)
Definition table_top_left_y (positions : list (Z * Z)) : outcome Z :=
  (m <- py_max (map (fun pos => snd pos + snd placeholder_size) positions) ;;
   Ret (m + margin))%outcome.

Section Orchestrator.
Context {F : Type} {PF : PyFloat F}.

(** The literal [1.5] of line 144, the float three halves. *)
Definition flower_scale : outcome F := int_div 3 2.

(** Line 145. *)
Definition outer_radius (flower_scale : F) : outcome Z :=
  (r <- int_times 30 flower_scale ;; to_int r)%outcome.

(** Line 157. *)
Definition top_space (outer_radius : Z) (flower_scale : F) : outcome Z :=
  (r <- int_times outer_radius flower_scale ;;
   r <- to_int r ;;
   Ret (margin * 2 + r))%outcome.

(** Lines 168-171. *)
Definition paste_placeholders (w : env) (positions : list (Z * Z))
    (image_paths : list string) : Py unit :=
  for_each (combine positions image_paths) (fun '(position, img_path) =>
    (im <- open_rgba w img_path ;;
     let im := resize im placeholder_size in
     emit (Paste im (fst position) (snd position) None))%py).

Definition create_composite_image_with_gradient (w : env)
    (logo_path path_img1 path_img2 path_img3 path_img4 path_out font_path
       filepath : string) : Py string :=
  (blue <- lift (hex_to_rgb "accbf2") ;;
   orange <- lift (hex_to_rgb "fd9965") ;;
   draw_gradient (F := F) width height blue orange ;;;
   flower_scale <- lift flower_scale ;;
   outer_radius <- lift (outer_radius flower_scale) ;;
   draw_flower (margin + outer_radius) (margin + outer_radius) flower_scale ;;;
   draw_flower (width - margin - outer_radius) (margin + outer_radius) flower_scale ;;;
   logo <- open_rgba w logo_path ;;
   logo <- lift (thumbnail logo (logo_size, logo_size)) ;;
   let logo_position := logo_position outer_radius in
   emit (Paste logo (fst logo_position) (snd logo_position) (Some logo)) ;;;
   top_space <- lift (top_space outer_radius flower_scale) ;;
   let element_positions := element_positions top_space in
   let image_paths := [path_img1; path_img2; path_img3; path_img4] in
   paste_placeholders w element_positions image_paths ;;;
   table_top_left_y <- lift (table_top_left_y element_positions) ;;
   table_data <- load_json_file w filepath ;;
   draw_table w table_top_left_x table_top_left_y table_data col_widths
              row_height font_path ;;;
   let output_path := path_out ++ "/gradient_flowers_composite_image.png" in
   (if writable w output_path then emit (Save output_path) else raise OSError) ;;;
   ret output_path)%py.
End Orchestrator.

(** ** Rectangles *)

(** Pixel [(px, py)] lies in the rectangle of the given size at [pos]. *)
Definition in_rect (pos size : Z * Z) (px py : Z) : Prop :=
  fst pos <= px < fst pos + fst size /\ snd pos <= py < snd pos + snd size.

(** ** What a computation does to the state *)

(** The state after drawing [ops] and printing [lines]. *)
Definition extend (ops : list draw_op) (lines : list string) (st : state) : state :=
  mkState (canvas st ++ ops) (stdout st ++ lines).

(** From every state, [m] returns [a], having drawn [ops] and printed
    [lines] ... *)
Definition runs {A : Type} (m : Py A) (a : A) (ops : list draw_op)
    (lines : list string) : Prop :=
  forall st, m st = (Ret a, extend ops lines st).

(** ... or raises [e], having drawn [ops] and printed [lines]. *)
Definition fails {A : Type} (m : Py A) (e : exn) (ops : list draw_op)
    (lines : list string) : Prop :=
  forall st, m st = (Raise e, extend ops lines st).

(** ** The table as the specification lays it out *)

(** The two drawing calls of the cell in column [c] of a row at height [y]. *)
Definition cell_ops (anchor_x y : Z) (widths : list Z) (row_h : Z) (f : font)
    (fill : nat -> color) (c : nat) (cell : json) : list draw_op :=
  let x := anchor_x + sum (firstn c widths) in
  [ Rectangle x y (x + nth c widths 0) (y + row_h) (fill c) (Named "black");
    Text (x + 10) (y + 10) cell f (Named "black") ].

Definition cells_ops (anchor_x y : Z) (widths : list Z) (row_h : Z) (f : font)
    (fill : nat -> color) (first_col : nat) (cells : list json) : list draw_op :=
  flat_map (fun '(c, cell) => cell_ops anchor_x y widths row_h f fill c cell)
           (combine (seq first_col (List.length cells)) cells).

(** Data row [r] is at [anchor_y + (r + 1) * row_h]. *)
Definition rows_ops (anchor_x anchor_y : Z) (widths : list Z) (row_h : Z) (f : font)
    (first_row : nat) (rows : list (list json)) : list draw_op :=
  flat_map (fun '(r, row) =>
              cells_ops anchor_x (anchor_y + (Z.of_nat r + 1) * row_h) widths row_h f
                        data_fill 0 row)
           (combine (seq first_row (List.length rows)) rows).

Definition table_ops (anchor_x anchor_y : Z) (widths : list Z) (row_h : Z) (f : font)
    (columns : list json) (rows : list (list json)) : list draw_op :=
  cells_ops anchor_x anchor_y widths row_h f header_fill 0 columns
  ++ rows_ops anchor_x anchor_y widths row_h f 0 rows.

(** A record set in the documented format: [columns] a list, [data] a
    list of lists. *)
Definition record_set (table_data : json) (columns : list json)
    (rows : list (list json)) : Prop :=
  subscript table_data "columns" = Ret (JList columns)
  /\ subscript table_data "data" = Ret (JList (map JList rows)).

(** A row has no more cells than there are column widths. *)
Definition fits (widths : list Z) (row : list json) : Prop :=
  (List.length row <= List.length widths)%nat.

(** The cells that [draw.text] accepts: strings. *)
Definition is_str (v : json) : bool :=
  match v with
  | JStr _ => true
  | _ => false
  end.

Definition all_strings (cells : list json) : bool := forallb is_str cells.

(** Column widths and a row height that are not negative. *)
Definition sizes_ok (widths : list Z) (row_h : Z) : Prop :=
  Forall (fun w => 0 <= w) widths /\ 0 <= row_h.

(** ** The gradient as the specification words it *)

(** [round(x)]: the nearest integer, a tie going to the even one. *)
Definition Qround_half_even (q : Q) : Z :=
  let lo := Qfloor q in
  match (q - inject_Z lo ?= 1 # 2)%Q with
  | Lt => lo
  | Gt => lo + 1
  | Eq => if Z.even lo then lo else lo + 1
  end.

(** "[2*i/height] for [i <= height/2], else [2 - 2*i/height]". *)
Definition spec_blend (i height : Z) : Q :=
  if Qle_bool (inject_Z i) (inject_Z height / 2)
  then (2 * inject_Z i / inject_Z height)%Q
  else (2 - 2 * inject_Z i / inject_Z height)%Q.

(** "[top*(1-blend) + bottom*blend]". *)
Definition mix (top bottom : Z) (blend : Q) : Q :=
  (inject_Z top * (1 - blend) + inject_Z bottom * blend)%Q.

Definition is_byte (z : Z) : Prop := 0 <= z <= 255.

(** The two colours of the program's gradient. *)
Definition blue : Z * Z * Z := (172, 203, 242).
Definition orange : Z * Z * Z := (253, 153, 101).

(** The colour of row [i] in exact arithmetic, each channel the integer
    part of its mix, and the line of that colour. *)
Definition exact_color (top_color bottom_color : Z * Z * Z) (i height : Z) : color :=
  let '(t0, t1, t2) := top_color in
  let '(b0, b1, b2) := bottom_color in
  let blend := spec_blend i height in
  RGB (Qfloor (mix t0 b0 blend)) (Qfloor (mix t1 b1 blend)) (Qfloor (mix t2 b2 blend)).

Definition exact_line (width height : Z) (top_color bottom_color : Z * Z * Z)
    (i : Z) : draw_op :=
  Line 0 i width i (exact_color top_color bottom_color i height) 1.

(** The channels of a colour. *)
Definition channels (c : color) : list Z :=
  match c with
  | RGB r g b => [r; g; b]
  | Named _ => []
  end.

Definition color_eqb (c d : color) : bool :=
  match c, d with
  | RGB r g b, RGB r' g' b' => (r =? r') && (g =? g') && (b =? b')
  | Named n, Named n' => String.eqb n n'
  | _, _ => false
  end.

(** ** The flower as the specification words it, in binary64

    "Petal [k]: angle [2*pi*k/5]; offset [(inner*cos, inner*sin)] where
    [inner = 10*scale]; a filled circle of radius [outer = 30*scale] at
    centre + offset", every operation rounded as the program does it. *)

(** The box of an ellipse, two corners, with its colour. *)
Definition box (F : Type) : Type := (F * F * F * F) * color.

(** A box that [draw.ellipse] accepts, and the call recorded for it. *)
Definition accepted {F : Type} {PF : PyFloat F} (b : box F) : bool :=
  let '(x0, y0, x1, y1) := fst b in
  negb (fltb x1 x0 || fltb y1 y0).

Definition ellipse_of {F : Type} {PF : PyFloat F} (b : box F) : draw_op :=
  let '(x0, y0, x1, y1) := fst b in
  Ellipse (to_coordinate x0) (to_coordinate y0) (to_coordinate x1) (to_coordinate y1)
          (snd b).

(** The elements of a list before the first one that fails a test. *)
Fixpoint leading {A : Type} (test : A -> bool) (xs : list A) : list A :=
  match xs with
  | [] => []
  | x :: xs' => if test x then x :: leading test xs' else []
  end.

Section FlowerSpec.
Context {lm : Libm}.

Definition plus : spec_float -> spec_float -> spec_float :=
  SFadd Binary64.prec Binary64.emax.
Definition minus : spec_float -> spec_float -> spec_float :=
  SFsub Binary64.prec Binary64.emax.
Definition times : spec_float -> spec_float -> spec_float :=
  SFmul Binary64.prec Binary64.emax.

(** The angle of petal [k], in degrees and in radians. *)
Definition petal_degrees (k : Z) : spec_float :=
  times (Binary64.lit k)
        (SFdiv Binary64.prec Binary64.emax (Binary64.lit 360) (Binary64.lit 5)).

Definition petal_radians (k : Z) : spec_float :=
  Binary64.to_radians (petal_degrees k).

Definition petal_offset (scale : spec_float) (k : Z) : spec_float * spec_float :=
  let inner := times (Binary64.lit 10) scale in
  (times inner (libm_cos (petal_radians k)), times inner (libm_sin (petal_radians k))).

Definition petal_box (cx cy scale : spec_float) (k : Z) : box spec_float :=
  let outer := times (Binary64.lit 30) scale in
  let '(dx, dy) := petal_offset scale k in
  (plus (minus cx outer) dx, plus (minus cy outer) dy,
   plus (plus cx outer) dx, plus (plus cy outer) dy, Named "pink").

Definition disc_box (cx cy scale : spec_float) : box spec_float :=
  let inner := times (Binary64.lit 10) scale in
  (minus cx inner, minus cy inner, plus cx inner, plus cy inner, Named "yellow").

(** The six boxes of a flower, in drawing order. *)
Definition flower_boxes (cx cy scale : spec_float) : list (box spec_float) :=
  (map (petal_box cx cy scale) [0; 1; 2; 3; 4] ++ [disc_box cx cy scale])%list.

(** The calls of a flower all of whose boxes are accepted. *)
Definition flower_ops (cx cy scale : spec_float) : list draw_op :=
  map ellipse_of (flower_boxes cx cy scale).

(** The two flowers of the program: centres (80, 80) and (612, 80), scale
    1.5. *)
Definition one_and_a_half : spec_float := S754_finite false 6755399441055744 (-52).

Definition left_flower : list (box spec_float) :=
  flower_boxes (Binary64.lit 80) (Binary64.lit 80) one_and_a_half.

Definition right_flower : list (box spec_float) :=
  flower_boxes (Binary64.lit 612) (Binary64.lit 80) one_and_a_half.

(** The two corners of a box as rationals in lowest terms: [x0], [y0],
    [x1], [y1], when all four are finite. *)
Definition corners (b : box spec_float) : option (list Q) :=
  let '(x0, y0, x1, y1) := fst b in
  match Binary64.to_Q x0, Binary64.to_Q y0, Binary64.to_Q x1, Binary64.to_Q y1 with
  | Some a, Some b, Some c, Some d => Some [Qred a; Qred b; Qred c; Qred d]
  | _, _, _, _ => None
  end.

(** The corners of the [n]-th box of a list. *)
Definition corners_at (boxes : list (box spec_float)) (n : nat) : option (list Q) :=
  match nth_error boxes n with
  | Some b => corners b
  | None => None
  end.

(** A box, accepted, that lies on a canvas of [w] by [h]. *)
Definition box_within (w h : Z) (b : box spec_float) : bool :=
  match corners b with
  | Some [x0; y0; x1; y1] =>
      Qle_bool 0 x0 && Qle_bool x0 x1 && Qle_bool x1 (inject_Z w)
      && Qle_bool 0 y0 && Qle_bool y0 y1 && Qle_bool y1 (inject_Z h)
  | _ => false
  end.
End FlowerSpec.

(** ** Checks on the rows of the program's gradient

    The program draws one gradient, of 982 rows, from [blue] to
    [orange].  These tests say of one row, or of two, what the statements
    below say of all; each is evaluated on every row. *)

(** Every channel of [c] lies between the same channel of [lo] and of
    [hi], whichever is the larger. *)
Definition between_colors (lo hi : Z * Z * Z) (c : color) : bool :=
  let '(l0, l1, l2) := lo in
  let '(h0, h1, h2) := hi in
  match c with
  | RGB r g b =>
      (Z.min l0 h0 <=? r) && (r <=? Z.max l0 h0)
      && (Z.min l1 h1 <=? g) && (g <=? Z.max l1 h1)
      && (Z.min l2 h2 <=? b) && (b <=? Z.max l2 h2)
  | Named _ => false
  end.

(** No channel of [d] is farther from [bottom], on the side of [top],
    than the same channel of [c]. *)
Definition toward (top bottom : Z * Z * Z) (c d : color) : bool :=
  let '(t0, t1, t2) := top in
  let '(b0, b1, b2) := bottom in
  match c, d with
  | RGB r g b, RGB r' g' b' =>
      (if t0 <=? b0 then r <=? r' else r' <=? r)
      && (if t1 <=? b1 then g <=? g' else g' <=? g)
      && (if t2 <=? b2 then b <=? b' else b' <=? b)
  | _, _ => false
  end.

Definition is_byte_color (c : color) : bool :=
  forallb (fun v => (0 <=? v) && (v <=? 255)) (channels c).

(** Row [i]: the blend factor of the specification lies in [0, 1], the
    one the program computes is within [2^-52] of it, and the colour the
    program computes is the exact one, made of bytes. *)
Definition row_as_specified {lm : Libm} (i : Z) : bool :=
  let blend := spec_blend i height in
  Qle_bool 0 blend && Qle_bool blend 1
  && match gradient_blend (F := spec_float) i height with
     | Ret b =>
         match Binary64.to_Q b with
         | Some q => Qle_bool (Qabs.Qabs (q - blend)) (1 # 4503599627370496)
         | None => false
         end
         && match gradient_color (F := spec_float) blue orange b with
            | Ret c => color_eqb c (exact_color blue orange i height)
            | Raise _ => false
            end
     | Raise _ => false
     end
  && is_byte_color (exact_color blue orange i height).

(** Row [i] against the row opposite and against the row below it. *)
Definition row_mirrored (i : Z) : bool :=
  color_eqb (exact_color blue orange i height)
            (exact_color blue orange (height - i) height).

Definition row_ramps (i : Z) : bool :=
  toward blue orange (exact_color blue orange i height)
                     (exact_color blue orange (i + 1) height).

(** ** Sample inputs, to instantiate the statements below *)

Definition dq : string := String (ascii_of_nat 34) EmptyString.

(** The text [{"columns": ["A", "B"], "data": [["1", "2"]]}] and its value. *)
Definition sample_text : string :=
  "{" ++ dq ++ "columns" ++ dq ++ ": [" ++ dq ++ "A" ++ dq ++ ", " ++ dq ++ "B" ++ dq
  ++ "], " ++ dq ++ "data" ++ dq ++ ": [[" ++ dq ++ "1" ++ dq ++ ", " ++ dq ++ "2" ++ dq
  ++ "]]}".

Definition sample_table : json :=
  JDict [("columns", JList [JStr "A"; JStr "B"]);
         ("data", JList [JList [JStr "1"; JStr "2"]])].

(** A table whose only row has three cells. *)
Definition wide_table : json :=
  JDict [("columns", JList [JStr "A"; JStr "B"]);
         ("data", JList [JList [JStr "1"; JStr "2"; JStr "3"]])].

(** A file system with the images, the font and [data/data.json]; the
    decoder knows [sample_text] and rejects the text [{]. *)
Definition sample_env : env := {|
  read_text := fun path =>
    if String.eqb path "data/data.json" then Ret sample_text
    else if String.eqb path "data/broken.json" then Ret "{"
    else Raise FileNotFoundError;
  json_loads := fun text =>
    if String.eqb text sample_text then Ret sample_table else Raise JSONDecodeError;
  image_files := fun path =>
    if String.eqb path "images/front_image.png" then Ret (100, 100)
    else if String.eqb path "images/tall_logo.png" then Ret (180, 360)
    else if String.eqb path "images/wide_logo.png" then Ret (360, 180)
    else if String.eqb path "images/1.png" then Ret (1, 1)
    else if String.eqb path "images/2.png" then Ret (1, 1)
    else if String.eqb path "images/3.png" then Ret (1, 1)
    else if String.eqb path "images/4.png" then Ret (1, 1)
    else Raise FileNotFoundError;
  font_files := fun path => String.eqb path "font/Comic Sans MS Bold.ttf";
  writable := fun _ => true
|}.

(** The canvas calls that paste through a mask, and those that save. *)
Definition is_masked_paste (op : draw_op) : bool :=
  match op with
  | Paste _ _ _ (Some _) => true
  | _ => false
  end.

Definition is_save (op : draw_op) : bool :=
  match op with
  | Save _ => true
  | _ => false
  end.

(** The program run on [sample_env] with a given logo and table file. *)
Definition sample_run {F : Type} {PF : PyFloat F} (logo_path filepath : string)
  : outcome string * state :=
  create_composite_image_with_gradient (F := F) sample_env logo_path
    "images/1.png" "images/2.png" "images/3.png" "images/4.png" "out"
    "font/Comic Sans MS Bold.ttf" filepath initial_state.

(** ** Further definitions *)

(** [n] characters [#]. *)
Fixpoint hashes (n : nat) : string :=
  match n with
  | O => EmptyString
  | S n' => String "#" (hashes n')
  end.

(** The full-width line of a row, given the row and its colour. *)
Definition row_line (w : Z) (ic : Z * color) : draw_op :=
  Line 0 (fst ic) w (fst ic) (snd ic) 1.

(** Where column [c] of a table starts. *)
Definition column_x (anchor_x : Z) (widths : list Z) (c : nat) : Z :=
  anchor_x + sum (prefix widths c).

(** The two calls of a cell, its rectangle reaching to the next column. *)
Definition tiled_cell (anchor_x y : Z) (widths : list Z) (row_h : Z) (f : font)
    (fill : nat -> color) (ccell : nat * json) : list draw_op :=
  let '(c, cell) := ccell in
  [ Rectangle (column_x anchor_x widths c) y (column_x anchor_x widths (S c)) (y + row_h)
              (fill c) (Named "black");
    Text (column_x anchor_x widths c + 10) (y + 10) cell f (Named "black") ].

Definition is_rectangle (op : draw_op) : bool :=
  match op with
  | Rectangle _ _ _ _ _ _ => true
  | _ => false
  end.

Definition is_text (op : draw_op) : bool :=
  match op with
  | Text _ _ _ _ _ => true
  | _ => false
  end.

(** The call that pastes the image of [path], resized to a slot, at [pos]. *)
Definition slot_paste (pp : (Z * Z) * string) : draw_op :=
  Paste (mkImage (snd pp) (fst placeholder_size) (snd placeholder_size))
        (fst (fst pp)) (snd (fst pp)) None.

(** ** [main] *)

Section Main.
Context {F : Type} `{PyFloat F}.

(** [current_directory] is what [os.getcwd()] returns. *)
Definition main (w : env) (current_directory : string) : Py unit :=
  let path_img1 := current_directory ++ "/images/1.png" in
  let path_img2 := current_directory ++ "/images/2.png" in
  let path_img3 := current_directory ++ "/images/3.png" in
  let path_img4 := current_directory ++ "/images/4.png" in
  let path_out := current_directory in
  let logo_path := current_directory ++ "/images/front_image.png" in
  let font_path := current_directory ++ "/font/Comic Sans MS Bold.ttf" in
  let filepath := current_directory ++ "/data/data.json" in
  (image_path <- create_composite_image_with_gradient (F := F) w logo_path path_img1
                   path_img2 path_img3 path_img4 path_out font_path filepath ;;
   print ("The image has been saved to: " ++ image_path))%py.
End Main.

(** The images saved so far, and the lines printed so far that report a
    saved image. *)
Definition saves (st : state) : list draw_op := filter is_save (canvas st).

Definition is_report (line : string) : bool :=
  String.prefix "The image has been saved to: " line.

Definition reports (st : state) : list string := filter is_report (stdout st).

(** The calls that paste without a mask. *)
Definition is_slot_paste (op : draw_op) : bool :=
  match op with
  | Paste _ _ _ None => true
  | _ => false
  end.

(** A computation that only adds to the canvas and to the standard
    output, and adds no call that [p] selects and no line that [q]
    selects. *)
Definition silent {A : Type} (p : draw_op -> bool) (q : string -> bool) (m : Py A)
  : Prop :=
  forall st, exists ops lines,
    snd (m st) = extend ops lines st /\ filter p ops = [] /\ filter q lines = [].

(** A computation that neither saves an image nor reports one. *)
Definition quiet {A : Type} (m : Py A) : Prop := silent is_save is_report m.

(** A computation whose last call, when it returns, saves [path]
    (returning [path] if [result] says so); it makes no other save,
    none when it raises, and reports nothing. *)
Definition saves_last {A : Type} (path : string) (result : A -> Prop) (m : Py A)
  : Prop :=
  forall st, exists ops lines,
    filter is_save ops = [] /\ filter is_report lines = []
    /\ match fst (m st) with
       | Ret a => result a /\ snd (m st) = extend (ops ++ [Save path]) lines st
       | Raise _ => snd (m st) = extend ops lines st
       end.

(** A computation that first makes the calls [ops], whatever becomes of
    it afterwards, and then no call that [p] selects. *)
Definition draws_then {A : Type} (p : draw_op -> bool) (ops : list draw_op) (m : Py A)
  : Prop :=
  forall st, exists rest lines,
    snd (m st) = extend (ops ++ rest) lines st /\ filter p rest = [].

(** A selection of calls that leaves out the lines, the ellipses, the
    rectangles, the texts, the pastes without a mask; a selection of
    printed lines that leaves out the two messages of [load_json_file]. *)
Definition no_line (p : draw_op -> bool) : Prop :=
  forall x0 y0 x1 y1 c w, p (Line x0 y0 x1 y1 c w) = false.
Definition no_ellipse (p : draw_op -> bool) : Prop :=
  forall x0 y0 x1 y1 c, p (Ellipse x0 y0 x1 y1 c) = false.
Definition no_rectangle (p : draw_op -> bool) : Prop :=
  forall x0 y0 x1 y1 c o, p (Rectangle x0 y0 x1 y1 c o) = false.
Definition no_text (p : draw_op -> bool) : Prop :=
  forall x y t f c, p (Text x y t f c) = false.
Definition no_slot_paste (p : draw_op -> bool) : Prop :=
  forall im x y, p (Paste im x y None) = false.
Definition no_message (q : string -> bool) : Prop :=
  q "The file was not found." = false /\ q "The file is not a valid JSON file." = false.

(** The file name of the image, in the directory [path_out]. *)
Definition output_path (path_out : string) : string :=
  path_out ++ "/gradient_flowers_composite_image.png".

(** An image file that can be opened. *)
Definition readable (w : env) (path : string) : Prop :=
  exists size, image_files w path = Ret size.

(** * Properties *)

(** ** [hex_to_rgb] *)

Lemma lstrip_cons_same (c : ascii) (s : string) :
  lstrip c (String c s) = lstrip c s.
Proof. simpl. now rewrite Ascii.eqb_refl. Qed.

Lemma hex_digit_not_hash (a : ascii) :
  is_hex_digit a = true -> Ascii.eqb a "#" = false.
Proof.
  destruct a as [[] [] [] [] [] [] [] []]; vm_compute; congruence.
Qed.

(** The hexadecimal digits are these twenty-two characters. *)
Lemma hex_digit_chars (a : ascii) :
  is_hex_digit a = true ->
  In a (list_ascii_of_string "0123456789abcdefABCDEF").
Proof.
  destruct a as [[] [] [] [] [] [] [] []]; intros Ha; vm_compute in Ha;
    try discriminate Ha; cbn [list_ascii_of_string In];
    repeat (try (left; reflexivity); right).
Qed.

(** Two hexadecimal digits are read as one byte. *)
Lemma int16_two_digits (a b : ascii) :
  is_hex_digit a = true -> is_hex_digit b = true ->
  exists v, int16 (String a (String b EmptyString)) = Ret v /\ 0 <= v <= 255.
Proof.
  intros Ha Hb. apply hex_digit_chars in Ha. apply hex_digit_chars in Hb.
  cbn [list_ascii_of_string In] in Ha, Hb.
  repeat (destruct Ha as [<-|Ha]); try contradiction;
    repeat (destruct Hb as [<-|Hb]); try contradiction;
    vm_compute; eexists; (split; [reflexivity|split; discriminate]).
Qed.

Lemma is_hex6_shape (h : string) :
  is_hex6 h = true ->
  exists a b c d e f,
    h = String a (String b (String c (String d (String e (String f EmptyString)))))
    /\ is_hex_digit a = true /\ is_hex_digit b = true /\ is_hex_digit c = true
    /\ is_hex_digit d = true /\ is_hex_digit e = true /\ is_hex_digit f = true.
Proof.
  unfold is_hex6. intros Hh. apply andb_true_iff in Hh. destruct Hh as [Hlen Hall].
  destruct h as [|a [|b [|c [|d [|e [|f [|g h]]]]]]]; try discriminate Hlen.
  exists a, b, c, d, e, f. simpl in Hall.
  repeat (apply andb_true_iff in Hall; destruct Hall as [? Hall]).
  repeat split; assumption.
Qed.

(** C7. [hex_to_rgb("accbf2")] is [(172, 203, 242)]; a leading [#] changes
    nothing: [hex_to_rgb("#accbf2") = hex_to_rgb("accbf2")], and for every
    string [h] of six hexadecimal digits [hex_to_rgb("#" + h)] equals
    [hex_to_rgb(h)], which is a triple of bytes. *)
Theorem hex_to_rgb_strips_hash :
  hex_to_rgb "accbf2" = Ret (172, 203, 242)
  /\ hex_to_rgb "#accbf2" = hex_to_rgb "accbf2"
  /\ forall h : string,
       is_hex6 h = true ->
       hex_to_rgb (String "#" h) = hex_to_rgb h
       /\ exists r g b, hex_to_rgb h = Ret (r, g, b)
            /\ 0 <= r <= 255 /\ 0 <= g <= 255 /\ 0 <= b <= 255.
Proof.
  split; [reflexivity|]. split; [reflexivity|].
  intros h Hh. split.
  - unfold hex_to_rgb. now rewrite lstrip_cons_same.
  - destruct (is_hex6_shape h Hh) as (a & b & c & d & e & f & -> & Ha & Hb & Hc & Hd & He & Hf).
    destruct (int16_two_digits a b Ha Hb) as (r & Hr & Br).
    destruct (int16_two_digits c d Hc Hd) as (g & Hg & Bg).
    destruct (int16_two_digits e f He Hf) as (bl & Hbl & Bbl).
    exists r, g, bl. split; [|auto].
    unfold hex_to_rgb. cbn [lstrip]. rewrite (hex_digit_not_hash a Ha).
    unfold slice2. cbn [substring]. rewrite Hr. cbn [obind]. rewrite Hg. cbn [obind].
    rewrite Hbl. reflexivity.
Qed.

Lemma hex_to_rgb_strips_hash_witness :
  is_hex6 "fd9965" = true
  /\ hex_to_rgb "#fd9965" = hex_to_rgb "fd9965"
  /\ hex_to_rgb "fd9965" = Ret (253, 153, 101).
Proof.
  split; [reflexivity|].
  destruct (proj2 (proj2 hex_to_rgb_strips_hash) "fd9965" eq_refl) as [Heq _].
  split; [exact Heq | reflexivity].
Defined.

(** ** Rules for [runs] and [fails] *)

Lemma extend_nil (st : state) : extend [] [] st = st.
Proof. destruct st; unfold extend; simpl. now rewrite !app_nil_r. Qed.

Lemma extend_extend (o1 o2 : list draw_op) (l1 l2 : list string) (st : state) :
  extend o2 l2 (extend o1 l1 st) = extend (o1 ++ o2) (l1 ++ l2) st.
Proof. unfold extend; simpl. now rewrite !app_assoc. Qed.

Lemma runs_ret {A : Type} (a : A) : runs (ret a) a [] [].
Proof. intros st. unfold ret. now rewrite extend_nil. Qed.

Lemma runs_lift {A : Type} (o : outcome A) (a : A) :
  o = Ret a -> runs (lift o) a [] [].
Proof. intros -> st. unfold lift. now rewrite extend_nil. Qed.

Lemma fails_lift {A : Type} (o : outcome A) (e : exn) :
  o = Raise e -> fails (lift o) e [] [].
Proof. intros -> st. unfold lift. now rewrite extend_nil. Qed.

Lemma runs_emit (op : draw_op) : runs (emit op) tt [op] [].
Proof. intros st. unfold emit, extend. now rewrite app_nil_r. Qed.

Lemma runs_print (line : string) : runs (print line) tt [] [line].
Proof. intros st. unfold print, extend. now rewrite app_nil_r. Qed.

Lemma runs_bind {A B : Type} (m : Py A) (k : A -> Py B) a b o1 o2 l1 l2 :
  runs m a o1 l1 -> runs (k a) b o2 l2 -> runs (bind m k) b (o1 ++ o2) (l1 ++ l2).
Proof.
  intros Hm Hk st. unfold bind. rewrite Hm, Hk. now rewrite extend_extend.
Qed.

Lemma fails_bind_l {A B : Type} (m : Py A) (k : A -> Py B) e o l :
  fails m e o l -> fails (bind m k) e o l.
Proof. intros Hm st. unfold bind. now rewrite Hm. Qed.

Lemma fails_bind_r {A B : Type} (m : Py A) (k : A -> Py B) a e o1 o2 l1 l2 :
  runs m a o1 l1 -> fails (k a) e o2 l2 -> fails (bind m k) e (o1 ++ o2) (l1 ++ l2).
Proof.
  intros Hm Hk st. unfold bind. rewrite Hm, Hk. now rewrite extend_extend.
Qed.

(** The same rules, with the drawn and printed lists up to equality. *)
Lemma runs_seq {A B : Type} (m : Py A) (k : A -> Py B) a b o1 o2 l1 l2 o l :
  runs m a o1 l1 -> runs (k a) b o2 l2 ->
  o = (o1 ++ o2)%list -> l = (l1 ++ l2)%list ->
  runs (bind m k) b o l.
Proof. intros Hm Hk -> ->. eapply runs_bind; eassumption. Qed.

Lemma fails_seq {A B : Type} (m : Py A) (k : A -> Py B) a e o1 o2 l1 l2 o l :
  runs m a o1 l1 -> fails (k a) e o2 l2 ->
  o = (o1 ++ o2)%list -> l = (l1 ++ l2)%list ->
  fails (bind m k) e o l.
Proof. intros Hm Hk -> ->. eapply fails_bind_r; eassumption. Qed.

(** The calls on the drawing context. *)
Lemma runs_draw_line x0 y0 x1 y1 fill width :
  runs (draw_line x0 y0 x1 y1 fill width) tt [Line x0 y0 x1 y1 fill width] [].
Proof. apply runs_emit. Qed.

Lemma runs_draw_rectangle x0 y0 x1 y1 fill outline :
  x0 <= x1 -> y0 <= y1 ->
  runs (draw_rectangle x0 y0 x1 y1 fill outline) tt
       [Rectangle x0 y0 x1 y1 fill outline] [].
Proof.
  intros Hx Hy. unfold draw_rectangle.
  destruct (Z.ltb_spec x1 x0); [lia|]. destruct (Z.ltb_spec y1 y0); [lia|].
  apply runs_emit.
Qed.

Lemma fails_raise {A : Type} (e : exn) : fails (@raise A e) e [] [].
Proof. intros st. unfold raise. now rewrite extend_nil. Qed.

Lemma fails_draw_rectangle x0 y0 x1 y1 fill outline :
  x1 < x0 \/ y1 < y0 ->
  fails (draw_rectangle x0 y0 x1 y1 fill outline) ValueError [] [].
Proof.
  intros Hbox. unfold draw_rectangle.
  destruct (Z.ltb_spec x1 x0); [apply fails_raise|].
  destruct (Z.ltb_spec y1 y0); [apply fails_raise|lia].
Qed.

Lemma runs_draw_text x y cell f fill :
  is_str cell = true ->
  runs (draw_text x y cell f fill) tt [Text x y cell f fill] [].
Proof.
  intros Hcell. destruct cell; try discriminate Hcell. apply runs_emit.
Qed.

Lemma fails_draw_text x y cell f fill :
  is_str cell = false -> fails (draw_text x y cell f fill) TypeError [] [].
Proof.
  intros Hcell. destruct cell; try discriminate Hcell; apply fails_raise.
Qed.

(** ** [draw_table] *)

Lemma index_in_range (ws : list Z) (c : nat) :
  (c < List.length ws)%nat -> index ws c = Ret (nth c ws 0).
Proof.
  intros Hc. unfold index.
  destruct (nth_error ws c) eqn:E.
  - now rewrite (nth_error_nth _ _ 0 E).
  - apply nth_error_None in E. lia.
Qed.

Lemma index_out_of_range (ws : list Z) (c : nat) :
  (List.length ws <= c)%nat -> index ws c = Raise IndexError.
Proof.
  intros Hc. unfold index. apply nth_error_None in Hc. now rewrite Hc.
Qed.

Lemma nth_nonneg (ws : list Z) (c : nat) :
  Forall (fun w => 0 <= w) ws -> 0 <= nth c ws 0.
Proof.
  intros Hws. revert c. induction Hws as [|w ws Hw Hws IH]; intros [|c]; cbn; auto; lia.
Qed.

Lemma all_strings_cons (cell : json) (cells : list json) :
  all_strings (cell :: cells) = true ->
  is_str cell = true /\ all_strings cells = true.
Proof. unfold all_strings. cbn [forallb]. apply andb_true_iff. Qed.

Lemma all_strings_firstn (n : nat) (cells : list json) :
  all_strings cells = true -> all_strings (firstn n cells) = true.
Proof.
  revert n. induction cells as [|cell cells IH]; intros [|n] Hall; try reflexivity.
  apply all_strings_cons in Hall. destruct Hall as [Hcell Hcells].
  unfold all_strings. cbn [firstn forallb]. rewrite Hcell. now apply IH.
Qed.

(** A sequence returns only if its first part returns. *)
Lemma bind_returns {A B : Type} (m : Py A) (k : A -> Py B) (st : state) (b : B) :
  fst (bind m k st) = Ret b ->
  exists a st', m st = (Ret a, st') /\ fst (k a st') = Ret b.
Proof.
  unfold bind. destruct (m st) as [[a|e] st']; [eauto|discriminate].
Qed.

Section Cells.
Variables (anchor_x y : Z) (widths : list Z) (row_h : Z) (f : font)
          (fill : nat -> color).
Hypothesis sizes : sizes_ok widths row_h.

(** The body of the cell loop, for the cell in column [c]. *)
Let body : nat * json -> Py unit := fun '(col_idx, cell) =>
  let x_offset := anchor_x + sum (prefix widths col_idx) in
  (w <- lift (index widths col_idx) ;;
   draw_rectangle x_offset y (x_offset + w) (y + row_h)
                  (fill col_idx) (Named "black") ;;;
   draw_text (x_offset + 10) (y + 10) cell f (Named "black"))%py.

Lemma cell_body_runs (c : nat) (cell : json) :
  (c < List.length widths)%nat ->
  is_str cell = true ->
  runs (body (c, cell)) tt (cell_ops anchor_x y widths row_h f fill c cell) [].
Proof.
  intros Hc Hcell. unfold body. destruct sizes as [Hws Hh].
  pose proof (nth_nonneg widths c Hws) as Hw.
  eapply runs_seq; [apply runs_lift, index_in_range, Hc| |reflexivity|reflexivity].
  eapply runs_seq;
    [apply runs_draw_rectangle; lia|apply runs_draw_text, Hcell|reflexivity|reflexivity].
Qed.

Lemma cell_body_fails (c : nat) (cell : json) :
  (List.length widths <= c)%nat -> fails (body (c, cell)) IndexError [] [].
Proof.
  intros Hc. unfold body. apply fails_bind_l, fails_lift, index_out_of_range, Hc.
Qed.

(** A cell that is not a string: its rectangle is drawn, then
    [draw.text] raises. *)
Lemma cell_body_type_error (c : nat) (cell : json) :
  (c < List.length widths)%nat ->
  is_str cell = false ->
  fails (body (c, cell)) TypeError
        [Rectangle (anchor_x + sum (prefix widths c)) y
                   (anchor_x + sum (prefix widths c) + nth c widths 0) (y + row_h)
                   (fill c) (Named "black")] [].
Proof.
  intros Hc Hcell. unfold body. destruct sizes as [Hws Hh].
  pose proof (nth_nonneg widths c Hws) as Hw.
  eapply fails_seq; [apply runs_lift, index_in_range, Hc| |reflexivity|reflexivity].
  eapply fails_seq;
    [apply runs_draw_rectangle; lia|apply fails_draw_text, Hcell|reflexivity|reflexivity].
Qed.

(** The cells from column [k] on fit: all are drawn. *)
Lemma cells_from_run (cells : list json) :
  forall k, (k + List.length cells <= List.length widths)%nat ->
  all_strings cells = true ->
  runs (for_each (combine (seq k (List.length cells)) cells) body) tt
       (cells_ops anchor_x y widths row_h f fill k cells) [].
Proof.
  induction cells as [|cell cells IH]; intros k Hk Hall.
  - apply runs_ret.
  - cbn [List.length seq combine for_each]. cbn [List.length] in Hk.
    apply all_strings_cons in Hall. destruct Hall as [Hcell Hcells].
    eapply runs_seq;
      [apply cell_body_runs; [lia|exact Hcell]|apply (IH (S k)); [lia|exact Hcells]
      |reflexivity|reflexivity].
Qed.

(** The cells from column [k] on do not fit: the columns that exist are
    drawn, then indexing the widths raises. *)
Lemma cells_from_fail (cells : list json) :
  forall k, (k <= List.length widths)%nat ->
  (List.length widths < k + List.length cells)%nat ->
  all_strings (firstn (List.length widths - k) cells) = true ->
  fails (for_each (combine (seq k (List.length cells)) cells) body) IndexError
        (cells_ops anchor_x y widths row_h f fill k
           (firstn (List.length widths - k) cells)) [].
Proof.
  induction cells as [|cell cells IH]; intros k Hk Hlen Hall.
  - cbn [List.length] in Hlen. lia.
  - cbn [List.length seq combine for_each]. cbn [List.length] in Hlen.
    destruct (Nat.eq_dec k (List.length widths)) as [->|Hne].
    + rewrite Nat.sub_diag. apply fails_bind_l. apply cell_body_fails. lia.
    + replace (List.length widths - k)%nat with (S (List.length widths - S k)) in * by lia.
      cbn [firstn] in Hall. apply all_strings_cons in Hall. destruct Hall as [Hcell Hcells].
      eapply fails_seq;
        [apply cell_body_runs; [lia|exact Hcell]|apply (IH (S k)); [lia|lia|exact Hcells]
        |reflexivity|reflexivity].
Qed.
(** Whatever the cells and the sizes, the loop returns only if there is a
    width for every cell. *)
Lemma cells_from_return (cells : list json) :
  forall k st,
  fst (for_each (combine (seq k (List.length cells)) cells) body st) = Ret tt ->
  cells = [] \/ (k + List.length cells <= List.length widths)%nat.
Proof.
  induction cells as [|cell cells IH]; intros k st Hret; [now left|right].
  cbn [List.length seq combine for_each] in Hret.
  apply bind_returns in Hret. destruct Hret as (a & st' & Hbody & Hrest).
  unfold body in Hbody.
  assert (Hk : (k < List.length widths)%nat).
  { destruct (le_lt_dec (List.length widths) k) as [Hle|Hlt]; [|exact Hlt].
    unfold bind, lift in Hbody. rewrite (index_out_of_range widths k Hle) in Hbody.
    discriminate Hbody. }
  destruct (IH (S k) st' Hrest) as [->|Hle]; cbn [List.length]; lia.
Qed.
End Cells.

Lemma draw_cells_runs anchor_x y cells widths row_h f fill :
  sizes_ok widths row_h ->
  (List.length cells <= List.length widths)%nat ->
  all_strings cells = true ->
  runs (draw_cells anchor_x y cells widths row_h f fill) tt
       (cells_ops anchor_x y widths row_h f fill 0 cells) [].
Proof.
  intros Hsizes Hlen Hall. unfold draw_cells, enumerate.
  apply (cells_from_run anchor_x y widths row_h f fill Hsizes cells 0); [lia|exact Hall].
Qed.

Lemma draw_cells_fails anchor_x y cells widths row_h f fill :
  sizes_ok widths row_h ->
  (List.length widths < List.length cells)%nat ->
  all_strings (firstn (List.length widths) cells) = true ->
  fails (draw_cells anchor_x y cells widths row_h f fill) IndexError
        (cells_ops anchor_x y widths row_h f fill 0
           (firstn (List.length widths) cells)) [].
Proof.
  intros Hsizes Hlen Hall. unfold draw_cells, enumerate.
  replace (firstn (List.length widths) cells)
    with (firstn (List.length widths - 0) cells) in * by (now rewrite Nat.sub_0_r).
  apply (cells_from_fail anchor_x y widths row_h f fill Hsizes cells 0); [lia|lia|exact Hall].
Qed.

Lemma draw_cells_returns anchor_x y cells widths row_h f fill st :
  fst (draw_cells anchor_x y cells widths row_h f fill st) = Ret tt ->
  fits widths cells.
Proof.
  intros Hret. unfold draw_cells, enumerate in Hret. unfold fits.
  destruct (cells_from_return anchor_x y widths row_h f fill cells 0 st Hret) as [->|Hle];
    cbn [List.length]; lia.
Qed.

Lemma draw_rows_returns anchor_x widths row_h f (rows : list (list json)) :
  forall y st y',
  fst (draw_rows anchor_x y (map JList rows) widths row_h f st) = Ret y' ->
  Forall (fits widths) rows.
Proof.
  induction rows as [|row rows IH]; intros y st y' Hret; [constructor|].
  cbn [map draw_rows] in Hret.
  apply bind_returns in Hret. destruct Hret as (cells & st1 & Hcells & Hret).
  unfold lift in Hcells. cbn [iterate] in Hcells. injection Hcells as <- <-.
  apply bind_returns in Hret. destruct Hret as ([] & st2 & Hdraw & Hret).
  constructor.
  - apply (draw_cells_returns anchor_x y row widths row_h f data_fill st).
    now rewrite Hdraw.
  - exact (IH _ _ _ Hret).
Qed.

(** [draw_table] returns only on a record set that fits. *)
Lemma draw_table_returns w anchor_x anchor_y table_data columns rows widths row_h
    font_path st :
  record_set table_data columns rows ->
  fst (draw_table w anchor_x anchor_y table_data widths row_h font_path st) = Ret tt ->
  fits widths columns /\ Forall (fits widths) rows.
Proof.
  intros [Hcols Hdata] Hret. unfold draw_table in Hret.
  apply bind_returns in Hret. destruct Hret as (f & st1 & _ & Hret).
  apply bind_returns in Hret. destruct Hret as (cols & st2 & Hc & Hret).
  unfold lift in Hc. rewrite Hcols in Hc. injection Hc as <- <-.
  apply bind_returns in Hret. destruct Hret as (cells & st3 & Hc & Hret).
  unfold lift in Hc. cbn [iterate] in Hc. injection Hc as <- <-.
  apply bind_returns in Hret. destruct Hret as ([] & st4 & Hhead & Hret).
  apply bind_returns in Hret. destruct Hret as (data & st5 & Hd & Hret).
  unfold lift in Hd. rewrite Hdata in Hd. injection Hd as <- <-.
  apply bind_returns in Hret. destruct Hret as (items & st6 & Hd & Hret).
  unfold lift in Hd. cbn [iterate] in Hd. injection Hd as <- <-.
  apply bind_returns in Hret. destruct Hret as (y' & st7 & Hrows & _).
  split.
  - apply (draw_cells_returns anchor_x anchor_y columns widths row_h f header_fill st1).
    now rewrite Hhead.
  - apply (draw_rows_returns anchor_x widths row_h f rows (anchor_y + row_h) st4 y').
    now rewrite Hrows.
Qed.

(** Rows of strings that fit are all drawn, row [k], [k + 1], ... one
    [row_h] apart. *)
Lemma draw_rows_run anchor_x anchor_y widths row_h f (rows : list (list json)) :
  sizes_ok widths row_h ->
  Forall (fits widths) rows ->
  Forall (fun row => all_strings row = true) rows ->
  forall k,
  runs (draw_rows anchor_x (anchor_y + (Z.of_nat k + 1) * row_h) (map JList rows)
                  widths row_h f)
       (anchor_y + (Z.of_nat (k + List.length rows) + 1) * row_h)
       (rows_ops anchor_x anchor_y widths row_h f k rows) [].
Proof.
  intros Hsizes Hfit. induction Hfit as [|row rows Hrow Hrows IH]; intros Hstr k.
  - cbn [map draw_rows List.length]. rewrite Nat.add_0_r. apply runs_ret.
  - cbn [map draw_rows List.length].
    inversion Hstr as [|? ? Hs Hss]; subst.
    eapply runs_seq; [apply runs_lift; reflexivity| |reflexivity|reflexivity].
    eapply runs_seq;
      [apply draw_cells_runs; [exact Hsizes|exact Hrow|exact Hs]| |reflexivity|reflexivity].
    replace (anchor_y + (Z.of_nat k + 1) * row_h + row_h)
      with (anchor_y + (Z.of_nat (S k) + 1) * row_h) by lia.
    replace (k + S (List.length rows))%nat with (S k + List.length rows)%nat by lia.
    apply IH, Hss.
Qed.

(** A row that does not fit stops the loop with an [IndexError]. *)
Lemma draw_rows_fail anchor_x widths row_h f (rows : list (list json)) :
  sizes_ok widths row_h ->
  Forall (fun row => all_strings row = true) rows ->
  Exists (fun row => ~ fits widths row) rows ->
  forall y, exists ops,
    fails (draw_rows anchor_x y (map JList rows) widths row_h f) IndexError ops [].
Proof.
  intros Hsizes. induction rows as [|row rows IH]; intros Hstr Hex y.
  - inversion Hex.
  - cbn [map draw_rows]. inversion Hstr as [|? ? Hs Hss]; subst.
    destruct (le_lt_dec (List.length row) (List.length widths)) as [Hfit|Hlong].
    + assert (Hrest : Exists (fun row => ~ fits widths row) rows).
      { inversion Hex as [? ? Hbad|]; [contradiction|assumption]. }
      destruct (IH Hss Hrest (y + row_h)) as [ops Hops].
      eexists.
      eapply fails_seq; [apply runs_lift; reflexivity| |reflexivity|reflexivity].
      eapply fails_seq;
        [apply draw_cells_runs; [exact Hsizes|exact Hfit|exact Hs]|exact Hops
        |reflexivity|reflexivity].
    + eexists.
      eapply fails_seq; [apply runs_lift; reflexivity| |reflexivity|reflexivity].
      apply fails_bind_l.
      apply draw_cells_fails; [exact Hsizes|exact Hlong|now apply all_strings_firstn].
Qed.

Lemma truetype_runs w font_path size :
  font_files w font_path = true ->
  runs (truetype w font_path size) (mkFont font_path size) [] [].
Proof. intros Hf. unfold truetype. rewrite Hf. apply runs_ret. Qed.

Lemma draw_table_run w anchor_x anchor_y table_data columns rows widths row_h font_path :
  font_files w font_path = true ->
  record_set table_data columns rows ->
  fits widths columns ->
  Forall (fits widths) rows ->
  sizes_ok widths row_h ->
  all_strings columns = true ->
  Forall (fun row => all_strings row = true) rows ->
  runs (draw_table w anchor_x anchor_y table_data widths row_h font_path) tt
       (table_ops anchor_x anchor_y widths row_h (mkFont font_path 16) columns rows) [].
Proof.
  intros Hfont [Hcols Hdata] Hhead Hrows Hsizes Hstr Hstrs. unfold draw_table.
  eapply runs_seq; [apply truetype_runs, Hfont| |reflexivity|reflexivity].
  eapply runs_seq; [apply runs_lift, Hcols| |reflexivity|reflexivity].
  eapply runs_seq; [apply runs_lift; reflexivity| |reflexivity|reflexivity].
  eapply runs_seq;
    [apply draw_cells_runs; [exact Hsizes|exact Hhead|exact Hstr]| |reflexivity|reflexivity].
  eapply runs_seq; [apply runs_lift, Hdata| |reflexivity|reflexivity].
  eapply runs_seq; [apply runs_lift; reflexivity| |reflexivity|reflexivity].
  cbv zeta.
  replace (anchor_y + row_h) with (anchor_y + (Z.of_nat 0 + 1) * row_h) by lia.
  eapply runs_seq;
    [apply draw_rows_run; [exact Hsizes|exact Hrows|exact Hstrs]|apply runs_ret
    |rewrite app_nil_r; reflexivity|reflexivity].
Qed.

Lemma draw_table_fail w anchor_x anchor_y table_data columns rows widths row_h font_path :
  font_files w font_path = true ->
  record_set table_data columns rows ->
  sizes_ok widths row_h ->
  all_strings columns = true ->
  Forall (fun row => all_strings row = true) rows ->
  Exists (fun row => ~ fits widths row) rows ->
  exists ops,
    fails (draw_table w anchor_x anchor_y table_data widths row_h font_path)
          IndexError ops [].
Proof.
  intros Hfont [Hcols Hdata] Hsizes Hstr Hstrs Hbad. unfold draw_table.
  destruct (le_lt_dec (List.length columns) (List.length widths)) as [Hhead|Hhead].
  - destruct (draw_rows_fail anchor_x widths row_h (mkFont font_path 16) rows Hsizes Hstrs
                Hbad (anchor_y + row_h)) as [ops Hops].
    eexists.
    eapply fails_seq; [apply truetype_runs, Hfont| |reflexivity|reflexivity].
    eapply fails_seq; [apply runs_lift, Hcols| |reflexivity|reflexivity].
    eapply fails_seq; [apply runs_lift; reflexivity| |reflexivity|reflexivity].
    eapply fails_seq;
      [apply draw_cells_runs; [exact Hsizes|exact Hhead|exact Hstr]| |reflexivity|reflexivity].
    eapply fails_seq; [apply runs_lift, Hdata| |reflexivity|reflexivity].
    eapply fails_seq; [apply runs_lift; reflexivity| |reflexivity|reflexivity].
    apply fails_bind_l. exact Hops.
  - eexists.
    eapply fails_seq; [apply truetype_runs, Hfont| |reflexivity|reflexivity].
    eapply fails_seq; [apply runs_lift, Hcols| |reflexivity|reflexivity].
    eapply fails_seq; [apply runs_lift; reflexivity| |reflexivity|reflexivity].
    apply fails_bind_l.
    apply draw_cells_fails; [exact Hsizes|exact Hhead|now apply all_strings_firstn].
Qed.

Lemma in_enumerate_from {A : Type} (xs : list A) :
  forall k c x, nth_error xs c = Some x ->
  In ((k + c)%nat, x) (combine (seq k (List.length xs)) xs).
Proof.
  induction xs as [|y xs IH]; intros k c x Hx.
  - destruct c; discriminate Hx.
  - destruct c as [|c]; cbn [List.length seq combine].
    + injection Hx as ->. rewrite Nat.add_0_r. now left.
    + right. replace (k + S c)%nat with (S k + c)%nat by lia. now apply IH.
Qed.

(** Where the laid-out table has the rectangle of a header cell. *)
Lemma table_ops_header anchor_x anchor_y widths row_h f columns rows c cell :
  nth_error columns c = Some cell ->
  In (Rectangle (anchor_x + sum (firstn c widths)) anchor_y
                (anchor_x + sum (firstn c widths) + nth c widths 0) (anchor_y + row_h)
                (Named "#FFD700") (Named "black"))
     (table_ops anchor_x anchor_y widths row_h f columns rows).
Proof.
  intros Hc. unfold table_ops. apply in_or_app. left.
  unfold cells_ops. apply in_flat_map. exists (c, cell). split.
  - exact (in_enumerate_from columns 0 c cell Hc).
  - now left.
Qed.

(** Where it has the rectangle of the cell in row [r] and column [c]. *)
Lemma table_ops_cell anchor_x anchor_y widths row_h f columns rows r row c cell :
  nth_error rows r = Some row ->
  nth_error row c = Some cell ->
  In (Rectangle (anchor_x + sum (firstn c widths))
                (anchor_y + (Z.of_nat r + 1) * row_h)
                (anchor_x + sum (firstn c widths) + nth c widths 0)
                (anchor_y + (Z.of_nat r + 1) * row_h + row_h)
                (data_fill c) (Named "black"))
     (table_ops anchor_x anchor_y widths row_h f columns rows).
Proof.
  intros Hr Hc. unfold table_ops. apply in_or_app. right.
  unfold rows_ops. apply in_flat_map. exists (r, row). split.
  - exact (in_enumerate_from rows 0 r row Hr).
  - unfold cells_ops. apply in_flat_map. exists (c, cell). split.
    + exact (in_enumerate_from row 0 c cell Hc).
    + now left.
Qed.

(** C6. [draw_table], given a record set of strings whose header and rows
    fit the column widths, with widths and a row height that are not
    negative, draws exactly the laid-out table: the rectangle of column
    [c] starts at [anchor_x] plus the widths of columns [0..c-1] (for
    widths [200, 350] the second column starts at [anchor_x + 200]), the
    header is at [anchor_y] and data row [r] at
    [anchor_y + (r + 1) * row_height], one [row_height] below the row
    before it. *)
Theorem draw_table_layout :
  forall w anchor_x anchor_y table_data columns rows widths row_h font_path,
    font_files w font_path = true ->
    record_set table_data columns rows ->
    fits widths columns ->
    Forall (fits widths) rows ->
    sizes_ok widths row_h ->
    all_strings columns = true ->
    Forall (fun row => all_strings row = true) rows ->
    let ops := table_ops anchor_x anchor_y widths row_h (mkFont font_path 16)
                         columns rows in
    runs (draw_table w anchor_x anchor_y table_data widths row_h font_path) tt ops []
    /\ (forall c cell,
          nth_error columns c = Some cell ->
          In (Rectangle (anchor_x + sum (prefix widths c)) anchor_y
                        (anchor_x + sum (prefix widths c) + nth c widths 0)
                        (anchor_y + row_h)
                        (Named "#FFD700") (Named "black")) ops)
    /\ (forall r row c cell,
          nth_error rows r = Some row ->
          nth_error row c = Some cell ->
          In (Rectangle (anchor_x + sum (prefix widths c))
                        (anchor_y + (Z.of_nat r + 1) * row_h)
                        (anchor_x + sum (prefix widths c) + nth c widths 0)
                        (anchor_y + (Z.of_nat r + 1) * row_h + row_h)
                        (data_fill c) (Named "black")) ops)
    /\ anchor_x + sum (prefix [200; 350] 1) = anchor_x + 200.
Proof.
  intros w anchor_x anchor_y table_data columns rows widths row_h font_path
         Hfont Hset Hhead Hrows Hsizes Hstr Hstrs ops.
  split; [now apply draw_table_run|].
  split; [intros c cell Hc; now apply table_ops_header with (cell := cell)|].
  split; [|reflexivity].
  intros r row c cell Hr Hc. now apply table_ops_cell with (row := row) (cell := cell).
Qed.

Lemma draw_table_layout_witness :
  runs (draw_table sample_env 71 543 sample_table [200; 350] 40
                   "font/Comic Sans MS Bold.ttf") tt
       [ Rectangle 71 543 271 583 (Named "#FFD700") (Named "black");
         Text 81 553 (JStr "A") (mkFont "font/Comic Sans MS Bold.ttf" 16) (Named "black");
         Rectangle 271 543 621 583 (Named "#FFD700") (Named "black");
         Text 281 553 (JStr "B") (mkFont "font/Comic Sans MS Bold.ttf" 16) (Named "black");
         Rectangle 71 583 271 623 (Named "#E6E6FA") (Named "black");
         Text 81 593 (JStr "1") (mkFont "font/Comic Sans MS Bold.ttf" 16) (Named "black");
         Rectangle 271 583 621 623 (Named "#98FB98") (Named "black");
         Text 281 593 (JStr "2") (mkFont "font/Comic Sans MS Bold.ttf" 16) (Named "black") ]
       [].
Proof.
  refine (proj1 (draw_table_layout sample_env 71 543 sample_table
                   [JStr "A"; JStr "B"] [[JStr "1"; JStr "2"]] [200; 350] 40
                   "font/Comic Sans MS Bold.ttf" eq_refl (conj eq_refl eq_refl) _ _ _
                   eq_refl _)).
  - unfold fits; simpl; lia.
  - repeat constructor.
  - split; [repeat constructor; lia|lia].
  - repeat constructor.
Defined.

(** C9. [draw_table] returns only if the header and every data row have
    at most as many cells as there are column widths, whatever the cells
    and the sizes are.  With a loadable font and a record set of strings,
    sizes not negative, it raises [IndexError] as soon as some data row
    has more cells than there are column widths; when every row fits, the
    loop over the data rows raises nothing, and when the header fits too
    [draw_table] returns. *)
Theorem draw_table_index_error :
  forall w anchor_x anchor_y table_data columns rows widths row_h font_path st,
    record_set table_data columns rows ->
    (fst (draw_table w anchor_x anchor_y table_data widths row_h font_path st) = Ret tt ->
     (List.length columns <= List.length widths)%nat
     /\ Forall (fun row => (List.length row <= List.length widths)%nat) rows)
    /\ (font_files w font_path = true ->
        sizes_ok widths row_h ->
        all_strings columns = true ->
        Forall (fun row => all_strings row = true) rows ->
        (Exists (fun row => (List.length widths < List.length row)%nat) rows ->
         fst (draw_table w anchor_x anchor_y table_data widths row_h font_path st)
         = Raise IndexError)
        /\ (Forall (fun row => (List.length row <= List.length widths)%nat) rows ->
            (forall y f st', exists y',
               fst (draw_rows anchor_x y (map JList rows) widths row_h f st') = Ret y')
            /\ ((List.length columns <= List.length widths)%nat ->
                fst (draw_table w anchor_x anchor_y table_data widths row_h font_path st)
                = Ret tt))).
Proof.
  intros w anchor_x anchor_y table_data columns rows widths row_h font_path st Hset.
  split.
  - intros Hret.
    exact (draw_table_returns w anchor_x anchor_y table_data columns rows widths row_h
             font_path st Hset Hret).
  - intros Hfont Hsizes Hstr Hstrs. split.
    + intros Hbad.
      assert (Hbad' : Exists (fun row => ~ fits widths row) rows).
      { eapply Exists_impl; [|exact Hbad]. unfold fits. intros row Hrow.
        simpl in Hrow. lia. }
      destruct (draw_table_fail w anchor_x anchor_y table_data columns rows widths row_h
                  font_path Hfont Hset Hsizes Hstr Hstrs Hbad') as [ops Hops].
      now rewrite Hops.
    + intros Hfit. split.
      * intros y f st'.
        replace y with ((y - row_h) + (Z.of_nat 0 + 1) * row_h) by lia.
        eexists.
        rewrite (draw_rows_run anchor_x (y - row_h) widths row_h f rows Hsizes Hfit
                   Hstrs 0 st').
        reflexivity.
      * intros Hhead.
        now rewrite (draw_table_run w anchor_x anchor_y table_data columns rows widths
                       row_h font_path Hfont Hset Hhead Hfit Hsizes Hstr Hstrs st).
Qed.

Lemma draw_table_index_error_witness :
  fst (draw_table sample_env 71 543 wide_table [200; 350] 40
                  "font/Comic Sans MS Bold.ttf" initial_state)
  = Raise IndexError
  /\ fst (draw_table sample_env 71 543 sample_table [200; 350] 40
                     "font/Comic Sans MS Bold.ttf" initial_state)
     = Ret tt.
Proof.
  assert (Hsizes : sizes_ok [200; 350] 40) by (split; [repeat constructor; lia|lia]).
  split.
  - refine (proj1 (proj2 (draw_table_index_error sample_env 71 543 wide_table
                     [JStr "A"; JStr "B"] [[JStr "1"; JStr "2"; JStr "3"]] [200; 350] 40
                     "font/Comic Sans MS Bold.ttf" initial_state (conj eq_refl eq_refl))
                     eq_refl Hsizes eq_refl _) _).
    + repeat constructor.
    + apply Exists_cons_hd. simpl. lia.
  - refine (proj2 (proj2 (proj2 (draw_table_index_error sample_env 71 543 sample_table
                     [JStr "A"; JStr "B"] [[JStr "1"; JStr "2"]] [200; 350] 40
                     "font/Comic Sans MS Bold.ttf" initial_state (conj eq_refl eq_refl))
                     eq_refl Hsizes eq_refl _) _) _).
    + repeat constructor.
    + repeat constructor.
    + simpl. lia.
Defined.

(** ** [draw_gradient] *)

(** Split a conjunction of closed facts and evaluate each. *)
Ltac evaluate :=
  repeat match goal with |- _ /\ _ => split end;
  vm_compute; (reflexivity || discriminate || (intros ?; discriminate)).

Lemma in_range (h i : Z) : 0 <= i < h -> In i (range h).
Proof.
  intros Hi. unfold range. apply in_map_iff. exists (Z.to_nat i).
  split; [lia|]. apply in_seq. lia.
Qed.

Lemma range_in (h i : Z) : In i (range h) -> 0 <= i < h.
Proof.
  unfold range. intros Hin. apply in_map_iff in Hin. destruct Hin as (n & <- & Hn).
  apply in_seq in Hn. lia.
Qed.

Lemma nth_range (h i : Z) :
  0 <= i < h -> nth_error (range h) (Z.to_nat i) = Some i.
Proof.
  intros Hi. unfold range. rewrite nth_error_map.
  rewrite nth_error_seq.
  destruct (Nat.ltb_spec (Z.to_nat i) (Z.to_nat h)); [|lia].
  cbn. f_equal. lia.
Qed.

Lemma length_range (h : Z) : List.length (range h) = Z.to_nat h.
Proof. unfold range. now rewrite length_map, length_seq. Qed.

(** A test that holds on [range h] holds of every row below [h]. *)
Lemma on_range (test : Z -> bool) (h i : Z) :
  forallb test (range h) = true -> 0 <= i < h -> test i = true.
Proof.
  intros Hall Hi. rewrite forallb_forall in Hall. apply Hall, in_range, Hi.
Qed.

Lemma color_eqb_eq (c d : color) : color_eqb c d = true -> c = d.
Proof.
  destruct c as [r g b|n], d as [r' g' b'|n']; cbn; try discriminate.
  - intros H. apply andb_true_iff in H. destruct H as [H Hb].
    apply andb_true_iff in H. destruct H as [Hr Hg].
    apply Z.eqb_eq in Hr, Hg, Hb. now subst.
  - intros H. apply String.eqb_eq in H. now subst.
Qed.

Lemma runs_for_each {A : Type} (body : A -> Py unit) (op : A -> draw_op) (xs : list A) :
  (forall x, In x xs -> runs (body x) tt [op x] []) ->
  runs (for_each xs body) tt (map op xs) [].
Proof.
  induction xs as [|x xs IH]; intros Hbody; cbn [for_each map].
  - apply runs_ret.
  - eapply runs_seq;
      [apply Hbody; now left|apply IH; intros y Hy; apply Hbody; now right
      |reflexivity|reflexivity].
Qed.

(** Every row of the program's gradient passes the test. *)
Lemma program_rows (lm : Libm) :
  forallb row_as_specified (range height) = true.
Proof. vm_compute. reflexivity. Qed.

Lemma program_row (lm : Libm) (i : Z) :
  0 <= i < height ->
  let blend := spec_blend i height in
  (0 <= blend <= 1)%Q
  /\ (exists (b : spec_float) (q : Q),
        gradient_blend (F := spec_float) i height = Ret b
        /\ Binary64.to_Q b = Some q
        /\ (Qabs.Qabs (q - blend) <= 1 # 4503599627370496)%Q
        /\ gradient_color (F := spec_float) blue orange b
           = Ret (exact_color blue orange i height))
  /\ is_byte_color (exact_color blue orange i height) = true.
Proof.
  intros Hi blend.
  pose proof (on_range row_as_specified height i (program_rows lm) Hi) as Hrow.
  unfold row_as_specified in Hrow. fold blend in Hrow.
  apply andb_true_iff in Hrow. destruct Hrow as [Hrow Hbytes].
  apply andb_true_iff in Hrow. destruct Hrow as [Hrange Hrow].
  apply andb_true_iff in Hrange. destruct Hrange as [H0 H1].
  apply Qle_bool_iff in H0, H1.
  split; [split; assumption|]. split; [|exact Hbytes].
  destruct (gradient_blend (F := spec_float) i height) as [b|e]; [|discriminate Hrow].
  apply andb_true_iff in Hrow. destruct Hrow as [Hnear Hcolor].
  destruct (Binary64.to_Q b) as [q|] eqn:Hq; [|discriminate Hnear].
  apply Qle_bool_iff in Hnear.
  exists b, q. split; [reflexivity|]. split; [exact Hq|]. split; [exact Hnear|].
  destruct (gradient_color (F := spec_float) blue orange b) as [c|e]; [|discriminate Hcolor].
  f_equal. now apply color_eqb_eq.
Qed.

Lemma program_row_color (lm : Libm) (i : Z) :
  0 <= i < height ->
  row_color (F := spec_float) blue orange i height
  = Ret (exact_color blue orange i height).
Proof.
  intros Hi. destruct (program_row lm i Hi) as (_ & (b & q & Hb & _ & _ & Hc) & _).
  unfold row_color. rewrite Hb. exact Hc.
Qed.

(** The program's gradient: 982 lines, row [i] in its exact colour. *)
Lemma program_gradient (lm : Libm) :
  runs (draw_gradient (F := spec_float) width height blue orange) tt
       (map (exact_line width height blue orange) (range height)) [].
Proof.
  unfold draw_gradient. apply runs_for_each. intros i Hi. apply range_in in Hi.
  eapply runs_seq;
    [apply runs_lift, program_row_color, Hi|apply runs_draw_line|reflexivity|reflexivity].
Qed.

Lemma is_byte_color_channels (r g b : Z) :
  is_byte_color (RGB r g b) = true -> is_byte r /\ is_byte g /\ is_byte b.
Proof.
  unfold is_byte_color, is_byte. cbn [channels forallb]. intros H.
  repeat (apply andb_true_iff in H; destruct H as [? H]).
  repeat match goal with
         | H : (_ && _)%bool = true |- _ => apply andb_true_iff in H; destruct H
         | H : (_ <=? _) = true |- _ => apply Z.leb_le in H
         end.
  lia.
Qed.






(** ** [draw_flower] *)

Lemma for_each_ext {A : Type} (xs : list A) (f g : A -> Py unit) :
  (forall x, In x xs -> forall st, f x st = g x st) ->
  forall st, for_each xs f st = for_each xs g st.
Proof.
  induction xs as [|x xs IH]; intros Hfg st; [reflexivity|].
  cbn [for_each]. unfold bind. rewrite (Hfg x (or_introl eq_refl)).
  destruct (g x st) as [[[]|e] st']; [|reflexivity].
  apply IH. intros y Hy. apply Hfg. now right.
Qed.

Lemma for_each_map {A B : Type} (h : A -> B) (xs : list A) (g : B -> Py unit) :
  forall st, for_each (map h xs) g st = for_each xs (fun x => g (h x)) st.
Proof.
  induction xs as [|x xs IH]; intros st; [reflexivity|].
  cbn [map for_each]. unfold bind. destruct (g (h x) st) as [[[]|e] st']; [|reflexivity].
  apply IH.
Qed.

Lemma for_each_app {A : Type} (xs ys : list A) (g : A -> Py unit) :
  forall st,
  for_each (xs ++ ys) g st
  = match for_each xs g st with
    | (Ret _, st') => for_each ys g st'
    | (Raise e, st') => (Raise e, st')
    end.
Proof.
  induction xs as [|x xs IH]; intros st.
  - reflexivity.
  - cbn [app for_each]. unfold bind. destruct (g x st) as [[[]|e] st']; [|reflexivity].
    apply IH.
Qed.

Section Boxes.
Context {F : Type} {PF : PyFloat F}.

(** [draw.ellipse] on a box. *)
Let draw_box : box F -> Py unit := fun b =>
  let '(x0, y0, x1, y1) := fst b in draw_ellipse x0 y0 x1 y1 (snd b).

(** Drawing boxes in turn: the boxes before the first one that is
    refused are drawn, and that one raises [ValueError]. *)
Lemma draw_boxes (boxes : list (box F)) :
  forall st,
  for_each boxes draw_box st
  = (if forallb accepted boxes then Ret tt else Raise ValueError,
     extend (map ellipse_of (leading accepted boxes)) [] st).
Proof.
  induction boxes as [|b boxes IH]; intros st.
  - cbn. now rewrite extend_nil.
  - cbn [for_each forallb leading map]. unfold bind.
    destruct b as [[[[x0 y0] x1] y1] fill].
    unfold draw_box at 1, draw_ellipse, accepted at 1 3, ellipse_of at 1. cbn [fst snd].
    destruct (fltb x1 x0 || fltb y1 y0); cbn [negb andb].
    + unfold raise. cbn [map]. now rewrite extend_nil.
    + unfold emit. rewrite IH. cbn [map]. f_equal.
      unfold extend. cbn [canvas stdout]. now rewrite <- app_assoc.
Qed.

Variables (x y : Z) (scale cx cy ten thirty : F).
Variables (angle cosine sine : Z -> F).
Hypothesis convert_x : of_int x = Ret cx.
Hypothesis convert_y : of_int y = Ret cy.
Hypothesis convert_10 : of_int 10 = Ret ten.
Hypothesis convert_30 : of_int 30 = Ret thirty.
Hypothesis angles : forall k, In k (range 5) -> petal_angle k 5 = Ret (angle k).
Hypothesis cosines : forall k, In k (range 5) -> fcos (angle k) = Ret (cosine k).
Hypothesis sines : forall k, In k (range 5) -> fsin (angle k) = Ret (sine k).

Let inner : F := fmul ten scale.
Let outer : F := fmul thirty scale.

Let petal : Z -> box F := fun k =>
  (fadd (fsub cx outer) (fmul inner (cosine k)),
   fadd (fsub cy outer) (fmul inner (sine k)),
   fadd (fadd cx outer) (fmul inner (cosine k)),
   fadd (fadd cy outer) (fmul inner (sine k)), Named "pink").

Let disc : box F :=
  (fsub cx inner, fsub cy inner, fadd cx inner, fadd cy inner, Named "yellow").

(** [draw_flower] draws its six boxes in turn. *)
Lemma draw_flower_boxes :
  forall st,
  draw_flower x y scale st
  = (if forallb accepted (map petal (range 5) ++ [disc]) then Ret tt else Raise ValueError,
     extend (map ellipse_of (leading accepted (map petal (range 5) ++ [disc]))) [] st).
Proof.
  intros st. rewrite <- draw_boxes. rewrite for_each_app, for_each_map.
  unfold draw_flower, int_times. rewrite convert_10, convert_30. cbn [obind].
  unfold bind at 1. unfold lift at 1. unfold bind at 1. unfold lift at 1.
  unfold bind at 1.
  rewrite (for_each_ext (range 5) _ (fun k => draw_box (petal k))).
  - destruct (for_each (range 5) (fun k => draw_box (petal k)) st) as [[[]|e] st'];
      [|reflexivity].
    cbn [for_each]. unfold bind, lift. rewrite convert_x, convert_y.
    unfold draw_box, disc. cbn [fst snd].
    destruct (draw_ellipse _ _ _ _ _ st') as [[[]|e] st'']; reflexivity.
  - intros k Hk st'. unfold bind, lift.
    rewrite (angles k Hk), (cosines k Hk), (sines k Hk), convert_x, convert_y.
    reflexivity.
Qed.
End Boxes.

(** The constants of [draw_flower] in binary64: [math.radians] multiplies
    by [pi / 180], and the angle of petal [k] is [radians(72.0 * k)]. *)
Lemma deg_to_rad_value :
  Binary64.div Binary64.pi (Binary64.lit 180) = Ret Binary64.deg_to_rad.
Proof. vm_compute. reflexivity. Qed.

Lemma petal_angles (lm : Libm) (k : Z) :
  In k (range 5) -> petal_angle (F := spec_float) k 5 = Ret (petal_radians k).
Proof.
  intros Hk. cbn in Hk.
  repeat (destruct Hk as [<-|Hk]; [vm_compute; reflexivity|]). contradiction.
Qed.

Lemma petal_cosines (lm : Libm) (k : Z) :
  In k (range 5) ->
  fcos (F := spec_float) (petal_radians k) = Ret (libm_cos (petal_radians k)).
Proof.
  intros Hk. cbn in Hk.
  repeat (destruct Hk as [<-|Hk]; [vm_compute; reflexivity|]). contradiction.
Qed.

Lemma petal_sines (lm : Libm) (k : Z) :
  In k (range 5) ->
  fsin (F := spec_float) (petal_radians k) = Ret (libm_sin (petal_radians k)).
Proof.
  intros Hk. cbn in Hk.
  repeat (destruct Hk as [<-|Hk]; [vm_compute; reflexivity|]). contradiction.
Qed.

(** In binary64 [draw_flower] draws the boxes of the specification in
    turn, up to the first one that [draw.ellipse] refuses. *)
Lemma draw_flower_binary64 (lm : Libm) (x y : Z) (cx cy scale : spec_float) :
  Binary64.of_Z x = Ret cx -> Binary64.of_Z y = Ret cy ->
  forall st,
  draw_flower (F := spec_float) x y scale st
  = (if forallb accepted (flower_boxes cx cy scale) then Ret tt else Raise ValueError,
     extend (map ellipse_of (leading accepted (flower_boxes cx cy scale))) [] st).
Proof.
  intros Hx Hy st.
  exact (draw_flower_boxes x y scale cx cy (Binary64.lit 10) (Binary64.lit 30)
           petal_radians (fun k => libm_cos (petal_radians k))
           (fun k => libm_sin (petal_radians k)) Hx Hy eq_refl eq_refl
           (petal_angles lm) (petal_cosines lm) (petal_sines lm) st).
Qed.

Lemma leading_all {A : Type} (test : A -> bool) (xs : list A) :
  forallb test xs = true -> leading test xs = xs.
Proof.
  induction xs as [|x xs IH]; [reflexivity|]. cbn [forallb leading].
  intros H. apply andb_true_iff in H. destruct H as [-> H]. now rewrite IH.
Qed.

(** A flower all of whose boxes are accepted is drawn in full. *)
Lemma draw_flower_runs (lm : Libm) (x y : Z) (cx cy scale : spec_float) :
  Binary64.of_Z x = Ret cx -> Binary64.of_Z y = Ret cy ->
  forallb accepted (flower_boxes cx cy scale) = true ->
  runs (draw_flower (F := spec_float) x y scale) tt (flower_ops cx cy scale) [].
Proof.
  intros Hx Hy Hok st. rewrite (draw_flower_binary64 lm x y cx cy scale Hx Hy st).
  rewrite Hok, (leading_all _ _ Hok). reflexivity.
Qed.




(** ** [load_json_file] and the table it feeds *)

Lemma load_json_file_not_found (w : env) (filepath : string) :
  read_text w filepath = Raise FileNotFoundError ->
  runs (load_json_file w filepath) (JDict []) [] ["The file was not found."].
Proof.
  intros Hread. unfold load_json_file. rewrite Hread. cbn [obind].
  eapply runs_seq; [apply runs_print|apply runs_ret|reflexivity|reflexivity].
Qed.

Lemma load_json_file_invalid (w : env) (filepath text : string) :
  read_text w filepath = Ret text ->
  json_loads w text = Raise JSONDecodeError ->
  runs (load_json_file w filepath) (JDict []) [] ["The file is not a valid JSON file."].
Proof.
  intros Hread Hjson. unfold load_json_file. rewrite Hread. cbn [obind]. rewrite Hjson.
  eapply runs_seq; [apply runs_print|apply runs_ret|reflexivity|reflexivity].
Qed.

(** An empty dictionary has no [columns]: the table is not drawn, the
    look-up raises. *)
Lemma draw_table_empty_dict w anchor_x anchor_y widths row_h font_path :
  font_files w font_path = true ->
  fails (draw_table w anchor_x anchor_y (JDict []) widths row_h font_path)
        (KeyError "columns") [] [].
Proof.
  intros Hfont. unfold draw_table.
  eapply fails_seq; [apply truetype_runs, Hfont| |reflexivity|reflexivity].
  apply fails_bind_l, fails_lift. reflexivity.
Qed.

(** The empty record set of the specification would draw nothing. *)
Lemma draw_table_empty_record_set w anchor_x anchor_y widths row_h font_path :
  font_files w font_path = true ->
  runs (draw_table w anchor_x anchor_y empty_record_set widths row_h font_path) tt [] [].
Proof.
  intros Hfont. unfold draw_table.
  eapply runs_seq; [apply truetype_runs, Hfont| |reflexivity|reflexivity].
  eapply runs_seq; [apply runs_lift; reflexivity| |reflexivity|reflexivity].
  eapply runs_seq; [apply runs_lift; reflexivity| |reflexivity|reflexivity].
  eapply runs_seq; [apply runs_ret| |reflexivity|reflexivity].
  eapply runs_seq; [apply runs_lift; reflexivity| |reflexivity|reflexivity].
  eapply runs_seq; [apply runs_lift; reflexivity| |reflexivity|reflexivity].
  eapply runs_seq; [apply runs_ret|apply runs_ret|reflexivity|reflexivity].
Qed.

(** C1 (the code on a missing or invalid file). [load_json_file] prints
    one line and returns the empty dictionary [{}], which is not the
    record set [{columns: [], data: []}]; [draw_table] on [{}] raises
    [KeyError('columns')] having drawn nothing, where on the empty record
    set it would return having drawn nothing.  The whole program run on a
    missing or a broken table file raises that [KeyError] and saves no
    image; on a good file it saves one. *)
Theorem load_json_file_fallback :
  forall (w : env) (filepath : string),
    read_text w filepath = Raise FileNotFoundError
    \/ (exists text, read_text w filepath = Ret text
                     /\ json_loads w text = Raise JSONDecodeError) ->
    (exists line, runs (load_json_file w filepath) (JDict []) [] [line])
    /\ JDict [] <> empty_record_set
    /\ (forall anchor_x anchor_y widths row_h font_path,
          font_files w font_path = true ->
          fails (draw_table w anchor_x anchor_y (JDict []) widths row_h font_path)
                (KeyError "columns") [] []
          /\ runs (draw_table w anchor_x anchor_y empty_record_set widths row_h font_path)
                  tt [] [])
    /\ fst (sample_run (F := spec_float) "images/wide_logo.png" "data/missing.json")
       = Raise (KeyError "columns")
    /\ fst (sample_run (F := spec_float) "images/wide_logo.png" "data/broken.json")
       = Raise (KeyError "columns")
    /\ filter is_save
         (canvas (snd (sample_run (F := spec_float) "images/wide_logo.png"
                         "data/missing.json"))) = []
    /\ fst (sample_run (F := spec_float) "images/wide_logo.png" "data/data.json")
       = Ret "out/gradient_flowers_composite_image.png".
Proof.
  intros w filepath Hfile. split; [|split; [|split]].
  - destruct Hfile as [Hmiss|(text & Hread & Hjson)].
    + eexists. now apply load_json_file_not_found.
    + eexists. now apply load_json_file_invalid with (text := text).
  - discriminate.
  - intros anchor_x anchor_y widths row_h font_path Hfont. split.
    + now apply draw_table_empty_dict.
    + now apply draw_table_empty_record_set.
  - evaluate.
Qed.

Lemma load_json_file_fallback_witness :
  load_json_file sample_env "data/missing.json" initial_state
  = (Ret (JDict []), mkState [] ["The file was not found."])
  /\ draw_table sample_env 71 543 (JDict []) [200; 350] 40 "font/Comic Sans MS Bold.ttf"
       initial_state
     = (Raise (KeyError "columns"), initial_state).
Proof.
  destruct (load_json_file_fallback sample_env "data/missing.json" (or_introl eq_refl))
    as (_ & _ & Htable & _).
  split; [reflexivity|].
  destruct (Htable 71 543 [200; 350] 40 "font/Comic Sans MS Bold.ttf" eq_refl)
    as [Hfails _].
  rewrite (Hfails initial_state). reflexivity.
Defined.

(** ** The logo *)

(** C2 (the code on three logos). The logo is pasted with itself as the
    mask, at x = 256 whatever its size: a 360 by 180 logo, scaled to 180
    by 90, is centred ((692 - 180) / 2 = 256), but a 100 by 100 logo, left
    as it is, would be centred at 296, and a 180 by 360 logo, scaled to 90
    by 180, at 301. *)
Theorem logo_pasted_at_fixed_position :
  (forall r : Z, fst (logo_position r) = 256)
  /\ filter is_masked_paste
       (canvas (snd (sample_run (F := spec_float) "images/wide_logo.png" "data/data.json")))
     = [ Paste (mkImage "images/wide_logo.png" 180 90) 256 (-10)
               (Some (mkImage "images/wide_logo.png" 180 90)) ]
  /\ (width - 180) / 2 = 256
  /\ filter is_masked_paste
       (canvas (snd (sample_run (F := spec_float) "images/front_image.png" "data/data.json")))
     = [ Paste (mkImage "images/front_image.png" 100 100) 256 (-10)
               (Some (mkImage "images/front_image.png" 100 100)) ]
  /\ (width - 100) / 2 = 296
  /\ filter is_masked_paste
       (canvas (snd (sample_run (F := spec_float) "images/tall_logo.png" "data/data.json")))
     = [ Paste (mkImage "images/tall_logo.png" 90 180) 256 (-10)
               (Some (mkImage "images/tall_logo.png" 90 180)) ]
  /\ (width - 90) / 2 = 301.
Proof.
  split; [intros r; reflexivity|].
  evaluate.
Qed.

(** ** The placeholders *)

Lemma open_rgba_runs (w : env) (path : string) (size : Z * Z) :
  image_files w path = Ret size ->
  runs (open_rgba w path) (mkImage path (fst size) (snd size)) [] [].
Proof.
  intros Him. unfold open_rgba. rewrite Him. destruct size as [iw ih]. apply runs_ret.
Qed.

Lemma open_rgba_fails (w : env) (path : string) (e : exn) :
  image_files w path = Raise e -> fails (open_rgba w path) e [] [].
Proof.
  intros Him. unfold open_rgba. rewrite Him. intros st. unfold raise.
  now rewrite extend_nil.
Qed.

Lemma paste_one_runs (w : env) (position : Z * Z) (path : string) :
  readable w path ->
  runs (im <- open_rgba w path ;;
        emit (Paste (resize im placeholder_size) (fst position) (snd position) None))%py
       tt [slot_paste (position, path)] [].
Proof.
  intros [size Him].
  eapply runs_seq; [apply open_rgba_runs, Him|apply runs_emit|reflexivity|reflexivity].
Qed.

Lemma paste_placeholders_runs (w : env) (image_paths : list string) :
  Forall (readable w) image_paths ->
  forall positions : list (Z * Z),
  runs (paste_placeholders w positions image_paths) tt
       (map slot_paste (combine positions image_paths)) [].
Proof.
  intros Hall. unfold paste_placeholders.
  induction Hall as [|path paths Hpath Hpaths IH]; intros positions.
  - destruct positions; apply runs_ret.
  - destruct positions as [|position positions]; [apply runs_ret|].
    cbn [combine for_each map].
    eapply runs_seq; [apply paste_one_runs, Hpath|apply IH|reflexivity|reflexivity].
Qed.

(** ** What is saved and what is reported *)

Section Silent.
Variables (p : draw_op -> bool) (q : string -> bool).

Lemma silent_ret {A : Type} (a : A) : silent p q (ret a).
Proof. intros st. exists [], []. cbn. now rewrite extend_nil. Qed.

Lemma silent_raise {A : Type} (e : exn) : silent p q (@raise A e).
Proof. intros st. exists [], []. cbn. now rewrite extend_nil. Qed.

Lemma silent_lift {A : Type} (o : outcome A) : silent p q (lift o).
Proof. intros st. exists [], []. cbn. now rewrite extend_nil. Qed.

Lemma silent_emit (op : draw_op) : p op = false -> silent p q (emit op).
Proof.
  intros Hop st. exists [op], []. unfold emit, extend. cbn [snd filter].
  rewrite Hop, app_nil_r. auto.
Qed.

Lemma silent_print (line : string) : q line = false -> silent p q (print line).
Proof.
  intros Hline st. exists [], [line]. unfold print, extend. cbn [snd filter].
  rewrite Hline, app_nil_r. auto.
Qed.

Lemma silent_bind {A B : Type} (m : Py A) (k : A -> Py B) :
  silent p q m -> (forall a, silent p q (k a)) -> silent p q (bind m k).
Proof.
  intros Hm Hk st. destruct (Hm st) as (o1 & l1 & E1 & P1 & Q1). unfold bind.
  destruct (m st) as [[a|e] st']; cbn [snd] in E1; subst st'.
  - destruct (Hk a (extend o1 l1 st)) as (o2 & l2 & E2 & P2 & Q2).
    exists (o1 ++ o2)%list, (l1 ++ l2)%list.
    rewrite E2, extend_extend, !filter_app, P1, P2, Q1, Q2. auto.
  - exists o1, l1. auto.
Qed.

Lemma silent_for_each {A : Type} (xs : list A) (body : A -> Py unit) :
  (forall x, silent p q (body x)) -> silent p q (for_each xs body).
Proof.
  intros Hbody. induction xs as [|x xs IH]; cbn [for_each].
  - apply silent_ret.
  - apply silent_bind; [apply Hbody|intros _; exact IH].
Qed.

Ltac silent_step :=
  cbv zeta;
  first [ apply silent_ret | apply silent_raise | apply silent_lift
        | apply silent_emit; solve [auto]
        | apply silent_print; solve [auto]
        | apply silent_bind; [|intros ?]
        | apply silent_for_each; intros ? ].

Lemma silent_draw_gradient {F : Type} {PF : PyFloat F} w h top bottom :
  no_line p -> silent p q (draw_gradient (F := F) w h top bottom).
Proof. intros Hp. unfold draw_gradient, draw_line. repeat silent_step. Qed.

Lemma silent_draw_ellipse {F : Type} {PF : PyFloat F} (x0 y0 x1 y1 : F) fill :
  no_ellipse p -> silent p q (draw_ellipse x0 y0 x1 y1 fill).
Proof.
  intros Hp. unfold draw_ellipse. destruct (fltb x1 x0 || fltb y1 y0); repeat silent_step.
Qed.

Lemma silent_draw_flower {F : Type} {PF : PyFloat F} x y (s : F) :
  no_ellipse p -> silent p q (draw_flower x y s).
Proof.
  intros Hp. unfold draw_flower.
  repeat first [apply silent_draw_ellipse; exact Hp | silent_step].
Qed.

Lemma silent_open_rgba w path : silent p q (open_rgba w path).
Proof.
  unfold open_rgba. destruct (image_files w path) as [[iw ih]|e]; repeat silent_step.
Qed.

Lemma silent_paste_placeholders w positions image_paths :
  no_slot_paste p -> silent p q (paste_placeholders w positions image_paths).
Proof.
  intros Hp. unfold paste_placeholders. apply silent_for_each. intros [position path].
  apply silent_bind; [apply silent_open_rgba|intros im]. repeat silent_step.
Qed.

Lemma silent_load_json_file w filepath :
  no_message q -> silent p q (load_json_file w filepath).
Proof.
  intros [Hq1 Hq2]. unfold load_json_file. cbv zeta.
  destruct (obind _ _) as [data|e]; [|destruct e]; repeat silent_step.
Qed.

Lemma silent_draw_cells anchor_x y cells widths row_h f fill :
  no_rectangle p -> no_text p ->
  silent p q (draw_cells anchor_x y cells widths row_h f fill).
Proof.
  intros Hr Ht. unfold draw_cells. apply silent_for_each. intros [col_idx cell].
  apply silent_bind; [apply silent_lift|intros w].
  apply silent_bind; [|intros _].
  - unfold draw_rectangle. destruct (_ || _); repeat silent_step.
  - unfold draw_text. destruct cell; repeat silent_step.
Qed.

Lemma silent_draw_rows anchor_x widths row_h f rows :
  no_rectangle p -> no_text p ->
  forall y, silent p q (draw_rows anchor_x y rows widths row_h f).
Proof.
  intros Hr Ht. induction rows as [|row rows IH]; intros y; cbn [draw_rows].
  - apply silent_ret.
  - apply silent_bind; [apply silent_lift|intros cells].
    apply silent_bind; [now apply silent_draw_cells|intros _]. apply IH.
Qed.

Lemma silent_draw_table w anchor_x anchor_y table_data widths row_h font_path :
  no_rectangle p -> no_text p ->
  silent p q (draw_table w anchor_x anchor_y table_data widths row_h font_path).
Proof.
  intros Hr Ht. unfold draw_table, truetype.
  apply silent_bind; [destruct (font_files w font_path); repeat silent_step|intros f].
  cbv zeta.
  apply silent_bind; [apply silent_lift|intros columns].
  apply silent_bind; [apply silent_lift|intros cols].
  apply silent_bind; [now apply silent_draw_cells|intros _].
  apply silent_bind; [apply silent_lift|intros data].
  apply silent_bind; [apply silent_lift|intros rows].
  apply silent_bind; [now apply silent_draw_rows|intros _]. apply silent_ret.
Qed.

(** After calls that are known, a computation that is silent. *)
Lemma draws_then_silent {A : Type} (m : Py A) : silent p q m -> draws_then p [] m.
Proof.
  intros Hm st. destruct (Hm st) as (ops & lines & E & P & _).
  exists ops, lines. auto.
Qed.

Lemma draws_then_bind {A B : Type} (m : Py A) (k : A -> Py B) a o1 l1 o2 :
  runs m a o1 l1 -> draws_then p o2 (k a) -> draws_then p (o1 ++ o2) (bind m k).
Proof.
  intros Hm Hk st. unfold bind. rewrite Hm.
  destruct (Hk (extend o1 l1 st)) as (rest & lines & E & P).
  exists rest, (l1 ++ lines)%list. rewrite E, extend_extend, <- app_assoc. auto.
Qed.

Lemma draws_then_seq {A B : Type} (m : Py A) (k : A -> Py B) a o1 l1 o2 o :
  runs m a o1 l1 -> draws_then p o2 (k a) -> o = (o1 ++ o2)%list ->
  draws_then p o (bind m k).
Proof. intros Hm Hk ->. eapply draws_then_bind; eassumption. Qed.
End Silent.

(** ** The composition *)

Lemma load_json_file_runs (w : env) (filepath text : string) (data : json) :
  read_text w filepath = Ret text -> json_loads w text = Ret data ->
  runs (load_json_file w filepath) data [] [].
Proof.
  intros Hread Hjson. unfold load_json_file. rewrite Hread. cbn [obind]. rewrite Hjson.
  apply runs_ret.
Qed.

Lemma save_runs (w : env) (path : string) :
  writable w path = true ->
  runs ((if writable w path then emit (Save path) else raise OSError) ;;; ret path)%py
       path [Save path] [].
Proof.
  intros Hw. rewrite Hw.
  eapply runs_seq; [apply runs_emit|apply runs_ret|reflexivity|reflexivity].
Qed.

(** The numbers of the layout, in binary64. *)
Lemma flower_scale_value (lm : Libm) :
  flower_scale (F := spec_float) = Ret one_and_a_half.
Proof. vm_compute. reflexivity. Qed.

Lemma outer_radius_value (lm : Libm) :
  outer_radius (F := spec_float) one_and_a_half = Ret 45.
Proof. vm_compute. reflexivity. Qed.

Lemma top_space_value (lm : Libm) :
  top_space (F := spec_float) 45 one_and_a_half = Ret 137.
Proof. vm_compute. reflexivity. Qed.

Lemma program_sizes : sizes_ok col_widths row_height.
Proof. split; [repeat constructor; unfold col_widths; lia|unfold row_height; lia]. Qed.

Lemma filter_map_none {A : Type} (p : draw_op -> bool) (f : A -> draw_op) (xs : list A) :
  (forall x, p (f x) = false) -> filter p (map f xs) = [].
Proof.
  intros Hp. induction xs as [|x xs IH]; [reflexivity|].
  cbn [map filter]. now rewrite Hp.
Qed.

Lemma ellipse_of_is_ellipse {F : Type} {PF : PyFloat F} (b : box F) :
  exists x0 y0 x1 y1 fill, ellipse_of b = Ellipse x0 y0 x1 y1 fill.
Proof. destruct b as [[[[x0 y0] x1] y1] fill]. cbn. eauto 6. Qed.

Section Composition.
Context (lm : Libm) (w : env).
Variables (logo_path path_img1 path_img2 path_img3 path_img4 path_out font_path
             filepath : string).
Variables (logo_dims : Z * Z) (scaled : image).
Hypothesis left_accepted : forallb accepted left_flower = true.
Hypothesis right_accepted : forallb accepted right_flower = true.
Hypothesis logo_opens : image_files w logo_path = Ret logo_dims.
Hypothesis logo_scaled :
  thumbnail (F := spec_float) (mkImage logo_path (fst logo_dims) (snd logo_dims))
            (logo_size, logo_size) = Ret scaled.
Hypothesis images_open : Forall (readable w) [path_img1; path_img2; path_img3; path_img4].

(** The calls up to the last slot. *)
Let upper_part : list draw_op :=
  (map (exact_line width height blue orange) (range height)
   ++ map ellipse_of left_flower
   ++ map ellipse_of right_flower
   ++ [Paste scaled 256 (-10) (Some scaled)]
   ++ map slot_paste
          (combine (element_positions 137) [path_img1; path_img2; path_img3; path_img4]))%list.

(** With flowers that are accepted, a logo and four images that open,
    the composition gets as far as the slots, whatever the table file
    holds; nothing is pasted after them. *)
Lemma composite_slots :
  draws_then is_slot_paste upper_part
    (create_composite_image_with_gradient (F := spec_float) w logo_path path_img1
       path_img2 path_img3 path_img4 path_out font_path filepath).
Proof.
  unfold create_composite_image_with_gradient, upper_part.
  eapply draws_then_seq; [apply runs_lift; reflexivity| |reflexivity].
  eapply draws_then_seq; [apply runs_lift; reflexivity| |reflexivity].
  eapply draws_then_seq; [apply (program_gradient lm)| |reflexivity].
  eapply draws_then_seq; [apply runs_lift, flower_scale_value| |reflexivity].
  eapply draws_then_seq; [apply runs_lift, outer_radius_value| |reflexivity].
  eapply draws_then_seq;
    [apply (draw_flower_runs lm 80 80 (Binary64.lit 80) (Binary64.lit 80) one_and_a_half
              eq_refl eq_refl left_accepted)| |reflexivity].
  eapply draws_then_seq;
    [apply (draw_flower_runs lm 612 80 (Binary64.lit 612) (Binary64.lit 80) one_and_a_half
              eq_refl eq_refl right_accepted)| |reflexivity].
  eapply draws_then_seq; [apply open_rgba_runs, logo_opens| |reflexivity].
  eapply draws_then_seq; [apply runs_lift, logo_scaled| |reflexivity].
  eapply draws_then_seq; [apply runs_emit| |reflexivity].
  eapply draws_then_seq; [apply runs_lift, top_space_value| |reflexivity].
  eapply draws_then_seq;
    [apply paste_placeholders_runs, images_open| |rewrite app_nil_r; reflexivity].
  apply draws_then_silent with (q := fun _ => false).
  apply silent_bind; [apply silent_lift|intros table_y].
  apply silent_bind; [apply silent_load_json_file; split; reflexivity|intros table_data].
  apply silent_bind; [apply silent_draw_table; intros ?; reflexivity|intros _].
  cbv zeta. apply silent_bind; [|intros _; apply silent_ret].
  destruct (writable w _); [apply silent_emit; reflexivity|apply silent_raise].
Qed.

Variables (text : string) (table_data : json) (columns : list json)
          (rows : list (list json)).
Hypothesis font_loads : font_files w font_path = true.
Hypothesis file_read : read_text w filepath = Ret text.
Hypothesis file_decoded : json_loads w text = Ret table_data.
Hypothesis file_holds : record_set table_data columns rows.
Hypothesis header_fits : fits col_widths columns.
Hypothesis rows_fit : Forall (fits col_widths) rows.
Hypothesis header_strings : all_strings columns = true.
Hypothesis rows_strings : Forall (fun row => all_strings row = true) rows.
Hypothesis output_writable : writable w (output_path path_out) = true.

(** On good inputs the composition returns, having made all its calls. *)
Lemma composite_runs :
  runs (create_composite_image_with_gradient (F := spec_float) w logo_path path_img1
          path_img2 path_img3 path_img4 path_out font_path filepath)
       (output_path path_out)
       (upper_part
        ++ table_ops 71 543 col_widths row_height (mkFont font_path 16) columns rows
        ++ [Save (output_path path_out)])%list
       [].
Proof.
  unfold create_composite_image_with_gradient, upper_part.
  rewrite <- !app_assoc.
  eapply runs_seq; [apply runs_lift; reflexivity| |reflexivity|reflexivity].
  eapply runs_seq; [apply runs_lift; reflexivity| |reflexivity|reflexivity].
  eapply runs_seq; [apply (program_gradient lm)| |reflexivity|reflexivity].
  eapply runs_seq; [apply runs_lift, flower_scale_value| |reflexivity|reflexivity].
  eapply runs_seq; [apply runs_lift, outer_radius_value| |reflexivity|reflexivity].
  eapply runs_seq;
    [apply (draw_flower_runs lm 80 80 (Binary64.lit 80) (Binary64.lit 80) one_and_a_half
              eq_refl eq_refl left_accepted)| |reflexivity|reflexivity].
  eapply runs_seq;
    [apply (draw_flower_runs lm 612 80 (Binary64.lit 612) (Binary64.lit 80) one_and_a_half
              eq_refl eq_refl right_accepted)| |reflexivity|reflexivity].
  eapply runs_seq; [apply open_rgba_runs, logo_opens| |reflexivity|reflexivity].
  eapply runs_seq; [apply runs_lift, logo_scaled| |reflexivity|reflexivity].
  eapply runs_seq; [apply runs_emit| |reflexivity|reflexivity].
  eapply runs_seq; [apply runs_lift, top_space_value| |reflexivity|reflexivity].
  eapply runs_seq;
    [apply paste_placeholders_runs, images_open| |reflexivity|reflexivity].
  eapply runs_seq; [apply runs_lift; reflexivity| |reflexivity|reflexivity].
  eapply runs_seq;
    [apply (load_json_file_runs w filepath text table_data file_read file_decoded)|
    |reflexivity|reflexivity].
  eapply runs_seq;
    [apply (draw_table_run w 71 543 table_data columns rows col_widths row_height
              font_path font_loads file_holds header_fits rows_fit program_sizes
              header_strings rows_strings)| |reflexivity|reflexivity].
  apply save_runs, output_writable.
Qed.

(** Of the calls of the upper part, the pastes without a mask are the
    four slots, and none is a rectangle. *)
Lemma upper_part_slots :
  filter is_slot_paste upper_part
  = [ Paste (mkImage path_img1 300 168) 35 137 None;
      Paste (mkImage path_img2 300 168) 35 340 None;
      Paste (mkImage path_img3 300 168) 357 137 None;
      Paste (mkImage path_img4 300 168) 357 340 None ].
Proof.
  unfold upper_part. rewrite !filter_app.
  rewrite (filter_map_none is_slot_paste (exact_line width height blue orange))
    by reflexivity.
  rewrite !(filter_map_none is_slot_paste ellipse_of)
    by (intros b; destruct (ellipse_of_is_ellipse b) as (? & ? & ? & ? & ? & ->); reflexivity).
  reflexivity.
Qed.

Lemma upper_part_rectangles : filter is_rectangle upper_part = [].
Proof.
  unfold upper_part. rewrite !filter_app.
  rewrite (filter_map_none is_rectangle (exact_line width height blue orange))
    by reflexivity.
  rewrite !(filter_map_none is_rectangle ellipse_of)
    by (intros b; destruct (ellipse_of_is_ellipse b) as (? & ? & ? & ? & ? & ->); reflexivity).
  reflexivity.
Qed.
End Composition.

(** Every rectangle of a laid-out table that fits is that of some column
    [c]: it starts where the column starts and is as wide. *)
Lemma cells_ops_rectangle anchor_x y widths row_h f fill k cells x0 y0 x1 y1 c o :
  (k + List.length cells <= List.length widths)%nat ->
  In (Rectangle x0 y0 x1 y1 c o) (cells_ops anchor_x y widths row_h f fill k cells) ->
  exists col, (col < List.length widths)%nat
              /\ x0 = anchor_x + sum (firstn col widths)
              /\ x1 = x0 + nth col widths 0.
Proof.
  intros Hfit Hin. unfold cells_ops in Hin. apply in_flat_map in Hin.
  destruct Hin as ([col cell] & Hcol & Hop).
  apply in_combine_l in Hcol. apply in_seq in Hcol.
  exists col. split; [lia|].
  destruct Hop as [Hop|[Hop|[]]]; [|discriminate Hop].
  injection Hop as <- _ <- _ _ _. split; reflexivity.
Qed.

Lemma table_ops_rectangle anchor_x anchor_y widths row_h f columns rows x0 y0 x1 y1 c o :
  fits widths columns ->
  Forall (fits widths) rows ->
  In (Rectangle x0 y0 x1 y1 c o) (table_ops anchor_x anchor_y widths row_h f columns rows) ->
  exists col, (col < List.length widths)%nat
              /\ x0 = anchor_x + sum (firstn col widths)
              /\ x1 = x0 + nth col widths 0.
Proof.
  intros Hhead Hrows Hin. unfold table_ops in Hin. apply in_app_or in Hin.
  destruct Hin as [Hin|Hin].
  - eapply cells_ops_rectangle; [|exact Hin]. exact Hhead.
  - unfold rows_ops in Hin. apply in_flat_map in Hin.
    destruct Hin as ([r row] & Hrow & Hop).
    apply in_combine_r in Hrow. rewrite Forall_forall in Hrows.
    eapply cells_ops_rectangle; [|exact Hop]. exact (Hrows row Hrow).
Qed.

(** Floor division by two leaves gaps that differ by at most one. *)
Lemma centred_gaps (canvas_width total : Z) :
  let left_gap := (canvas_width - total) / 2 in
  let right_gap := canvas_width - (left_gap + total) in
  0 <= right_gap - left_gap <= 1.
Proof.
  cbv zeta.
  pose proof (Z.div_mod (canvas_width - total) 2 ltac:(lia)).
  pose proof (Z.mod_pos_bound (canvas_width - total) 2 ltac:(lia)).
  lia.
Qed.

(** The four slots do not overlap. *)
Lemma slots_apart (i j : nat) (p q : Z * Z) (px py : Z) :
  i <> j ->
  nth_error [(35, 137); (35, 340); (357, 137); (357, 340)] i = Some p ->
  nth_error [(35, 137); (35, 340); (357, 137); (357, 340)] j = Some q ->
  in_rect p placeholder_size px py ->
  ~ in_rect q placeholder_size px py.
Proof.
  intros Hij Hp Hq.
  destruct i as [|[|[|[|i]]]]; cbn in Hp; try discriminate Hp;
    try (destruct i; discriminate Hp);
    destruct j as [|[|[|[|j]]]]; cbn in Hq; try discriminate Hq;
    try (destruct j; discriminate Hq);
    try congruence;
    injection Hp as <-; injection Hq as <-;
    unfold in_rect, placeholder_size; cbn; lia.
Qed.

(** A flower whose boxes the sample C library gives is accepted. *)
Lemma sample_flowers_accepted :
  forallb accepted (left_flower (lm := sample_libm)) = true
  /\ forallb accepted (right_flower (lm := sample_libm)) = true.
Proof. split; vm_compute; reflexivity. Qed.

Lemma sample_images_open :
  Forall (readable sample_env) ["images/1.png"; "images/2.png"; "images/3.png"; "images/4.png"].
Proof. repeat constructor; exists (1, 1); reflexivity. Qed.

(** C8. With flowers that [draw.ellipse] accepts, a logo and four images
    that open, [create_composite_image_with_gradient] computes the outer
    radius 45 and the top space 137 (width 692, margin 35, flower scale
    1.5) and pastes the four images, resized to 300 by 168, at (35,137),
    (35,340), (357,137) and (357,340): these are all the pastes without a
    mask of the run, whatever the table file holds.  No pixel lies in two
    of the four slots. *)
Theorem placeholder_slots_disjoint :
  forall (lm : Libm) (w : env)
         (logo_path path_img1 path_img2 path_img3 path_img4 path_out font_path
            filepath : string)
         (logo_dims : Z * Z) (scaled : image) (st : state),
    forallb accepted left_flower = true ->
    forallb accepted right_flower = true ->
    image_files w logo_path = Ret logo_dims ->
    thumbnail (F := spec_float) (mkImage logo_path (fst logo_dims) (snd logo_dims))
              (logo_size, logo_size) = Ret scaled ->
    Forall (readable w) [path_img1; path_img2; path_img3; path_img4] ->
    (exists ops,
       canvas (snd (create_composite_image_with_gradient (F := spec_float) w logo_path
                      path_img1 path_img2 path_img3 path_img4 path_out font_path filepath
                      st))
       = (canvas st ++ ops)%list
       /\ filter is_slot_paste ops
          = [ Paste (mkImage path_img1 300 168) 35 137 None;
              Paste (mkImage path_img2 300 168) 35 340 None;
              Paste (mkImage path_img3 300 168) 357 137 None;
              Paste (mkImage path_img4 300 168) 357 340 None ])
    /\ outer_radius (F := spec_float) one_and_a_half = Ret 45
    /\ top_space (F := spec_float) 45 one_and_a_half = Ret 137
    /\ element_positions 137 = [(35, 137); (35, 340); (357, 137); (357, 340)]
    /\ forall (i j : nat) (p q : Z * Z) (px py : Z),
         i <> j ->
         nth_error (element_positions 137) i = Some p ->
         nth_error (element_positions 137) j = Some q ->
         in_rect p placeholder_size px py ->
         ~ in_rect q placeholder_size px py.
Proof.
  intros lm w logo_path path_img1 path_img2 path_img3 path_img4 path_out font_path
         filepath logo_dims scaled st Hleft Hright Hlogo Hscaled Himages.
  split; [|split; [apply outer_radius_value|split; [apply top_space_value|
           split; [reflexivity|exact slots_apart]]]].
  destruct (composite_slots lm w logo_path path_img1 path_img2 path_img3 path_img4
              path_out font_path filepath logo_dims scaled Hleft Hright Hlogo Hscaled
              Himages st) as (rest & lines & Hrun & Hrest).
  eexists. rewrite Hrun. split; [reflexivity|].
  rewrite filter_app, Hrest, app_nil_r.
  apply (upper_part_slots lm).
Qed.

Lemma placeholder_slots_disjoint_witness :
  filter is_slot_paste
    (canvas (snd (sample_run (F := spec_float) "images/wide_logo.png" "data/missing.json")))
  = [ Paste (mkImage "images/1.png" 300 168) 35 137 None;
      Paste (mkImage "images/2.png" 300 168) 35 340 None;
      Paste (mkImage "images/3.png" 300 168) 357 137 None;
      Paste (mkImage "images/4.png" 300 168) 357 340 None ].
Proof.
  destruct (placeholder_slots_disjoint sample_libm sample_env "images/wide_logo.png"
              "images/1.png" "images/2.png" "images/3.png" "images/4.png" "out"
              "font/Comic Sans MS Bold.ttf" "data/missing.json" (360, 180)
              (mkImage "images/wide_logo.png" 180 90) initial_state
              (proj1 sample_flowers_accepted) (proj2 sample_flowers_accepted)
              eq_refl eq_refl sample_images_open)
    as ((ops & Hcanvas & Hslots) & _).
  unfold sample_run. rewrite Hcanvas. exact Hslots.
Defined.

(** C10. On good inputs (flowers accepted, logo and images that open, a
    font that loads, a table file holding a record set of strings that
    fits the two columns, an output file that can be written)
    [create_composite_image_with_gradient] returns; the rectangles it has
    drawn are those of the table laid out from x = 71, which is
    [(width - sum(col_widths)) // 2] for width 692 and widths [200, 350];
    each spans x from 71 to 271 or from 271 to 621, so the table leaves
    71 pixels on its left and 692 - 621 = 71 on its right.  For any width
    and widths the two gaps differ by at most one pixel. *)
Theorem table_centred :
  forall (lm : Libm) (w : env)
         (logo_path path_img1 path_img2 path_img3 path_img4 path_out font_path
            filepath text : string)
         (logo_dims : Z * Z) (scaled : image) (table_data : json) (columns : list json)
         (rows : list (list json)) (st : state),
    forallb accepted left_flower = true ->
    forallb accepted right_flower = true ->
    image_files w logo_path = Ret logo_dims ->
    thumbnail (F := spec_float) (mkImage logo_path (fst logo_dims) (snd logo_dims))
              (logo_size, logo_size) = Ret scaled ->
    Forall (readable w) [path_img1; path_img2; path_img3; path_img4] ->
    font_files w font_path = true ->
    read_text w filepath = Ret text ->
    json_loads w text = Ret table_data ->
    record_set table_data columns rows ->
    fits col_widths columns ->
    Forall (fits col_widths) rows ->
    all_strings columns = true ->
    Forall (fun row => all_strings row = true) rows ->
    writable w (output_path path_out) = true ->
    table_top_left_x = (width - sum col_widths) / 2
    /\ table_top_left_x = 71
    /\ (exists ops,
          create_composite_image_with_gradient (F := spec_float) w logo_path path_img1
            path_img2 path_img3 path_img4 path_out font_path filepath st
          = (Ret (output_path path_out), extend ops [] st)
          /\ filter is_rectangle ops
             = filter is_rectangle
                 (table_ops table_top_left_x 543 col_widths row_height
                            (mkFont font_path 16) columns rows)
          /\ (forall x0 y0 x1 y1 fill outline,
                In (Rectangle x0 y0 x1 y1 fill outline) ops ->
                (x0 = 71 /\ x1 = 271 \/ x0 = 271 /\ x1 = 621)
                /\ 71 <= x0 /\ x1 <= width - 71)
          /\ (forall label,
                nth_error columns 0 = Some label ->
                In (Rectangle 71 543 271 583 (Named "#FFD700") (Named "black")) ops)
          /\ (forall label,
                nth_error columns 1 = Some label ->
                In (Rectangle 271 543 621 583 (Named "#FFD700") (Named "black")) ops))
    /\ (forall canvas_width widths,
          let anchor := (canvas_width - sum widths) / 2 in
          Z.abs (anchor - (canvas_width - (anchor + sum widths))) <= 1).
Proof.
  intros lm w logo_path path_img1 path_img2 path_img3 path_img4 path_out font_path
         filepath text logo_dims scaled table_data columns rows st
         Hleft Hright Hlogo Hscaled Himages Hfont Hread Hjson Hset Hhead Hrows
         Hstr Hstrs Hwrite.
  split; [reflexivity|]. split; [reflexivity|]. split.
  - pose proof (composite_runs lm w logo_path path_img1 path_img2 path_img3 path_img4
                  path_out font_path filepath logo_dims scaled Hleft Hright Hlogo
                  Hscaled Himages text table_data columns rows Hfont Hread Hjson Hset
                  Hhead Hrows Hstr Hstrs Hwrite st) as Hrun.
    pose proof (upper_part_rectangles lm path_img1 path_img2 path_img3 path_img4 scaled)
      as Hupper.
    cbv zeta in Hrun, Hupper.
    eexists. split; [exact Hrun|].
    assert (Hfilter :
      filter is_rectangle
        ((map (exact_line width height blue orange) (range height)
          ++ map ellipse_of left_flower ++ map ellipse_of right_flower
          ++ [Paste scaled 256 (-10) (Some scaled)]
          ++ map slot_paste
               (combine (element_positions 137)
                        [path_img1; path_img2; path_img3; path_img4]))
         ++ table_ops 71 543 col_widths row_height (mkFont font_path 16) columns rows
         ++ [Save (output_path path_out)])%list
      = filter is_rectangle
          (table_ops 71 543 col_widths row_height (mkFont font_path 16) columns rows)).
    { rewrite filter_app, Hupper, filter_app. cbn [filter is_rectangle app].
      now rewrite app_nil_r. }
    split; [exact Hfilter|]. split; [|split].
    + intros x0 y0 x1 y1 fill outline Hin.
      assert (Hin' : In (Rectangle x0 y0 x1 y1 fill outline)
                        (table_ops 71 543 col_widths row_height (mkFont font_path 16)
                                   columns rows)).
      { assert (Hf : In (Rectangle x0 y0 x1 y1 fill outline)
                        (filter is_rectangle
                           (table_ops 71 543 col_widths row_height (mkFont font_path 16)
                                      columns rows))).
        { rewrite <- Hfilter. apply filter_In. split; [exact Hin|reflexivity]. }
        apply filter_In in Hf. exact (proj1 Hf). }
      destruct (table_ops_rectangle 71 543 col_widths row_height (mkFont font_path 16)
                  columns rows x0 y0 x1 y1 fill outline Hhead Hrows Hin')
        as (col & Hcol & -> & ->).
      unfold col_widths in *. cbn [List.length] in Hcol.
      destruct col as [|[|col]]; [| |lia]; cbn; unfold width; lia.
    + intros label Hlabel. apply in_or_app. right. apply in_or_app. left.
      exact (table_ops_header 71 543 col_widths row_height (mkFont font_path 16) columns
               rows 0 label Hlabel).
    + intros label Hlabel. apply in_or_app. right. apply in_or_app. left.
      exact (table_ops_header 71 543 col_widths row_height (mkFont font_path 16) columns
               rows 1 label Hlabel).
  - intros canvas_width widths anchor.
    pose proof (centred_gaps canvas_width (sum widths)) as Hgap. cbv zeta in Hgap.
    fold anchor in Hgap. lia.
Qed.

Lemma table_centred_witness :
  filter is_rectangle
    (canvas (snd (sample_run (F := spec_float) "images/wide_logo.png" "data/data.json")))
  = [ Rectangle 71 543 271 583 (Named "#FFD700") (Named "black");
      Rectangle 271 543 621 583 (Named "#FFD700") (Named "black");
      Rectangle 71 583 271 623 (Named "#E6E6FA") (Named "black");
      Rectangle 271 583 621 623 (Named "#98FB98") (Named "black") ].
Proof.
  destruct (table_centred sample_libm sample_env "images/wide_logo.png"
              "images/1.png" "images/2.png" "images/3.png" "images/4.png" "out"
              "font/Comic Sans MS Bold.ttf" "data/data.json" sample_text (360, 180)
              (mkImage "images/wide_logo.png" 180 90) sample_table
              [JStr "A"; JStr "B"] [[JStr "1"; JStr "2"]] initial_state
              (proj1 sample_flowers_accepted) (proj2 sample_flowers_accepted)
              eq_refl eq_refl sample_images_open eq_refl eq_refl eq_refl
              (conj eq_refl eq_refl)
              ltac:(unfold fits; cbn; lia)
              ltac:(repeat constructor; unfold fits; cbn; lia)
              eq_refl ltac:(repeat constructor) eq_refl)
    as (_ & _ & (ops & Hrun & Hrects & _) & _).
  unfold sample_run. rewrite Hrun. cbn [snd extend canvas initial_state app].
  rewrite Hrects. reflexivity.
Defined.

(** * Further properties *)

(** ** [hex_to_rgb] on other inputs *)

Lemma hex_digit_is_hex (a : ascii) (d : Z) :
  hex_digit a = Some d -> is_hex_digit a = true.
Proof. intros Hd. unfold is_hex_digit. now rewrite Hd. Qed.

(** Two hexadecimal digits are read as sixteen times the first plus the
    second. *)
Lemma int16_two_digits_value (a b : ascii) (da db : Z) :
  hex_digit a = Some da -> hex_digit b = Some db ->
  int16 (String a (String b EmptyString)) = Ret (16 * da + db).
Proof.
  intros Ha Hb.
  pose proof (hex_digit_chars a (hex_digit_is_hex a da Ha)) as Ia.
  pose proof (hex_digit_chars b (hex_digit_is_hex b db Hb)) as Ib.
  cbn [list_ascii_of_string In] in Ia, Ib.
  repeat (destruct Ia as [<-|Ia]); try contradiction;
    repeat (destruct Ib as [<-|Ib]); try contradiction;
    vm_compute in Ha; vm_compute in Hb;
    injection Ha as <-; injection Hb as <-; vm_compute; reflexivity.
Qed.

(** X1. For six hexadecimal digits, of either case, each channel is
    sixteen times the value of its first digit plus the value of its
    second. *)
Theorem hex_to_rgb_value :
  forall (a b c d e f : ascii) (da db dc dd de df : Z),
    hex_digit a = Some da -> hex_digit b = Some db ->
    hex_digit c = Some dc -> hex_digit d = Some dd ->
    hex_digit e = Some de -> hex_digit f = Some df ->
    hex_to_rgb (String a (String b (String c (String d (String e (String f EmptyString))))))
    = Ret (16 * da + db, 16 * dc + dd, 16 * de + df).
Proof.
  intros a b c d e f da db dc dd de df Ha Hb Hc Hd He Hf.
  unfold hex_to_rgb. cbn [lstrip].
  rewrite (hex_digit_not_hash a (hex_digit_is_hex a da Ha)).
  unfold slice2. cbn [substring].
  rewrite (int16_two_digits_value a b da db Ha Hb). cbn [obind].
  rewrite (int16_two_digits_value c d dc dd Hc Hd). cbn [obind].
  rewrite (int16_two_digits_value e f de df He Hf). reflexivity.
Qed.

Lemma hex_to_rgb_value_witness :
  hex_to_rgb "FD9965" = Ret (16 * 15 + 13, 16 * 9 + 9, 16 * 6 + 5).
Proof.
  exact (hex_to_rgb_value "F" "D" "9" "9" "6" "5" 15 13 9 9 6 5
           eq_refl eq_refl eq_refl eq_refl eq_refl eq_refl).
Defined.

Lemma lstrip_app (c : ascii) (s t : string) :
  lstrip c s <> EmptyString -> lstrip c (s ++ t) = lstrip c s ++ t.
Proof.
  induction s as [|a s IH]; intros Hne.
  - now contradiction Hne.
  - cbn [lstrip String.append] in *. destruct (Ascii.eqb a c).
    + now apply IH.
    + reflexivity.
Qed.

Lemma substring_app (u t : string) :
  forall n m, (n + m <= String.length u)%nat ->
  substring n m (u ++ t) = substring n m u.
Proof.
  induction u as [|a u IH]; intros n m Hlen; cbn [String.length] in Hlen.
  - assert (n = 0%nat) by lia. assert (m = 0%nat) by lia. subst.
    cbn. now destruct t.
  - destruct n as [|n]; cbn [String.append substring].
    + destruct m as [|m]; [reflexivity|]. f_equal. apply (IH 0%nat m). lia.
    + apply IH. lia.
Qed.

(** X2. Once six characters are left after the leading [#]s, whatever
    follows them is not read: it changes neither the result nor the
    error. *)
Theorem hex_to_rgb_ignores_tail :
  forall s t : string,
    (6 <= String.length (lstrip "#" s))%nat ->
    hex_to_rgb (s ++ t) = hex_to_rgb s.
Proof.
  intros s t Hlen. unfold hex_to_rgb.
  rewrite lstrip_app by (intros E; rewrite E in Hlen; cbn in Hlen; lia).
  unfold slice2. now rewrite !substring_app by lia.
Qed.

Lemma hex_to_rgb_ignores_tail_witness :
  hex_to_rgb "#accbf2ff" = hex_to_rgb "#accbf2".
Proof.
  apply (hex_to_rgb_ignores_tail "#accbf2" "ff"). cbn. lia.
Defined.

(** X3. Any number of leading [#] is stripped, not only one. *)
Theorem hex_to_rgb_strips_all_hashes :
  forall (n : nat) (s : string), hex_to_rgb (hashes n ++ s) = hex_to_rgb s.
Proof.
  intros n s. unfold hex_to_rgb.
  replace (lstrip "#" (hashes n ++ s)) with (lstrip "#" s); [reflexivity|].
  induction n as [|n IH]; [reflexivity|].
  cbn [hashes String.append]. now rewrite lstrip_cons_same.
Qed.

(** [int] raises nothing but [ValueError]. *)
Lemma int16_outcome (s : string) :
  (exists v, int16 s = Ret v) \/ int16 s = Raise ValueError.
Proof.
  unfold int16.
  repeat match goal with
         | |- context [match ?x with _ => _ end] => destruct x
         end; eauto.
Qed.

Lemma substring_past_end (u : string) :
  forall n m, (String.length u <= n)%nat -> substring n m u = EmptyString.
Proof.
  induction u as [|a u IH]; intros n m Hlen; cbn [String.length] in Hlen.
  - destruct n, m; reflexivity.
  - destruct n as [|n]; [lia|]. cbn [substring]. apply IH. lia.
Qed.

(** X4. [hex_to_rgb] returns or raises [ValueError], nothing else; and it
    raises [ValueError] whenever fewer than five characters are left
    after the leading [#]s, the empty string included. *)
Theorem hex_to_rgb_errors :
  forall s : string,
    ((exists rgb, hex_to_rgb s = Ret rgb) \/ hex_to_rgb s = Raise ValueError)
    /\ ((String.length (lstrip "#" s) <= 4)%nat -> hex_to_rgb s = Raise ValueError).
Proof.
  intros s. unfold hex_to_rgb, slice2. set (u := lstrip "#" s).
  destruct (int16_outcome (substring 0 2 u)) as [[r ->]| ->];
    destruct (int16_outcome (substring 2 2 u)) as [[g ->]| ->];
    destruct (int16_outcome (substring 4 2 u)) as [[b Hb]|Hb];
    cbn [obind]; try rewrite Hb; cbn [obind];
    (split; [eauto|]); intros Hlen; try reflexivity;
    rewrite (substring_past_end u 4 2 Hlen) in Hb; vm_compute in Hb; discriminate Hb.
Qed.

Lemma hex_to_rgb_errors_witness :
  hex_to_rgb "#fff" = Raise ValueError.
Proof.
  apply (proj2 (hex_to_rgb_errors "#fff")). cbn. lia.
Defined.

(** ** [draw_gradient] with any arithmetic, and the shape of the ramp *)

(** The loop of [draw_gradient] over any rows: it draws a line for each
    row in turn and stops at the first colour that cannot be computed. *)
Lemma gradient_loop_lines {F : Type} {PF : PyFloat F} (w h : Z) (top bottom : Z * Z * Z)
    (xs : list Z) :
  forall st,
  exists cs : list color,
    (List.length cs <= List.length xs)%nat
    /\ snd (for_each xs (fun i =>
              (color <- lift (row_color top bottom i h) ;;
               draw_line 0 i w i color 1)%py) st)
       = extend (map (row_line w) (combine xs cs)) [] st
    /\ (fst (for_each xs (fun i =>
              (color <- lift (row_color top bottom i h) ;;
               draw_line 0 i w i color 1)%py) st) = Ret tt ->
        List.length cs = List.length xs).
Proof.
  induction xs as [|x xs IH]; intros st.
  - exists []. cbn. rewrite extend_nil. auto.
  - cbn [for_each]. unfold bind at 1. unfold bind at 1. unfold lift at 1.
    destruct (row_color top bottom x h) as [c|e].
    + unfold draw_line at 1, emit at 1.
      destruct (IH (mkState (canvas st ++ [Line 0 x w x c 1]) (stdout st)))
        as (cs & Hlen & Hsnd & Hret).
      exists (c :: cs). cbn [List.length combine map]. split; [lia|]. split.
      * rewrite Hsnd. unfold extend, row_line. cbn [canvas stdout fst snd].
        now rewrite <- app_assoc.
      * intros Hok. rewrite (Hret Hok). reflexivity.
    + exists []. cbn [List.length combine map snd fst]. rewrite extend_nil.
      split; [lia|]. split; [reflexivity|]. discriminate.
Qed.

(** X5. Whatever the floating-point arithmetic, [draw_gradient] only adds
    lines to the canvas: the [k]-th one is the full-width line of row [k],
    of width 1; there are at most [height] of them, exactly [height] when
    it returns, and none when [height <= 0], where it returns at once. *)
Theorem draw_gradient_lines :
  forall (F : Type) (inst : PyFloat F) (w h : Z) (top bottom : Z * Z * Z) (st : state),
    (exists cs : list color,
       (List.length cs <= Z.to_nat h)%nat
       /\ snd (draw_gradient (F := F) w h top bottom st)
          = extend (map (row_line w) (combine (range h) cs)) [] st
       /\ (fst (draw_gradient (F := F) w h top bottom st) = Ret tt ->
           List.length cs = Z.to_nat h))
    /\ (h <= 0 -> draw_gradient (F := F) w h top bottom st = (Ret tt, st)).
Proof.
  intros F inst w h top bottom st. split.
  - destruct (gradient_loop_lines (F := F) w h top bottom (range h) st)
      as (cs & Hlen & Hsnd & Hret).
    assert (Hr : List.length (range h) = Z.to_nat h)
      by (unfold range; now rewrite length_map, length_seq).
    exists cs. rewrite <- Hr. auto.
  - intros Hh. unfold draw_gradient, range.
    replace (Z.to_nat h) with 0%nat by lia. reflexivity.
Qed.

Lemma draw_gradient_lines_witness :
  draw_gradient (F := spec_float) 692 0 blue orange initial_state = (Ret tt, initial_state).
Proof.
  apply (proj2 (draw_gradient_lines spec_float _ 692 0 blue orange initial_state)). lia.
Defined.

(** The exact colours of the program's gradient pass the three tests. *)
Lemma program_rows_between :
  forallb (fun i => between_colors blue orange (exact_color blue orange i height))
          (range height) = true.
Proof. vm_compute. reflexivity. Qed.

Lemma program_rows_mirrored : forallb row_mirrored (range height) = true.
Proof. vm_compute. reflexivity. Qed.

Lemma program_rows_ramp : forallb row_ramps (range (height / 2)) = true.
Proof. vm_compute. reflexivity. Qed.

Lemma toward_refl (top bottom : Z * Z * Z) (r g b : Z) :
  toward top bottom (RGB r g b) (RGB r g b) = true.
Proof.
  destruct top as [[t0 t1] t2], bottom as [[b0 b1] b2]. cbn.
  destruct (t0 <=? b0), (t1 <=? b1), (t2 <=? b2); rewrite !Z.leb_refl; reflexivity.
Qed.

Lemma toward_trans (top bottom : Z * Z * Z) (c d e : color) :
  toward top bottom c d = true -> toward top bottom d e = true ->
  toward top bottom c e = true.
Proof.
  destruct top as [[t0 t1] t2], bottom as [[b0 b1] b2].
  destruct c as [r g b|], d as [r' g' b'|], e as [r'' g'' b''|]; cbn; try discriminate.
  intros H1 H2.
  repeat (apply andb_true_iff in H1; destruct H1 as [H1 ?]).
  repeat (apply andb_true_iff in H2; destruct H2 as [H2 ?]).
  destruct (t0 <=? b0), (t1 <=? b1), (t2 <=? b2);
    repeat match goal with H : (_ <=? _) = true |- _ => apply Z.leb_le in H end;
    repeat (apply andb_true_iff; split); apply Z.leb_le; lia.
Qed.

(** In the upper half a row is never nearer the top colour than the rows
    above it. *)
Lemma program_ramp (n : nat) (i : Z) :
  0 <= i -> i + Z.of_nat n <= height / 2 ->
  toward blue orange (exact_color blue orange i height)
                     (exact_color blue orange (i + Z.of_nat n) height) = true.
Proof.
  intros Hi. induction n as [|n IH]; intros Hn.
  - rewrite Z.add_0_r. apply toward_refl.
  - apply toward_trans with (d := exact_color blue orange (i + Z.of_nat n) height).
    + apply IH. lia.
    + replace (i + Z.of_nat (S n)) with (i + Z.of_nat n + 1) by lia.
      apply (on_range row_ramps (height / 2) (i + Z.of_nat n) program_rows_ramp). lia.
Qed.

(** X6. On the program's gradient every channel of every row lies
    between the top and the bottom value of that channel: red in
    [172, 253], green in [153, 203], blue in [101, 242].  The gradient
    introduces no colour outside the two it blends. *)
Theorem gradient_channel_between :
  forall (lm : Libm) (i : Z),
    0 <= i < height ->
    exists r g b,
      row_color (F := spec_float) blue orange i height = Ret (RGB r g b)
      /\ 172 <= r <= 253 /\ 153 <= g <= 203 /\ 101 <= b <= 242.
Proof.
  intros lm i Hi. rewrite (program_row_color lm i Hi).
  pose proof (on_range _ height i program_rows_between Hi) as Hrow. cbv beta in Hrow.
  unfold exact_color, blue, orange in *.
  set (r := Qfloor (mix 172 253 (spec_blend i height))) in *.
  set (g := Qfloor (mix 203 153 (spec_blend i height))) in *.
  set (b := Qfloor (mix 242 101 (spec_blend i height))) in *.
  clearbody r g b. exists r, g, b. split; [reflexivity|].
  unfold between_colors in Hrow.
  repeat (apply andb_true_iff in Hrow; destruct Hrow as [Hrow ?]).
  repeat match goal with H : (_ <=? _) = true |- _ => apply Z.leb_le in H end.
  cbn in *. lia.
Qed.

Lemma gradient_channel_between_witness :
  exists r g b,
    row_color (F := spec_float) blue orange 4 height = Ret (RGB r g b)
    /\ 172 <= r <= 253 /\ 153 <= g <= 203 /\ 101 <= b <= 242.
Proof.
  apply (gradient_channel_between sample_libm 4). unfold height. lia.
Defined.

(** X7. The program's gradient is a mirror image of itself: row [i] and
    row [height - i] get the same colour, for every row but row 0 (whose
    mirror row, [height], is not drawn). *)
Theorem gradient_mirror :
  forall (lm : Libm) (i : Z),
    0 < i < height ->
    row_color (F := spec_float) blue orange i height
    = row_color (F := spec_float) blue orange (height - i) height.
Proof.
  intros lm i Hi.
  rewrite (program_row_color lm i) by lia.
  rewrite (program_row_color lm (height - i)) by lia.
  f_equal. apply color_eqb_eq.
  apply (on_range row_mirrored height i program_rows_mirrored). lia.
Qed.

Lemma gradient_mirror_witness :
  row_color (F := spec_float) blue orange 100 height
  = row_color (F := spec_float) blue orange (height - 100) height.
Proof.
  apply (gradient_mirror sample_libm 100). unfold height. lia.
Defined.

(** X8. The upper half of the program's gradient is a ramp without
    reversals: from row 0 down to row [height // 2] red, which the bottom
    colour has more of, never decreases, and green and blue, which it has
    less of, never increase. *)
Theorem gradient_ramp_monotone :
  forall (lm : Libm) (i j : Z),
    0 <= i -> i <= j -> j <= height / 2 ->
    exists r g b r' g' b',
      row_color (F := spec_float) blue orange i height = Ret (RGB r g b)
      /\ row_color (F := spec_float) blue orange j height = Ret (RGB r' g' b')
      /\ r <= r' /\ g' <= g /\ b' <= b.
Proof.
  intros lm i j Hi Hij Hj.
  assert (Hhalf : height / 2 = 491) by reflexivity.
  rewrite (program_row_color lm i) by (unfold height in *; lia).
  rewrite (program_row_color lm j) by (unfold height in *; lia).
  pose proof (program_ramp (Z.to_nat (j - i)) i Hi ltac:(lia)) as Hpair.
  replace (i + Z.of_nat (Z.to_nat (j - i))) with j in Hpair by lia.
  unfold exact_color, blue, orange in *.
  set (r := Qfloor (mix 172 253 (spec_blend i height))) in *.
  set (g := Qfloor (mix 203 153 (spec_blend i height))) in *.
  set (b := Qfloor (mix 242 101 (spec_blend i height))) in *.
  set (r' := Qfloor (mix 172 253 (spec_blend j height))) in *.
  set (g' := Qfloor (mix 203 153 (spec_blend j height))) in *.
  set (b' := Qfloor (mix 242 101 (spec_blend j height))) in *.
  clearbody r g b r' g' b'.
  exists r, g, b, r', g', b'. split; [reflexivity|]. split; [reflexivity|].
  unfold toward in Hpair. cbn in Hpair.
  repeat (apply andb_true_iff in Hpair; destruct Hpair as [Hpair ?]).
  repeat match goal with H : (_ <=? _) = true |- _ => apply Z.leb_le in H end.
  lia.
Qed.

Lemma gradient_ramp_monotone_witness :
  exists r g b r' g' b',
    row_color (F := spec_float) blue orange 10 height = Ret (RGB r g b)
    /\ row_color (F := spec_float) blue orange 200 height = Ret (RGB r' g' b')
    /\ r <= r' /\ g' <= g /\ b' <= b.
Proof.
  apply (gradient_ramp_monotone sample_libm 10 200); try lia. vm_compute. discriminate.
Defined.

(** ** The flowers of the program *)

(** X9. With the cosines and sines of glibc, the two flowers of the
    program, of scale 1.5 around (80, 80) and (612, 80), are drawn in
    full, six ellipses each, and every box lies on the canvas of 692 by
    982; the first petal of the left flower has the box (50, 35) to
    (140, 125) and its disc the box (65, 65) to (95, 95). *)
Theorem flower_within_box :
  forall st : state,
    draw_flower (F := spec_float) 80 80 one_and_a_half st
    = (Ret tt, extend (map ellipse_of left_flower) [] st)
    /\ draw_flower (F := spec_float) 612 80 one_and_a_half st
       = (Ret tt, extend (map ellipse_of right_flower) [] st)
    /\ List.length (left_flower (lm := sample_libm)) = 6%nat
    /\ List.length (right_flower (lm := sample_libm)) = 6%nat
    /\ forallb (box_within width height) (left_flower ++ right_flower) = true
    /\ corners_at left_flower 0 = Some [50; 35; 140; 125]%Q
    /\ corners_at left_flower 5 = Some [65; 65; 95; 95]%Q.
Proof.
  intros st.
  split; [apply (draw_flower_runs sample_libm); vm_compute; reflexivity|].
  split; [apply (draw_flower_runs sample_libm); vm_compute; reflexivity|].
  evaluate.
Qed.

(** ** More on [draw_table] *)

Lemma firstn_succ (ws : list Z) :
  forall c, (c < List.length ws)%nat ->
  firstn (S c) ws = (firstn c ws ++ [nth c ws 0])%list.
Proof.
  induction ws as [|w ws IH]; intros c Hc; cbn [List.length] in Hc; [lia|].
  destruct c as [|c]; [reflexivity|].
  cbn [firstn nth app]. f_equal. apply IH. lia.
Qed.

(** A column ends where the next one starts. *)
Lemma column_x_succ (anchor_x : Z) (ws : list Z) (c : nat) :
  (c < List.length ws)%nat ->
  column_x anchor_x ws (S c) = column_x anchor_x ws c + nth c ws 0.
Proof.
  intros Hc. unfold column_x, prefix, sum.
  rewrite (firstn_succ ws c Hc), fold_left_app. cbn [fold_left]. lia.
Qed.

Lemma cells_ops_tiled anchor_x y widths row_h f fill (cells : list json) :
  forall k, (k + List.length cells <= List.length widths)%nat ->
  cells_ops anchor_x y widths row_h f fill k cells
  = flat_map (tiled_cell anchor_x y widths row_h f fill)
             (combine (seq k (List.length cells)) cells).
Proof.
  unfold cells_ops.
  induction cells as [|cell cells IH]; intros k Hk; [reflexivity|].
  cbn [List.length] in Hk. cbn [List.length seq combine flat_map].
  rewrite (IH (S k)) by lia. f_equal.
  unfold cell_ops, tiled_cell. rewrite column_x_succ by lia. reflexivity.
Qed.

(** X10. The cells of a row of strings that fits, with sizes that are not
    negative, tile it: the rectangle of column [c] reaches from where
    column [c] starts to where column [c + 1] starts, so neighbours share
    an edge and leave no gap. *)
Theorem draw_cells_tile :
  forall anchor_x y cells widths row_h f fill,
    (List.length cells <= List.length widths)%nat ->
    sizes_ok widths row_h ->
    all_strings cells = true ->
    runs (draw_cells anchor_x y cells widths row_h f fill) tt
         (flat_map (tiled_cell anchor_x y widths row_h f fill) (enumerate cells)) [].
Proof.
  intros anchor_x y cells widths row_h f fill Hfit Hsizes Hstr. unfold enumerate.
  rewrite <- cells_ops_tiled by lia. now apply draw_cells_runs.
Qed.

Lemma draw_cells_tile_witness :
  runs (draw_cells 71 543 [JStr "A"; JStr "B"] [200; 350] 40 (mkFont "f.ttf" 16) header_fill)
       tt
       [ Rectangle 71 543 271 583 (Named "#FFD700") (Named "black");
         Text 81 553 (JStr "A") (mkFont "f.ttf" 16) (Named "black");
         Rectangle 271 543 621 583 (Named "#FFD700") (Named "black");
         Text 281 553 (JStr "B") (mkFont "f.ttf" 16) (Named "black") ]
       [].
Proof.
  apply (draw_cells_tile 71 543 [JStr "A"; JStr "B"] [200; 350] 40 (mkFont "f.ttf" 16)
           header_fill).
  - cbn. lia.
  - split; [repeat constructor; lia|lia].
  - reflexivity.
Defined.

(** X11. A record set with [columns], a list of strings, but without
    [data]: the header is drawn, then the look-up of [data] raises
    [KeyError]. *)
Theorem draw_table_missing_data :
  forall w anchor_x anchor_y table_data columns widths row_h font_path,
    font_files w font_path = true ->
    subscript table_data "columns" = Ret (JList columns) ->
    subscript table_data "data" = Raise (KeyError "data") ->
    fits widths columns ->
    sizes_ok widths row_h ->
    all_strings columns = true ->
    fails (draw_table w anchor_x anchor_y table_data widths row_h font_path)
          (KeyError "data")
          (cells_ops anchor_x anchor_y widths row_h (mkFont font_path 16) header_fill 0
                     columns) [].
Proof.
  intros w anchor_x anchor_y table_data columns widths row_h font_path
         Hfont Hcols Hdata Hhead Hsizes Hstr. unfold draw_table.
  eapply fails_seq; [apply truetype_runs, Hfont| |reflexivity|reflexivity].
  eapply fails_seq; [apply runs_lift, Hcols| |reflexivity|reflexivity].
  eapply fails_seq; [apply runs_lift; reflexivity| |reflexivity|reflexivity].
  eapply fails_seq;
    [apply draw_cells_runs; [exact Hsizes|exact Hhead|exact Hstr]|
    |rewrite app_nil_r; reflexivity|reflexivity].
  apply fails_bind_l, fails_lift, Hdata.
Qed.

Lemma draw_table_missing_data_witness :
  fails (draw_table sample_env 71 543 (JDict [("columns", JList [JStr "A"])]) [200; 350] 40
                    "font/Comic Sans MS Bold.ttf")
        (KeyError "data")
        [ Rectangle 71 543 271 583 (Named "#FFD700") (Named "black");
          Text 81 553 (JStr "A") (mkFont "font/Comic Sans MS Bold.ttf" 16) (Named "black") ]
        [].
Proof.
  apply (draw_table_missing_data sample_env 71 543 (JDict [("columns", JList [JStr "A"])])
           [JStr "A"] [200; 350] 40 "font/Comic Sans MS Bold.ttf" eq_refl eq_refl eq_refl).
  - unfold fits. cbn. lia.
  - split; [repeat constructor; lia|lia].
  - reflexivity.
Defined.

(** The rows before the first one that does not fit are drawn in full,
    that row up to the last column there is a width for. *)
Lemma draw_rows_fail_at anchor_x anchor_y widths row_h f
    (good : list (list json)) (bad : list json) (rest : list (list json)) :
  sizes_ok widths row_h ->
  Forall (fits widths) good ->
  Forall (fun row => all_strings row = true) good ->
  (List.length widths < List.length bad)%nat ->
  all_strings (firstn (List.length widths) bad) = true ->
  forall k,
  fails (draw_rows anchor_x (anchor_y + (Z.of_nat k + 1) * row_h)
                   (map JList (good ++ bad :: rest)) widths row_h f)
        IndexError
        (rows_ops anchor_x anchor_y widths row_h f k good
         ++ cells_ops anchor_x (anchor_y + (Z.of_nat (k + List.length good) + 1) * row_h)
                      widths row_h f data_fill 0 (firstn (List.length widths) bad))%list
        [].
Proof.
  intros Hsizes Hgood Hstrs Hbad Hstr.
  induction Hgood as [|row good Hrow Hgood IH]; intros k.
  - cbn [app map draw_rows List.length rows_ops combine seq flat_map].
    rewrite Nat.add_0_r.
    eapply fails_seq; [apply runs_lift; reflexivity| |reflexivity|reflexivity].
    apply fails_bind_l. now apply draw_cells_fails.
  - cbn [app map draw_rows List.length].
    inversion Hstrs as [|? ? Hs Hss]; subst.
    change (rows_ops anchor_x anchor_y widths row_h f k (row :: good))
      with (cells_ops anchor_x (anchor_y + (Z.of_nat k + 1) * row_h) widths row_h f
                      data_fill 0 row
            ++ rows_ops anchor_x anchor_y widths row_h f (S k) good)%list.
    rewrite <- app_assoc.
    replace (k + S (List.length good))%nat with (S k + List.length good)%nat by lia.
    eapply fails_seq; [apply runs_lift; reflexivity| |reflexivity|reflexivity].
    eapply fails_seq;
      [apply draw_cells_runs; [exact Hsizes|exact Hrow|exact Hs]| |reflexivity|reflexivity].
    replace (anchor_y + (Z.of_nat k + 1) * row_h + row_h)
      with (anchor_y + (Z.of_nat (S k) + 1) * row_h) by lia.
    apply IH, Hss.
Qed.

(** X12. When the header and the first [n] data rows fit and the next row
    has too many cells, [draw_table] has drawn the header, those [n] rows
    and the cells of the long row for which a width exists when it raises
    [IndexError]; the rows after it are not drawn.  The cells drawn are
    strings, the sizes not negative. *)
Theorem draw_table_partial :
  forall w anchor_x anchor_y table_data columns good bad rest widths row_h font_path,
    font_files w font_path = true ->
    record_set table_data columns (good ++ bad :: rest) ->
    fits widths columns ->
    Forall (fits widths) good ->
    (List.length widths < List.length bad)%nat ->
    sizes_ok widths row_h ->
    all_strings columns = true ->
    Forall (fun row => all_strings row = true) good ->
    all_strings (firstn (List.length widths) bad) = true ->
    let f := mkFont font_path 16 in
    fails (draw_table w anchor_x anchor_y table_data widths row_h font_path)
          IndexError
          (table_ops anchor_x anchor_y widths row_h f columns good
           ++ cells_ops anchor_x (anchor_y + (Z.of_nat (List.length good) + 1) * row_h)
                        widths row_h f data_fill 0 (firstn (List.length widths) bad))%list
          [].
Proof.
  intros w anchor_x anchor_y table_data columns good bad rest widths row_h font_path
         Hfont [Hcols Hdata] Hhead Hgood Hbad Hsizes Hstr Hstrs Hcut f.
  unfold draw_table, table_ops.
  rewrite <- app_assoc.
  eapply fails_seq; [apply truetype_runs, Hfont| |reflexivity|reflexivity].
  eapply fails_seq; [apply runs_lift, Hcols| |reflexivity|reflexivity].
  eapply fails_seq; [apply runs_lift; reflexivity| |reflexivity|reflexivity].
  eapply fails_seq;
    [apply draw_cells_runs; [exact Hsizes|exact Hhead|exact Hstr]| |reflexivity|reflexivity].
  eapply fails_seq; [apply runs_lift, Hdata| |reflexivity|reflexivity].
  eapply fails_seq; [apply runs_lift; reflexivity| |reflexivity|reflexivity].
  apply fails_bind_l. cbv zeta.
  replace (anchor_y + row_h) with (anchor_y + (Z.of_nat 0 + 1) * row_h) by lia.
  apply (draw_rows_fail_at anchor_x anchor_y widths row_h f good bad rest Hsizes Hgood
           Hstrs Hbad Hcut 0).
Qed.

Lemma draw_table_partial_witness :
  fails (draw_table sample_env 71 543 wide_table [200; 350] 40 "font/Comic Sans MS Bold.ttf")
        IndexError
        [ Rectangle 71 543 271 583 (Named "#FFD700") (Named "black");
          Text 81 553 (JStr "A") (mkFont "font/Comic Sans MS Bold.ttf" 16) (Named "black");
          Rectangle 271 543 621 583 (Named "#FFD700") (Named "black");
          Text 281 553 (JStr "B") (mkFont "font/Comic Sans MS Bold.ttf" 16) (Named "black");
          Rectangle 71 583 271 623 (Named "#E6E6FA") (Named "black");
          Text 81 593 (JStr "1") (mkFont "font/Comic Sans MS Bold.ttf" 16) (Named "black");
          Rectangle 271 583 621 623 (Named "#98FB98") (Named "black");
          Text 281 593 (JStr "2") (mkFont "font/Comic Sans MS Bold.ttf" 16) (Named "black") ]
        [].
Proof.
  apply (draw_table_partial sample_env 71 543 wide_table [JStr "A"; JStr "B"] []
           [JStr "1"; JStr "2"; JStr "3"] [] [200; 350] 40 "font/Comic Sans MS Bold.ttf"
           eq_refl (conj eq_refl eq_refl)).
  - unfold fits. cbn. lia.
  - constructor.
  - cbn. lia.
  - split; [repeat constructor; lia|lia].
  - reflexivity.
  - constructor.
  - reflexivity.
Defined.

Lemma cells_ops_shape anchor_x y widths row_h f fill (cells : list json) :
  forall k,
  List.length (cells_ops anchor_x y widths row_h f fill k cells)
  = (2 * List.length cells)%nat
  /\ List.length (filter is_rectangle (cells_ops anchor_x y widths row_h f fill k cells))
     = List.length cells
  /\ List.length (filter is_text (cells_ops anchor_x y widths row_h f fill k cells))
     = List.length cells.
Proof.
  unfold cells_ops. induction cells as [|cell cells IH]; intros k; [auto|].
  cbn [List.length seq combine flat_map cell_ops app filter is_rectangle is_text].
  destruct (IH (S k)) as (H1 & H2 & H3). rewrite H1, H2, H3. repeat split; lia.
Qed.

Lemma rows_ops_shape anchor_x anchor_y widths row_h f (rows : list (list json)) :
  forall k,
  List.length (rows_ops anchor_x anchor_y widths row_h f k rows)
  = (2 * List.length (List.concat rows))%nat
  /\ List.length (filter is_rectangle (rows_ops anchor_x anchor_y widths row_h f k rows))
     = List.length (List.concat rows)
  /\ List.length (filter is_text (rows_ops anchor_x anchor_y widths row_h f k rows))
     = List.length (List.concat rows).
Proof.
  unfold rows_ops. induction rows as [|row rows IH]; intros k; [auto|].
  cbn [List.length seq combine flat_map List.concat].
  destruct (IH (S k)) as (H1 & H2 & H3).
  destruct (cells_ops_shape anchor_x (anchor_y + (Z.of_nat k + 1) * row_h) widths row_h f
              data_fill row 0) as (C1 & C2 & C3).
  rewrite !filter_app, !length_app, H1, H2, H3, C1, C2, C3. repeat split; lia.
Qed.

(** X13. On a record set of strings that fits, sizes not negative,
    [draw_table] returns having made one [rectangle] call and one [text]
    call per cell, header cells included, and no other call. *)
Theorem draw_table_call_count :
  forall w anchor_x anchor_y table_data columns rows widths row_h font_path,
    font_files w font_path = true ->
    record_set table_data columns rows ->
    fits widths columns ->
    Forall (fits widths) rows ->
    sizes_ok widths row_h ->
    all_strings columns = true ->
    Forall (fun row => all_strings row = true) rows ->
    exists ops,
      runs (draw_table w anchor_x anchor_y table_data widths row_h font_path) tt ops []
      /\ List.length (filter is_rectangle ops)
         = (List.length columns + List.length (List.concat rows))%nat
      /\ List.length (filter is_text ops)
         = (List.length columns + List.length (List.concat rows))%nat
      /\ List.length ops = (2 * (List.length columns + List.length (List.concat rows)))%nat.
Proof.
  intros w anchor_x anchor_y table_data columns rows widths row_h font_path
         Hfont Hset Hhead Hrows Hsizes Hstr Hstrs.
  exists (table_ops anchor_x anchor_y widths row_h (mkFont font_path 16) columns rows).
  split; [now apply draw_table_run|].
  unfold table_ops.
  destruct (cells_ops_shape anchor_x anchor_y widths row_h (mkFont font_path 16)
              header_fill columns 0) as (C1 & C2 & C3).
  destruct (rows_ops_shape anchor_x anchor_y widths row_h (mkFont font_path 16) rows 0)
    as (R1 & R2 & R3).
  rewrite !filter_app, !length_app, C1, C2, C3, R1, R2, R3. repeat split; lia.
Qed.

Lemma draw_table_call_count_witness :
  exists ops,
    runs (draw_table sample_env 71 543 sample_table [200; 350] 40
                     "font/Comic Sans MS Bold.ttf") tt ops []
    /\ List.length (filter is_rectangle ops) = 4%nat
    /\ List.length (filter is_text ops) = 4%nat
    /\ List.length ops = 8%nat.
Proof.
  apply (draw_table_call_count sample_env 71 543 sample_table [JStr "A"; JStr "B"]
           [[JStr "1"; JStr "2"]] [200; 350] 40 "font/Comic Sans MS Bold.ttf"
           eq_refl (conj eq_refl eq_refl)).
  - unfold fits. cbn. lia.
  - repeat constructor.
  - split; [repeat constructor; lia|lia].
  - reflexivity.
  - repeat constructor.
Defined.

(** ** [load_json_file] and the exceptions it handles *)

(** X14. [load_json_file] never lets a [FileNotFoundError] or a
    [JSONDecodeError] out, whichever of the two steps raised it, and never
    touches the canvas.  A file that decodes is returned as it is, with
    nothing printed; any other exception of the read is passed on, with
    nothing printed. *)
Theorem load_json_file_handles :
  forall (w : env) (filepath : string) (st : state),
    canvas (snd (load_json_file w filepath st)) = canvas st
    /\ fst (load_json_file w filepath st) <> Raise FileNotFoundError
    /\ fst (load_json_file w filepath st) <> Raise JSONDecodeError
    /\ (forall text data,
          read_text w filepath = Ret text -> json_loads w text = Ret data ->
          load_json_file w filepath st = (Ret data, st))
    /\ (forall e,
          read_text w filepath = Raise e ->
          e <> FileNotFoundError -> e <> JSONDecodeError ->
          load_json_file w filepath st = (Raise e, st)).
Proof.
  intros w filepath st. unfold load_json_file.
  destruct (read_text w filepath) as [text|e] eqn:Hread; cbn [obind];
    [destruct (json_loads w text) as [data|e] eqn:Hjson|];
    try destruct e; cbn;
    repeat match goal with |- _ /\ _ => split end;
    try reflexivity; try discriminate; intros; unfold ret, raise; congruence.
Qed.

Lemma load_json_file_handles_witness :
  load_json_file sample_env "data/data.json" initial_state = (Ret sample_table, initial_state).
Proof.
  exact (proj1 (proj2 (proj2 (proj2
           (load_json_file_handles sample_env "data/data.json" initial_state))))
           sample_text sample_table eq_refl eq_refl).
Defined.

(** ** The layout for any position of the slots *)

Lemma fold_max_ge (xs : list Z) :
  forall x, x <= fold_left Z.max xs x /\ (forall y, In y xs -> y <= fold_left Z.max xs x).
Proof.
  induction xs as [|a xs IH]; intros x; cbn [fold_left].
  - split; [lia|]. intros y [].
  - destruct (IH (Z.max x a)) as [H1 H2]. split; [lia|].
    intros y [<-|Hy]; [lia|]. now apply H2.
Qed.

Lemma fold_max_in (xs : list Z) :
  forall x, fold_left Z.max xs x = x \/ In (fold_left Z.max xs x) xs.
Proof.
  induction xs as [|a xs IH]; intros x; cbn [fold_left]; [now left|].
  destruct (IH (Z.max x a)) as [E|Hin].
  - rewrite E. destruct (Z.max_spec x a) as [[_ ->]|[_ ->]]; [right; now left|now left].
  - right. now right.
Qed.

(** X15. The table is anchored one margin below the lowest slot: its y
    is at least a margin below the bottom edge of every position given,
    and exactly a margin below one of them.  Without any position there
    is no anchor, the [max] raises [ValueError]. *)
Theorem table_below_slots :
  table_top_left_y [] = Raise ValueError
  /\ forall (positions : list (Z * Z)) (y : Z),
       table_top_left_y positions = Ret y ->
       (forall pos, In pos positions -> snd pos + snd placeholder_size + margin <= y)
       /\ (exists pos, In pos positions /\ y = snd pos + snd placeholder_size + margin).
Proof.
  split; [reflexivity|].
  change (snd placeholder_size) with 168.
  intros positions y Hy. unfold table_top_left_y in Hy.
  destruct positions as [|p ps]; [discriminate Hy|].
  cbn [map py_max obind] in Hy. change (snd placeholder_size) with 168 in Hy.
  injection Hy as <-.
  set (bottoms := map (fun pos : Z * Z => snd pos + 168) ps).
  destruct (fold_max_ge bottoms (snd p + 168)) as [Hfirst Hrest].
  split.
  - intros pos [<-|Hin]; [lia|].
    assert (snd pos + 168 <= fold_left Z.max bottoms (snd p + 168)); [|lia].
    apply Hrest. unfold bottoms. apply in_map_iff. now exists pos.
  - destruct (fold_max_in bottoms (snd p + 168)) as [E|Hin].
    + exists p. split; [now left|]. now rewrite E.
    + unfold bottoms in Hin at 2. apply in_map_iff in Hin. destruct Hin as (pos & E & Hin).
      exists pos. split; [now right|]. now rewrite <- E.
Qed.

Lemma table_below_slots_witness :
  (forall pos, In pos (element_positions 137) ->
     snd pos + snd placeholder_size + margin <= 543)
  /\ (exists pos, In pos (element_positions 137)
                  /\ 543 = snd pos + snd placeholder_size + margin).
Proof.
  exact (proj2 table_below_slots (element_positions 137) 543 eq_refl).
Defined.

(** X16. Wherever the slots start (whatever [top_space] is), a pixel of
    one slot lies within the width of the canvas and in no other slot;
    and it lies within the height of the canvas when
    [0 <= top_space <= 611]. *)
Theorem slots_layout :
  forall (top_space : Z) (i : nat) (p : Z * Z) (px py : Z),
    nth_error (element_positions top_space) i = Some p ->
    in_rect p placeholder_size px py ->
    0 <= px < width
    /\ (0 <= top_space <= 611 -> 0 <= py < height)
    /\ (forall (j : nat) (q : Z * Z),
          i <> j -> nth_error (element_positions top_space) j = Some q ->
          ~ in_rect q placeholder_size px py).
Proof.
  intros ts i p px py Hp Hin.
  destruct i as [|[|[|[|i]]]]; cbn in Hp; try (destruct i; discriminate Hp);
    injection Hp as <-; unfold in_rect, placeholder_size, width, height, margin in *;
    cbn [fst snd] in *;
    (split; [lia|]); (split; [lia|]);
    intros j q Hij Hq;
    destruct j as [|[|[|[|j]]]]; cbn in Hq; try (destruct j; discriminate Hq);
    try congruence; injection Hq as <-;
    unfold width, margin, placeholder_size; cbn [fst snd]; lia.
Qed.

Lemma slots_layout_witness :
  0 <= 400 < width
  /\ (0 <= 137 <= 611 -> 0 <= 200 < height)
  /\ (forall (j : nat) (q : Z * Z),
        2%nat <> j -> nth_error (element_positions 137) j = Some q ->
        ~ in_rect q placeholder_size 400 200).
Proof.
  apply (slots_layout 137 2 (357, 137) 400 200 eq_refl).
  unfold in_rect, placeholder_size. cbn. lia.
Defined.

(** X17. When the images can be read, [paste_placeholders] pastes them in
    the order given, each at its position, without a mask and resized to
    300 by 168 whatever its own size; positions or paths in excess of the
    other list are left out. *)
Theorem paste_placeholders_all :
  forall (w : env) (positions : list (Z * Z)) (image_paths : list string),
    Forall (readable w) image_paths ->
    runs (paste_placeholders w positions image_paths) tt
         (map slot_paste (combine positions image_paths)) [].
Proof.
  intros w positions image_paths Hall. unfold paste_placeholders.
  revert positions. induction Hall as [|path paths Hpath Hpaths IH]; intros positions.
  - destruct positions; apply runs_ret.
  - destruct positions as [|position positions]; [apply runs_ret|].
    cbn [combine for_each map].
    eapply runs_seq; [apply paste_one_runs, Hpath|apply IH|reflexivity|reflexivity].
Qed.

Lemma paste_placeholders_all_witness :
  runs (paste_placeholders sample_env [(35, 137); (357, 137)] ["images/1.png"; "images/2.png"])
       tt
       [ Paste (mkImage "images/1.png" 300 168) 35 137 None;
         Paste (mkImage "images/2.png" 300 168) 357 137 None ] [].
Proof.
  apply (paste_placeholders_all sample_env [(35, 137); (357, 137)]
           ["images/1.png"; "images/2.png"]).
  repeat constructor; exists (1, 1); reflexivity.
Defined.

(** X18. The first image that cannot be read stops the loop with the
    exception of the read; the images before it stay pasted, the ones
    after it are not opened. *)
Theorem paste_placeholders_stops :
  forall (w : env) (good : list string) (bad : string) (rest : list string) (e : exn)
         (positions : list (Z * Z)),
    Forall (readable w) good ->
    image_files w bad = Raise e ->
    (List.length good < List.length positions)%nat ->
    fails (paste_placeholders w positions (good ++ bad :: rest)) e
          (map slot_paste (combine positions good)) [].
Proof.
  intros w good bad rest e positions Hgood Hbad. unfold paste_placeholders.
  revert positions. induction Hgood as [|path paths Hpath Hpaths IH]; intros positions Hlen.
  - destruct positions as [|position positions]; [cbn in Hlen; lia|].
    cbn [app combine for_each map].
    apply fails_bind_l, fails_bind_l, open_rgba_fails, Hbad.
  - destruct positions as [|position positions]; [cbn in Hlen; lia|].
    cbn [app combine for_each map]. cbn [List.length] in Hlen.
    eapply fails_seq; [apply paste_one_runs, Hpath|apply IH; lia|reflexivity|reflexivity].
Qed.

Lemma paste_placeholders_stops_witness :
  fails (paste_placeholders sample_env (element_positions 137)
           ["images/1.png"; "images/none.png"; "images/3.png"; "images/4.png"])
        FileNotFoundError
        [ Paste (mkImage "images/1.png" 300 168) 35 137 None ] [].
Proof.
  apply (paste_placeholders_stops sample_env ["images/1.png"] "images/none.png"
           ["images/3.png"; "images/4.png"] FileNotFoundError (element_positions 137)).
  - repeat constructor. exists (1, 1). reflexivity.
  - reflexivity.
  - cbn. lia.
Defined.

Lemma save_selects_no_drawing :
  no_line is_save /\ no_ellipse is_save /\ no_rectangle is_save /\ no_text is_save
  /\ no_slot_paste is_save /\ no_message is_report.
Proof. repeat split. Qed.

Lemma saves_last_bind {A B : Type} (path : string) (result : B -> Prop)
    (m : Py A) (k : A -> Py B) :
  quiet m -> (forall a, saves_last path result (k a)) ->
  saves_last path result (bind m k).
Proof.
  intros Hm Hk st. destruct (Hm st) as (o1 & l1 & E1 & P1 & Q1). unfold bind.
  destruct (m st) as [[a|e] st']; cbn [snd] in E1; subst st'.
  - destruct (Hk a (extend o1 l1 st)) as (o2 & l2 & P2 & Q2 & H).
    exists (o1 ++ o2)%list, (l1 ++ l2)%list. rewrite !filter_app, P1, P2, Q1, Q2.
    split; [reflexivity|]. split; [reflexivity|].
    destruct (k a (extend o1 l1 st)) as [[b|e] st'']; cbn [fst snd] in *.
    + destruct H as [Hr E]. split; [exact Hr|].
      rewrite E, extend_extend, app_assoc. reflexivity.
    + rewrite H, extend_extend. reflexivity.
  - exists o1, l1. cbn [fst snd]. auto.
Qed.

(** The last two steps of the orchestrator. *)
Lemma save_step (w : env) (path : string) :
  saves_last path (fun p => p = path)
    ((if writable w path then emit (Save path) else raise OSError) ;;; ret path)%py.
Proof.
  intros st. exists [], []. split; [reflexivity|]. split; [reflexivity|].
  unfold bind. destruct (writable w path); cbn.
  - split; [reflexivity|]. unfold extend. cbn. now rewrite app_nil_r.
  - now rewrite extend_nil.
Qed.

Lemma orchestrator_saves_last {F : Type} {PF : PyFloat F} (w : env)
    (logo_path path_img1 path_img2 path_img3 path_img4 path_out font_path filepath : string) :
  saves_last (output_path path_out) (fun p => p = output_path path_out)
    (create_composite_image_with_gradient (F := F) w logo_path path_img1 path_img2
       path_img3 path_img4 path_out font_path filepath).
Proof.
  destruct save_selects_no_drawing as (Hline & Hellipse & Hrect & Htext & Hpaste & Hmsg).
  unfold create_composite_image_with_gradient.
  apply saves_last_bind; [apply silent_lift|intros blue'].
  apply saves_last_bind; [apply silent_lift|intros orange'].
  apply saves_last_bind; [apply silent_draw_gradient, Hline|intros _].
  apply saves_last_bind; [apply silent_lift|intros scale].
  apply saves_last_bind; [apply silent_lift|intros radius].
  apply saves_last_bind; [apply silent_draw_flower, Hellipse|intros _].
  apply saves_last_bind; [apply silent_draw_flower, Hellipse|intros _].
  apply saves_last_bind; [apply silent_open_rgba|intros logo].
  apply saves_last_bind; [apply silent_lift|intros scaled].
  cbv zeta.
  apply saves_last_bind; [apply silent_emit; reflexivity|intros _].
  apply saves_last_bind; [apply silent_lift|intros ts].
  apply saves_last_bind; [apply silent_paste_placeholders, Hpaste|intros _].
  apply saves_last_bind; [apply silent_lift|intros table_y].
  apply saves_last_bind; [apply silent_load_json_file, Hmsg|intros table_data].
  apply saves_last_bind; [apply silent_draw_table; assumption|intros _].
  apply save_step.
Qed.

(** X19. Whatever the files, the arithmetic and the state it starts from,
    [create_composite_image_with_gradient] saves an image exactly when it
    returns: then the save is the last call on the canvas, it is the only
    save among the calls made, it is under
    [path_out/gradient_flowers_composite_image.png], and that path is
    what is returned; when it raises, from whichever step, the calls
    made include no save. *)
Theorem composite_saved_iff_returned :
  forall (F : Type) (inst : PyFloat F) (w : env)
         (logo_path path_img1 path_img2 path_img3 path_img4 path_out font_path
            filepath : string) (st : state),
    match create_composite_image_with_gradient (F := F) w logo_path path_img1 path_img2
            path_img3 path_img4 path_out font_path filepath st with
    | (Ret p, st') =>
        p = (path_out ++ "/gradient_flowers_composite_image.png")%string
        /\ exists ops,
             canvas st' = (canvas st ++ ops ++ [Save p])%list
             /\ filter is_save ops = []
    | (Raise _, st') =>
        exists ops, canvas st' = (canvas st ++ ops)%list /\ filter is_save ops = []
    end.
Proof.
  intros F inst w logo_path path_img1 path_img2 path_img3 path_img4 path_out font_path
         filepath st.
  destruct (orchestrator_saves_last (F := F) w logo_path path_img1 path_img2
              path_img3 path_img4 path_out font_path filepath st)
    as (ops & lines & Hops & _ & Hrun).
  destruct (create_composite_image_with_gradient w logo_path path_img1 path_img2
              path_img3 path_img4 path_out font_path filepath st) as [[p|e] st'];
    cbn [fst snd] in Hrun.
  - destruct Hrun as [-> ->]. split; [reflexivity|].
    exists ops. split; [reflexivity|exact Hops].
  - exists ops. rewrite Hrun. split; [reflexivity|exact Hops].
Qed.

Lemma prefix_append (s t : string) : String.prefix s (s ++ t) = true.
Proof.
  induction s as [|a s IH]; cbn; [now destruct t|].
  destruct (ascii_dec a a); [exact IH|congruence].
Qed.

(** X20. [main] reports what was saved and nothing else: when it returns,
    the image has been saved in the current directory and the one line
    added to the reports names that file; when it raises, no image has
    been saved and no line reporting one has been printed. *)
Theorem main_reports_saved :
  forall (F : Type) (inst : PyFloat F) (w : env) (current_directory : string) (st : state),
    match main (F := F) w current_directory st with
    | (Ret _, st') =>
        saves st' = (saves st ++ [Save (output_path current_directory)])%list
        /\ reports st'
           = (reports st
              ++ [("The image has been saved to: " ++ output_path current_directory)%string])%list
    | (Raise _, st') => saves st' = saves st /\ reports st' = reports st
    end.
Proof.
  intros F inst w cwd st. unfold main. cbv zeta. unfold bind.
  destruct (orchestrator_saves_last (F := F) w (cwd ++ "/images/front_image.png")
              (cwd ++ "/images/1.png") (cwd ++ "/images/2.png") (cwd ++ "/images/3.png")
              (cwd ++ "/images/4.png") cwd (cwd ++ "/font/Comic Sans MS Bold.ttf")
              (cwd ++ "/data/data.json") st) as (ops & lines & Hops & Hlines & Hrun).
  destruct (create_composite_image_with_gradient w _ _ _ _ _ _ _ _ st) as [[p|e] st'];
    cbn [fst snd] in Hrun.
  - destruct Hrun as [-> ->]. unfold print, saves, reports, extend.
    cbn [canvas stdout]. rewrite !filter_app, Hops, Hlines. cbn [filter is_save app].
    split; [reflexivity|]. unfold is_report at 2.
    now rewrite prefix_append, app_nil_r.
  - rewrite Hrun. unfold saves, reports, extend. cbn [canvas stdout].
    rewrite !filter_app, Hops, Hlines, !app_nil_r. split; reflexivity.
Qed.

(** ** The whole composition on good inputs *)

Lemma thumbnail_path {F : Type} {PF : PyFloat F} (im scaled : image) (size : Z * Z) :
  thumbnail im size = Ret scaled -> img_path scaled = img_path im.
Proof.
  unfold thumbnail. destruct (thumbnail_size size (img_width im) (img_height im));
    cbn [obind]; [|discriminate].
  intros H. injection H as <-. reflexivity.
Qed.

(** X21. With flowers that [draw.ellipse] accepts, a logo (its sides
    positive and below [2^31]) and four images that open, a font that
    loads, a table file that decodes to a record set of strings fitting
    the two columns and a writable output file, the program returns the
    output path, prints nothing, and has made these canvas calls in this
    order: the 982 lines of the gradient, the six ellipses of the flower
    centred at (80, 80) and of the one at (612, 80), the paste of the
    logo as [thumbnail] scaled it, at (256, -10) through its own mask,
    the four slot pastes, the table at (71, 543), the save. *)
Theorem composite_on_good_inputs :
  forall (lm : Libm) (w : env)
         (logo_path path_img1 path_img2 path_img3 path_img4 path_out font_path
            filepath text : string)
         (logo_dims : Z * Z) (scaled : image) (table_data : json) (columns : list json)
         (rows : list (list json)),
    forallb accepted left_flower = true ->
    forallb accepted right_flower = true ->
    image_files w logo_path = Ret logo_dims ->
    0 < fst logo_dims < 2 ^ 31 ->
    0 < snd logo_dims < 2 ^ 31 ->
    thumbnail (F := spec_float) (mkImage logo_path (fst logo_dims) (snd logo_dims))
              (logo_size, logo_size) = Ret scaled ->
    Forall (readable w) [path_img1; path_img2; path_img3; path_img4] ->
    font_files w font_path = true ->
    read_text w filepath = Ret text ->
    json_loads w text = Ret table_data ->
    record_set table_data columns rows ->
    fits col_widths columns ->
    Forall (fits col_widths) rows ->
    all_strings columns = true ->
    Forall (fun row => all_strings row = true) rows ->
    writable w (output_path path_out) = true ->
    runs (create_composite_image_with_gradient (F := spec_float) w logo_path path_img1
            path_img2 path_img3 path_img4 path_out font_path filepath)
         (output_path path_out)
         (map (exact_line width height blue orange) (range height)
          ++ map ellipse_of left_flower
          ++ map ellipse_of right_flower
          ++ [Paste scaled 256 (-10) (Some scaled)]
          ++ map slot_paste
                 (combine (element_positions 137)
                          [path_img1; path_img2; path_img3; path_img4])
          ++ table_ops 71 543 col_widths row_height (mkFont font_path 16) columns rows
          ++ [Save (output_path path_out)])%list
         []
    /\ img_path scaled = logo_path.
Proof.
  intros lm w logo_path path_img1 path_img2 path_img3 path_img4 path_out font_path
         filepath text logo_dims scaled table_data columns rows
         Hleft Hright Hlogo _ _ Hscaled Himages Hfont Hread Hjson Hset Hhead Hrows
         Hstr Hstrs Hwrite.
  split; [|exact (thumbnail_path _ _ _ Hscaled)].
  pose proof (composite_runs lm w logo_path path_img1 path_img2 path_img3 path_img4
                path_out font_path filepath logo_dims scaled Hleft Hright Hlogo
                Hscaled Himages text table_data columns rows Hfont Hread Hjson Hset
                Hhead Hrows Hstr Hstrs Hwrite) as Hrun.
  cbv zeta in Hrun. rewrite <- !app_assoc in Hrun. exact Hrun.
Qed.

Lemma composite_on_good_inputs_witness :
  fst (sample_run (F := spec_float) "images/wide_logo.png" "data/data.json")
  = Ret "out/gradient_flowers_composite_image.png"
  /\ List.length
       (canvas (snd (sample_run (F := spec_float) "images/wide_logo.png" "data/data.json")))
     = (982 + 6 + 6 + 1 + 4 + 8 + 1)%nat.
Proof.
  destruct (composite_on_good_inputs sample_libm sample_env "images/wide_logo.png"
              "images/1.png" "images/2.png" "images/3.png" "images/4.png" "out"
              "font/Comic Sans MS Bold.ttf" "data/data.json" sample_text (360, 180)
              (mkImage "images/wide_logo.png" 180 90) sample_table
              [JStr "A"; JStr "B"] [[JStr "1"; JStr "2"]]
              (proj1 sample_flowers_accepted) (proj2 sample_flowers_accepted)
              eq_refl ltac:(cbn; lia) ltac:(cbn; lia) eq_refl sample_images_open
              eq_refl eq_refl eq_refl (conj eq_refl eq_refl)
              ltac:(unfold fits; cbn; lia)
              ltac:(repeat constructor; unfold fits; cbn; lia)
              eq_refl ltac:(repeat constructor) eq_refl) as [Hrun _].
  unfold sample_run. rewrite (Hrun initial_state). split; [reflexivity|].
  cbn [snd extend canvas initial_state app].
  rewrite !length_app, !length_map, length_range. reflexivity.
Defined.

(** ** What Pillow refuses *)

(** X22. A cell that is not a string stops the row with a [TypeError]:
    the cells before it are drawn in full and its own rectangle is drawn,
    then [draw.text] refuses it; the cells after it are not drawn. *)
Theorem draw_cells_type_error :
  forall anchor_x y (pre : list json) (cell : json) (post : list json) widths row_h f fill,
    sizes_ok widths row_h ->
    (List.length pre < List.length widths)%nat ->
    all_strings pre = true ->
    is_str cell = false ->
    fails (draw_cells anchor_x y (pre ++ cell :: post) widths row_h f fill) TypeError
          (cells_ops anchor_x y widths row_h f fill 0 pre
           ++ [Rectangle (column_x anchor_x widths (List.length pre)) y
                         (column_x anchor_x widths (List.length pre)
                          + nth (List.length pre) widths 0)
                         (y + row_h) (fill (List.length pre)) (Named "black")])%list
          [].
Proof.
  intros anchor_x y pre cell post widths row_h f fill Hsizes Hlen Hpre Hcell.
  unfold draw_cells, enumerate.
  assert (Hgen : forall k, (k + List.length pre < List.length widths)%nat ->
    fails (for_each (combine (seq k (List.length (pre ++ cell :: post)))
                             (pre ++ cell :: post))
             (fun '(col_idx, c) =>
                let x_offset := anchor_x + sum (prefix widths col_idx) in
                (w <- lift (index widths col_idx) ;;
                 draw_rectangle x_offset y (x_offset + w) (y + row_h) (fill col_idx)
                                (Named "black") ;;;
                 draw_text (x_offset + 10) (y + 10) c f (Named "black"))%py))
          TypeError
          (cells_ops anchor_x y widths row_h f fill k pre
           ++ [Rectangle (column_x anchor_x widths (k + List.length pre)) y
                         (column_x anchor_x widths (k + List.length pre)
                          + nth (k + List.length pre) widths 0)
                         (y + row_h) (fill (k + List.length pre)%nat) (Named "black")])%list
          []).
  { clear Hlen. induction pre as [|c pre IH]; intros k Hk.
    - cbn [app List.length seq combine for_each cells_ops flat_map].
      rewrite Nat.add_0_r in *. apply fails_bind_l.
      apply (cell_body_type_error anchor_x y widths row_h f fill Hsizes k cell Hk Hcell).
    - apply all_strings_cons in Hpre. destruct Hpre as [Hc Hpre].
      cbn [app List.length seq combine for_each]. cbn [List.length] in Hk.
      change (cells_ops anchor_x y widths row_h f fill k (c :: pre))
        with (cell_ops anchor_x y widths row_h f fill k c
              ++ cells_ops anchor_x y widths row_h f fill (S k) pre)%list.
      rewrite <- app_assoc.
      replace (k + S (List.length pre))%nat with (S k + List.length pre)%nat by lia.
      eapply fails_seq;
        [apply (cell_body_runs anchor_x y widths row_h f fill Hsizes k c); [lia|exact Hc]
        |apply (IH Hpre (S k)); lia|reflexivity|reflexivity]. }
  apply (Hgen 0%nat). lia.
Qed.

Lemma draw_cells_type_error_witness :
  fails (draw_cells 71 583 [JStr "1"; JNum "2"] [200; 350] 40 (mkFont "f.ttf" 16) data_fill)
        TypeError
        [ Rectangle 71 583 271 623 (Named "#E6E6FA") (Named "black");
          Text 81 593 (JStr "1") (mkFont "f.ttf" 16) (Named "black");
          Rectangle 271 583 621 623 (Named "#98FB98") (Named "black") ]
        [].
Proof.
  apply (draw_cells_type_error 71 583 [JStr "1"] (JNum "2") [] [200; 350] 40
           (mkFont "f.ttf" 16) data_fill).
  - split; [repeat constructor; lia|lia].
  - cbn. lia.
  - reflexivity.
  - reflexivity.
Defined.

(** X23. A negative row height, or a negative width of the first column,
    stops a row at its first cell: [draw.rectangle] refuses the box with
    a [ValueError] and nothing is drawn. *)
Theorem draw_cells_negative_size :
  forall anchor_x y (cell : json) (cells : list json) (width0 : Z) (widths : list Z)
         row_h f fill,
    row_h < 0 \/ width0 < 0 ->
    fails (draw_cells anchor_x y (cell :: cells) (width0 :: widths) row_h f fill)
          ValueError [] [].
Proof.
  intros anchor_x y cell cells width0 widths row_h f fill Hneg.
  unfold draw_cells, enumerate. cbn [List.length seq combine for_each].
  apply fails_bind_l.
  eapply fails_seq with (o1 := []) (l1 := []);
    [apply runs_lift; reflexivity| |reflexivity|reflexivity].
  apply fails_bind_l, fails_draw_rectangle. cbn. lia.
Qed.

Lemma draw_cells_negative_size_witness :
  fails (draw_cells 71 543 [JStr "A"; JStr "B"] [200; 350] (-40) (mkFont "f.ttf" 16)
                    header_fill)
        ValueError [] [].
Proof.
  apply (draw_cells_negative_size 71 543 (JStr "A") [JStr "B"] 200 [350] (-40)).
  left. lia.
Defined.

(** ** The size [thumbnail] gives *)

(** X24. [thumbnail] leaves alone an image that fits the bound.  One
    that does not fit comes out, when the arithmetic succeeds, with one
    side equal to the bound and the other at least 1.  A tie between two
    candidate sizes is broken in floating point: a logo of 9 by 360 is
    scaled to 5 by 180 (4.5 is equally far from 4 and 5 in exact
    arithmetic), one of 24 by 192 to 23 by 180. *)
Theorem thumbnail_size_shape :
  forall (lm : Libm) (x y iw ih : Z),
    (iw <= x -> ih <= y ->
     thumbnail_size (F := spec_float) (x, y) iw ih = Ret (iw, ih))
    /\ (forall tw th,
          x < iw \/ y < ih ->
          thumbnail_size (F := spec_float) (x, y) iw ih = Ret (tw, th) ->
          (tw = x /\ 1 <= th) \/ (th = y /\ 1 <= tw))
    /\ thumbnail_size (F := spec_float) (180, 180) 9 360 = Ret (5, 180)
    /\ thumbnail_size (F := spec_float) (180, 180) 24 192 = Ret (23, 180)
    /\ thumbnail_size (F := spec_float) (180, 180) 360 180 = Ret (180, 90)
    /\ thumbnail_size (F := spec_float) (180, 180) 1920 1080 = Ret (180, 101).
Proof.
  intros lm x y iw ih. split; [|split].
  - intros Hw Hh. unfold thumbnail_size.
    destruct (Z.leb_spec iw x); [|lia]. destruct (Z.leb_spec ih y); [|lia]. reflexivity.
  - intros tw th Hbig. unfold thumbnail_size.
    destruct ((iw <=? x) && (ih <=? y)) eqn:Hfit.
    + apply andb_true_iff in Hfit. destruct Hfit as [H1 H2].
      apply Z.leb_le in H1. apply Z.leb_le in H2. lia.
    + destruct (int_div iw ih) as [aspect|e]; cbn [obind]; [|discriminate].
      destruct (int_div x y) as [bound|e]; cbn [obind]; [|discriminate].
      destruct (fleb aspect bound).
      * destruct (int_times y aspect) as [number|e]; cbn [obind]; [|discriminate].
        unfold round_aspect.
        destruct (ffloor number) as [lo|e]; cbn [obind]; [|discriminate].
        destruct (fceil number) as [hi|e]; cbn [obind]; [|discriminate].
        destruct (int_div lo y) as [r1|e]; cbn [obind]; [|discriminate].
        destruct (int_div hi y) as [r2|e]; cbn [obind]; [|discriminate].
        intros H. injection H as <- <-. right. split; [reflexivity|lia].
      * destruct (of_int x) as [fx|e]; cbn [obind]; [|discriminate].
        destruct (fdiv fx aspect) as [number|e]; cbn [obind]; [|discriminate].
        unfold round_aspect.
        destruct (ffloor number) as [lo|e]; cbn [obind]; [|discriminate].
        destruct (fceil number) as [hi|e]; cbn [obind]; [|discriminate].
        destruct (if lo =? 0 then of_int 0
                  else (ratio <- int_div x lo ;; Ret (fabs (fsub aspect ratio)))%outcome)
          as [k1|e]; cbn [obind]; [|discriminate].
        destruct (if hi =? 0 then of_int 0
                  else (ratio <- int_div x hi ;; Ret (fabs (fsub aspect ratio)))%outcome)
          as [k2|e]; cbn [obind]; [|discriminate].
        intros H. injection H as <- <-. left. split; [reflexivity|lia].
  - evaluate.
Qed.

Lemma thumbnail_size_shape_witness :
  thumbnail_size (F := spec_float) (180, 180) 100 100 = Ret (100, 100).
Proof.
  apply (proj1 (thumbnail_size_shape sample_libm 180 180 100 100)); lia.
Defined.

